(** * MediaLive RTMP push input provisioning: a shallow embedding

    The development follows the two scripts of [aws_script/]:
    [rtmp_new_input.py] (the full, interactive builder) and [rtmp_quick.py]
    (the quick builder).  Python text is modelled as [string], every
    character standing for a code point below 256.  The cloud SDK, the
    random source, the UUID source, [ipaddress.ip_network] and the console
    are an explicit environment and an explicit world that every effectful
    function threads. *)

From Stdlib Require Import ZArith Lia Ascii DecimalString SpecFloat.
From stdpp Require Import base option list strings gmap sorting.

Local Open Scope Z_scope.

(** ** Python built-ins used by the scripts *)

Module Py.

(** Truthiness of an optional string: [None] and [""] are falsy. *)
Definition truthy (o : option string) : bool :=
  match o with
  | Some (String _ _) => true
  | _ => false
  end.

(** [a or b] on optional strings. *)
Definition or_else (a b : option string) : option string :=
  if truthy a then a else b.

(** [f"{x}"] of an optional string: [None] is printed as [None]. *)
Definition fmt (o : option string) : string :=
  match o with
  | Some s => s
  | None => "None"
  end.

Definition code (c : ascii) : nat := nat_of_ascii c.

Definition in_range (lo hi : nat) (c : ascii) : bool :=
  (Nat.leb lo (code c) && Nat.leb (code c) hi)%bool.

(** The class [[a-zA-Z0-9_-]]. *)
Definition is_name_char (c : ascii) : bool :=
  (in_range 97 122 c || in_range 65 90 c || in_range 48 57 c
   || Ascii.eqb c "_"%char || Ascii.eqb c "-"%char)%bool.

(** [[a-zA-Z0-9_-]*$] : without [re.MULTILINE], [$] matches at the end of
    the text and also just before a newline that ends the text. *)
Fixpoint re_name_tail (s : string) : bool :=
  match s with
  | "" => true
  | String c r =>
      if is_name_char c then re_name_tail r
      else (Ascii.eqb c "010"%char && String.eqb r "")%bool
  end.

(** [re.match(r'^[a-zA-Z0-9_-]+$', s)] is not [None]. *)
Definition re_match_name (s : string) : bool :=
  match s with
  | "" => false
  | String c r => (is_name_char c && re_name_tail r)%bool
  end.

(** [c in s] for a one-character [c]. *)
Fixpoint contains (c : ascii) (s : string) : bool :=
  match s with
  | "" => false
  | String d r => (Ascii.eqb d c || contains c r)%bool
  end.

(** [s.startswith(p)]. *)
Definition startswith (p s : string) : bool := String.prefix p s.

(** [s.split(sep)] for a one-character separator. *)
Fixpoint split (sep : ascii) (s : string) : list string :=
  match s with
  | "" => [""]
  | String c r =>
      if Ascii.eqb c sep then "" :: split sep r
      else match split sep r with
           | h :: t => String c h :: t
           | [] => [String c ""]
           end
  end.

(** [s.split(sep, 1)] : at most one cut, at the first separator. *)
Fixpoint split1 (sep : ascii) (s : string) : list string :=
  match s with
  | "" => [""]
  | String c r =>
      if Ascii.eqb c sep then [""; r]
      else match split1 sep r with
           | h :: t => String c h :: t
           | [] => [String c ""]
           end
  end.

(** [str.isspace] on code points below 256. *)
Definition isspace (c : ascii) : bool :=
  (in_range 9 13 c || in_range 28 32 c
   || Nat.eqb (code c) 133 || Nat.eqb (code c) 160)%bool.

Fixpoint lstrip_by (sp : ascii -> bool) (s : string) : string :=
  match s with
  | "" => ""
  | String c r => if sp c then lstrip_by sp r else s
  end.

(** Drops the trailing characters satisfying [sp]. *)
Fixpoint rstrip_by (sp : ascii -> bool) (s : string) : string :=
  match s with
  | "" => ""
  | String c r =>
      match rstrip_by sp r with
      | "" => if sp c then "" else String c ""
      | r' => String c r'
      end
  end.

(** [s.strip()]. *)
Definition strip (s : string) : string := rstrip_by isspace (lstrip_by isspace s).

(** White space that [int] skips around the numeral: the six ASCII blanks,
    and the non-ASCII blanks, which [int] maps to a space first. *)
Definition int_space (c : ascii) : bool :=
  (in_range 9 13 c || Nat.eqb (code c) 32
   || Nat.eqb (code c) 133 || Nat.eqb (code c) 160)%bool.

Definition digit_val (c : ascii) : option Z :=
  if in_range 48 57 c then Some (Z.of_nat (code c) - 48) else None.

(** Digits with single underscores between them; returns the value and the
    number of digits read. *)
Fixpoint int_digits (s : string) (acc : Z) (after_digit : bool) (n : nat)
  : option (Z * nat) :=
  match s with
  | "" => if after_digit then Some (acc, n) else None
  | String c r =>
      match digit_val c with
      | Some d => int_digits r (10 * acc + d) true (S n)
      | None =>
          if (Ascii.eqb c "_"%char && after_digit)%bool
          then int_digits r acc false n
          else None
      end
  end.

(** [int(s)] in base 10; [None] stands for [ValueError].  [max_digits] is
    [sys.get_int_max_str_digits()], 0 meaning no limit. *)
Definition int (max_digits : nat) (s : string) : option Z :=
  let t := rstrip_by int_space (lstrip_by int_space s) in
  let '(neg, body) :=
    match t with
    | String "+"%char r => (false, r)
    | String "-"%char r => (true, r)
    | _ => (false, t)
    end in
  match int_digits body 0 false 0 with
  | Some (v, n) =>
      if (negb (Nat.eqb max_digits 0) && Nat.ltb max_digits n)%bool then None
      else Some (if neg then - v else v)
  | None => None
  end.

(** [l[i]] with Python's negative indices; [None] stands for [IndexError]. *)
Definition index {A} (l : list A) (i : Z) : option A :=
  let n := Z.of_nat (length l) in
  if (0 <=? i) && (i <? n) then l !! Z.to_nat i
  else if (- n <=? i) && (i <? 0) then l !! Z.to_nat (n + i)
  else None.

(** [str(n)] of a non-negative integer. *)
Definition str_of_nat (n : nat) : string :=
  NilEmpty.string_of_uint (Nat.to_uint n).

Definition str_of_Z (z : Z) : string :=
  NilEmpty.string_of_int (Z.to_int z).

(** [c.lower()] on code points below 256: the ASCII capitals and the
    Latin-1 capitals move up by 32. *)
Definition lower_char (c : ascii) : ascii :=
  if (in_range 65 90 c || in_range 192 214 c || in_range 216 222 c)%bool
  then ascii_of_nat (code c + 32) else c.

(** [s.lower()] *)
Fixpoint lower (s : string) : string :=
  match s with
  | "" => ""
  | String c r => String (lower_char c) (lower r)
  end.

End Py.

(** ** Exceptions and results *)

Inductive exn :=
| ValueError (msg : string)
| IndexError (msg : string)
| KeyError (key : string)
| EOFError
| SystemExit (msg : string)
| ClientError (msg : string)
| TypeError (msg : string)
| RecursionError (msg : string)
| OtherError (msg : string).

Inductive Result (A : Type) :=
| Ok (a : A)
| Raise (e : exn).
Arguments Ok {A} a.
Arguments Raise {A} e.

(** ** Data of the cloud account and of the request under construction *)

(** An element of [list_inputs()['Inputs']]; [Name] is read with [.get]. *)
Record InputInfo := { input_Name : option string }.

(** An element of [describe_subnets()['Subnets']]. *)
Record Subnet := {
  SubnetId : string;
  CidrBlock : option string;
  AvailabilityZone : option string }.

(** An element of [describe_security_groups()['SecurityGroups']]. *)
Record SecurityGroup := {
  GroupId : string;
  GroupName : option string;
  Description : option string }.

Record WhitelistRule := { rule_Cidr : option string }.

(** An element of [list_input_security_groups()['InputSecurityGroups']]. *)
Record InputSecurityGroup := {
  isg_Id : string;
  isg_WhitelistRules : option (list WhitelistRule) }.

(** An element of [list_networks()['Networks']]. *)
Record NetworkInfo := { net_Id : string; net_Name : option string }.

(** [{'Cidr': c}], as a whitelist rule or an IP pool of a request. *)
Record CidrEntry := { entry_Cidr : string }.

(** [{'Cidr': c}] or [{'Cidr': c, 'Gateway': g}]. *)
Record Route := { Cidr : string; Gateway : option string }.

Record Destination := {
  StreamName : string;
  Network : option string;
  StaticIpAddress : option string;
  NetworkRoutes : option (list Route) }.

Record VpcConfig := {
  SubnetIds : option (list string);
  SecurityGroupIds : option (list string) }.

(** The keyword arguments of [create_input].  A field is [None] when the
    key is absent; [RoleArn] is [Some None] when the key is present with the
    value [None]. *)
Record InputRequest := {
  Name : string;
  Type_ : string;
  InputNetworkLocation : string;
  Destinations : option (list Destination);
  InputSecurityGroups : option (list string);
  Vpc : option VpcConfig;
  RoleArn : option (option string);
  Tags : option (gmap string string) }.

(** A value that [json.load] returns: [None], a [bool], an [int], a
    [float], a [str], a [list] or a [dict], whose keys are texts. *)
#[warnings="-register-all"] Inductive Json :=
| JsonNull
| JsonBool (b : bool)
| JsonInt (n : Z)
| JsonFloat (f : spec_float)
| JsonString (s : string)
| JsonArray (items : list Json)
| JsonObject (members : list (string * Json)).

(** [type(v).__name__] *)
Definition type_name (v : Json) : string :=
  match v with
  | JsonNull => "NoneType"
  | JsonBool _ => "bool"
  | JsonInt _ => "int"
  | JsonFloat _ => "float"
  | JsonString _ => "str"
  | JsonArray _ => "list"
  | JsonObject _ => "dict"
  end.

(** [bool(v)] : [None], [False], zero, and the empty text, list and dict
    are falsy. *)
Definition json_truthy (v : Json) : bool :=
  match v with
  | JsonNull => false
  | JsonBool b => b
  | JsonInt n => negb (n =? 0)
  | JsonFloat (S754_zero _) => false
  | JsonFloat _ => true
  | JsonString "" => false
  | JsonString _ => true
  | JsonArray [] => false
  | JsonArray _ => true
  | JsonObject [] => false
  | JsonObject _ => true
  end.

(** The message of the [AttributeError] that [v.get] raises: of these
    values the [dict] alone has the method. *)
Definition json_get_error (v : Json) : option string :=
  match v with
  | JsonObject _ => None
  | _ => Some ("'" +:+ type_name v +:+ "' object has no attribute 'get'")
  end.

(** The descriptor that [create_input] answers, printed as it comes. *)
Record InputRecord := { record_text : string }.

(** The answer of [create_network]: its [Id], when present, and its text. *)
Record NetworkResponse := { response_Id : option string; response_text : string }.

Record NetworkRequest := {
  nr_Name : string;
  nr_IpPools : list CidrEntry;
  nr_Routes : option (list Route) }.

(** The calls made to the SDK clients, with their arguments. *)
Inductive ApiCall :=
| ListInputs
| DescribeSubnets
| DescribeSecurityGroups
| ListInputSecurityGroups
| ListNetworks
| CreateInputSecurityGroup (WhitelistRules : list CidrEntry) (tags : gmap string string)
| CreateNetwork (req : NetworkRequest)
| CreateInput (req : InputRequest)
| CreateInputFromConfig (kwargs : list (string * Json)).

(** ** The environment and the world *)

(** What the scripts cannot decide themselves.  Every answer of the cloud
    may depend on the calls made so far, and may be an exception. *)
Record Env := {
  api_list_inputs : list ApiCall -> Result (list InputInfo);
  api_describe_subnets : list ApiCall -> Result (list Subnet);
  api_describe_security_groups : list ApiCall -> Result (list SecurityGroup);
  api_list_input_security_groups :
    list ApiCall -> Result (option (list InputSecurityGroup));
  api_list_networks : list ApiCall -> Result (option (list NetworkInfo));
  api_create_input_security_group :
    list ApiCall -> list CidrEntry -> gmap string string -> Result string;
  api_create_network : list ApiCall -> NetworkRequest -> Result NetworkResponse;
  api_create_input : list ApiCall -> InputRequest -> Result InputRecord;
  api_create_input_from_config :
    list ApiCall -> list (string * Json) -> Result InputRecord;
  (** the n-th raw draw of the random generator *)
  random_draw : nat -> nat;
  (** the n-th value of [uuid.uuid4()], as text *)
  uuid4_text : nat -> string;
  (** [ipaddress.ip_network(s)] does not raise *)
  ip_network_ok : string -> bool;
  (** [json.load] of the file at a path; [inr msg] when it raises *)
  read_json : string -> Json + string;
  (** how the interpreter names [client.create_input] in a [TypeError] *)
  create_input_repr : string;
  (** the nested calls of one function that the recursion limit leaves
      room for *)
  recursion_room : nat;
  (** [sys.get_int_max_str_digits()] *)
  int_max_str_digits : nat;
  (** the message of the [ValueError] that [int(s)] raises *)
  int_error : string -> string;
  (** [repr] of the values the scripts print with an f-string *)
  repr_rules : option (list WhitelistRule) -> string;
  repr_strings : list string -> string }.

(** What the console shows. *)
Inductive Out :=
| Printed (line : string)
| Prompted (prompt : string).

Record World := {
  stdin : list string;
  console : list Out;
  calls : list ApiCall;
  rand_pos : nat;
  uuid_pos : nat }.

Definition with_console (o : Out) (w : World) : World :=
  {| stdin := stdin w; console := console w ++ [o]; calls := calls w;
     rand_pos := rand_pos w; uuid_pos := uuid_pos w |}.

Definition with_stdin (l : list string) (w : World) : World :=
  {| stdin := l; console := console w; calls := calls w;
     rand_pos := rand_pos w; uuid_pos := uuid_pos w |}.

Definition with_call (c : ApiCall) (w : World) : World :=
  {| stdin := stdin w; console := console w; calls := calls w ++ [c];
     rand_pos := rand_pos w; uuid_pos := uuid_pos w |}.

Definition with_rand (n : nat) (w : World) : World :=
  {| stdin := stdin w; console := console w; calls := calls w;
     rand_pos := n; uuid_pos := uuid_pos w |}.

Definition with_uuid (n : nat) (w : World) : World :=
  {| stdin := stdin w; console := console w; calls := calls w;
     rand_pos := rand_pos w; uuid_pos := n |}.

(** ** Effectful computations *)

Definition M (A : Type) : Type := World -> Result A * World.

Definition ret {A} (a : A) : M A := fun w => (Ok a, w).

Definition raise {A} (e : exn) : M A := fun w => (Raise e, w).

Definition bind {A B} (m : M A) (k : A -> M B) : M B := fun w =>
  match m w with
  | (Ok a, w') => k a w'
  | (Raise e, w') => (Raise e, w')
  end.

Notation "'let*' x ':=' m 'in' k" := (bind m (fun x => k))
  (at level 10, x name, m at level 100, k at level 200).
Notation "'let*' ' p ':=' m 'in' k" := (bind m (fun p => k))
  (at level 10, p strict pattern, m at level 100, k at level 200).
Notation "m '>>' k" := (bind m (fun _ => k))
  (at level 90, right associativity).

(** [try: m except E: h] : [handler e] is [Some h] for the exceptions that
    the clause catches. *)
Definition try_except {A} (m : M A) (handler : exn -> option (M A)) : M A := fun w =>
  match m w with
  | (Ok a, w') => (Ok a, w')
  | (Raise e, w') =>
      match handler e with
      | Some h => h w'
      | None => (Raise e, w')
      end
  end.

(** [except ClientError as e] *)
Definition on_ClientError {A} (h : string -> M A) (e : exn) : option (M A) :=
  match e with
  | ClientError msg => Some (h msg)
  | _ => None
  end.

Definition of_option {A} (e : exn) (o : option A) : M A :=
  match o with
  | Some a => ret a
  | None => raise e
  end.

Definition print (line : string) : M unit := fun w =>
  (Ok tt, with_console (Printed line) w).

(** [input(prompt)] : shows the prompt and reads a line; [EOFError] when the
    standard input is exhausted. *)
Definition input (prompt : string) : M string := fun w =>
  match stdin w with
  | [] => (Raise EOFError, with_console (Prompted prompt) w)
  | l :: rest => (Ok l, with_stdin rest (with_console (Prompted prompt) w))
  end.

(** A call to a client: the call is logged and answered from the history. *)
Definition call {A} (c : ApiCall) (answer : list ApiCall -> Result A) : M A := fun w =>
  (answer (calls w), with_call c w).

Section Runtime.
Context (env : Env).

(** [uuid.uuid4()] in an f-string. *)
Definition uuid4 : M string := fun w =>
  (Ok (uuid4_text env (uuid_pos w)), with_uuid (S (uuid_pos w)) w).

(** [random.choice(seq)] *)
Definition random_choice (seq : list ascii) : M ascii := fun w =>
  match seq with
  | [] => (Raise (IndexError "Cannot choose from an empty sequence"), w)
  | c0 :: _ =>
      (Ok (nth (random_draw env (rand_pos w) mod length seq)%nat seq c0),
       with_rand (S (rand_pos w)) w)
  end.

(** [string.ascii_uppercase + string.digits] *)
Definition suffix_alphabet : string := "ABCDEFGHIJKLMNOPQRSTUVWXYZ0123456789".

(** [''.join(random.choice(alphabet) for _ in range(n))] *)
Fixpoint random_join (n : nat) : M string :=
  match n with
  | O => ret ""
  | S n' =>
      let* c := random_choice (String.list_ascii_of_string suffix_alphabet) in
      let* r := random_join n' in
      ret (String c r)
  end.

Definition py_int (s : string) : M Z :=
  of_option (ValueError (int_error env s)) (Py.int (int_max_str_digits env) s).

(** [client.create_input] called with [**config] : the interpreter unpacks
    the keyword arguments before it enters the method, so a value that is no
    mapping raises [TypeError] and no call is made. *)
Definition create_input_from (config : Json) : M InputRecord :=
  match config with
  | JsonObject kwargs =>
      call (CreateInputFromConfig kwargs)
           (fun h => api_create_input_from_config env h kwargs)
  | _ =>
      raise (TypeError (create_input_repr env
                        +:+ " argument after ** must be a mapping, not "
                        +:+ type_name config))
  end.

End Runtime.

(** ** What both scripts share *)

(** The namespace that [argparse] returns.  [nargs='+'] options are lists;
    every option is [None] when it is not given. *)
Record Args := {
  config : option string;
  name : option string;
  region : option string;
  source_type : option string;
  app_name : option string;
  app_instance : option string;
  secondary_app_name : option string;
  secondary_app_instance : option string;
  security_group : option string;
  subnets : option (list string);
  role_arn : option string;
  network : option string;
  static_ip : option string;
  network_routes : option (list string);
  tags : option (list string) }.

Definition nl : string := String "010"%char "".

(** [str(e)] of an exception. *)
Definition exn_str (e : exn) : string :=
  match e with
  | ValueError m | IndexError m | SystemExit m | ClientError m | TypeError m
  | RecursionError m | OtherError m => m
  | KeyError k => "'" +:+ k +:+ "'"
  | EOFError => "EOF when reading a line"
  end.

(** [k, v = pieces] inside the comprehension's [for k, v in [pieces]]. *)
Definition unpack2 (pieces : list string) : Result (string * string) :=
  match pieces with
  | [k; v] => Ok (k, v)
  | [] => Raise (ValueError "not enough values to unpack (expected 2, got 0)")
  | [_] => Raise (ValueError "not enough values to unpack (expected 2, got 1)")
  | _ => Raise (ValueError "too many values to unpack (expected 2)")
  end.

(** One round of
    [{k: v for tag in tags for k, v in [tag.split('=', 1)] if '=' in tag}] :
    the inner [for] unpacks the pieces first, the [if] is tested after. *)
Definition add_tag (d : gmap string string) (tag : string) : Result (gmap string string) :=
  match unpack2 (Py.split1 "="%char tag) with
  | Ok (k, v) => Ok (if Py.contains "="%char tag then <[k := v]> d else d)
  | Raise e => Raise e
  end.

Fixpoint parse_tags_from (d : gmap string string) (tags : list string)
  : Result (gmap string string) :=
  match tags with
  | [] => Ok d
  | tag :: rest =>
      match add_tag d tag with
      | Ok d' => parse_tags_from d' rest
      | Raise e => Raise e
      end
  end.

(** The dict comprehension of both scripts. *)
Definition parse_tags (tags : list string) : Result (gmap string string) :=
  parse_tags_from ∅ tags.

(** [{'Cidr': r.split(':', 1)[0], 'Gateway': r.split(':', 1)[1]} if ':' in r
     else {'Cidr': r}] *)
Definition parse_route (r : string) : Route :=
  if Py.contains ":"%char r then
    match Py.split1 ":"%char r with
    | c :: g :: _ => {| Cidr := c; Gateway := Some g |}
    | _ => {| Cidr := r; Gateway := None |}
    end
  else {| Cidr := r; Gateway := None |}.

(** The body of [for dest in ...] of the ON_PREMISES branch. *)
Definition bind_network (args : Args) (network_id : string) (dest : Destination)
  : Destination :=
  {| StreamName := StreamName dest;
     Network := Some network_id;
     StaticIpAddress :=
       if Py.truthy (static_ip args) then static_ip args else StaticIpAddress dest;
     NetworkRoutes :=
       match network_routes args with
       | Some (r :: rs) => Some (map parse_route (r :: rs))
       | _ => NetworkRoutes dest
       end |}.

Definition stream (n i : option string) : Destination :=
  {| StreamName := Py.fmt n +:+ "/" +:+ Py.fmt i;
     Network := None; StaticIpAddress := None; NetworkRoutes := None |}.

(** The two destinations built from the application names. *)
Definition destinations (args : Args) : list Destination :=
  [ stream (app_name args) (app_instance args);
    stream (Py.or_else (secondary_app_name args) (app_name args))
           (Py.or_else (secondary_app_instance args) (app_instance args)) ].

(** ["ON_PREMISES" if args.source_type == "ON_PREMISES" else "AWS"] *)
Definition location (args : Args) : string :=
  if bool_decide (source_type args = Some "ON_PREMISES") then "ON_PREMISES" else "AWS".

(** [Tags={'AutoCreated': 'True'}] *)
Definition auto_created_tags : gmap string string := {[ "AutoCreated" := "True" ]}.

Definition set_InputSecurityGroups (ids : list string) (r : InputRequest) : InputRequest :=
  {| Name := Name r; Type_ := Type_ r; InputNetworkLocation := InputNetworkLocation r;
     Destinations := Destinations r; InputSecurityGroups := Some ids;
     Vpc := Vpc r; RoleArn := RoleArn r; Tags := Tags r |}.

Definition set_Vpc (v : VpcConfig) (role : option string) (r : InputRequest) : InputRequest :=
  {| Name := Name r; Type_ := Type_ r; InputNetworkLocation := InputNetworkLocation r;
     Destinations := Destinations r; InputSecurityGroups := InputSecurityGroups r;
     Vpc := Some v; RoleArn := Some role; Tags := Tags r |}.

Definition set_Destinations (d : option (list Destination)) (r : InputRequest) : InputRequest :=
  {| Name := Name r; Type_ := Type_ r; InputNetworkLocation := InputNetworkLocation r;
     Destinations := d; InputSecurityGroups := InputSecurityGroups r;
     Vpc := Vpc r; RoleArn := RoleArn r; Tags := Tags r |}.

Definition set_Tags (t : gmap string string) (r : InputRequest) : InputRequest :=
  {| Name := Name r; Type_ := Type_ r; InputNetworkLocation := InputNetworkLocation r;
     Destinations := Destinations r; InputSecurityGroups := InputSecurityGroups r;
     Vpc := Vpc r; RoleArn := RoleArn r; Tags := Some t |}.

(** The value that [if args.tags: input_request['Tags'] = {...}] stores:
    [Ok None] when [args.tags] is falsy and no key is set. *)
Definition tags_of (args : Args) : Result (option (gmap string string)) :=
  match tags args with
  | Some (t :: ts) =>
      match parse_tags (t :: ts) with
      | Ok d => Ok (Some d)
      | Raise e => Raise e
      end
  | _ => Ok None
  end.

(** [if args.tags: input_request['Tags'] = {...}] *)
Definition add_tags (args : Args) (r : InputRequest) : M InputRequest :=
  match tags_of args with
  | Ok (Some d) => ret (set_Tags d r)
  | Ok None => ret r
  | Raise e => raise e
  end.

(** [except Exception as e] : every exception of the model but
    [SystemExit], which is no [Exception]. *)
Definition on_Exception {A} (h : exn -> M A) (e : exn) : option (M A) :=
  match e with
  | SystemExit _ => None
  | _ => Some (h e)
  end.

Definition hex_digit (n : nat) : ascii :=
  nth n (String.list_ascii_of_string "0123456789abcdef") "0"%char.

(** One character inside a text of [json.dumps], with [ensure_ascii]: the
    characters from the space to the tilde stand for themselves, but for the
    quote and the backslash; the others are escaped. *)
Definition json_escape (c : ascii) : string :=
  let n := nat_of_ascii c in
  if Nat.eqb n 34 then String "\"%char (String c "")
  else if Nat.eqb n 92 then String c (String c "")
  else if Nat.eqb n 8 then "\b"
  else if Nat.eqb n 9 then "\t"
  else if Nat.eqb n 10 then "\n"
  else if Nat.eqb n 12 then "\f"
  else if Nat.eqb n 13 then "\r"
  else if (Nat.leb 32 n && Nat.leb n 126)%bool then String c ""
  else "\u00" +:+ String (hex_digit (n / 16)) (String (hex_digit (n mod 16)) "").

Fixpoint json_escape_all (s : string) : string :=
  match s with
  | "" => ""
  | String c r => json_escape c +:+ json_escape_all r
  end.

(** [json.dumps(s)] of a text. *)
Definition json_dumps_str (s : string) : string :=
  let quote := String (ascii_of_nat 34) "" in
  quote +:+ json_escape_all s +:+ quote.

(** [json.dumps({"error": msg})] *)
Definition json_dumps_error (msg : string) : string :=
  "{" +:+ json_dumps_str "error" +:+ ": " +:+ json_dumps_str msg +:+ "}".

(** ** [rtmp_new_input.py] : the full builder *)

Module rtmp_new_input.

(** An entry of [resource_info['security_groups']]; a field is [None] when
    the entry has no such key. *)
Record SgReport := {
  report_id : string;
  report_cidr : option string;
  report_auto_created : option bool;
  report_name : option string;
  report_description : option string }.

(** [resource_info], the record of what was selected or created. *)
Record ResourceInfo := {
  info_subnets : list string;
  info_security_groups : list SgReport;
  info_availability_zones : gmap string string;
  info_networks : list string }.

Section Script.
Context (env : Env).

(** [validate_name(medialive_client, name, attempt)], by recursion on
    [left = 3 - attempt], the number of suffixes that may still be tried:
    [attempt >= 3] is [left = 0], and [attempt + 1] is one less left. *)
Fixpoint validate_name_left (left : nat) (name : option string) : M string :=
  match name with
  | Some (String c r as name) =>
      if negb (Py.re_match_name name)
      then raise (ValueError "Input name must be alphanumeric with hyphens/underscores")
      else
        try_except
          (let* existing_inputs := call ListInputs (api_list_inputs env) in
           if existsb (fun input_info => bool_decide (input_Name input_info = Some name))
                      existing_inputs
           then
             match left with
             | O => raise (ValueError "Could not generate unique name after 3 attempts")
             | S left' =>
                 let* suffix := random_join env 6 in
                 let new_name := name +:+ "-" +:+ suffix in
                 print ("Warning: Name '" +:+ name +:+ "' exists, trying '"
                        +:+ new_name +:+ "'") >>
                 validate_name_left left' (Some new_name)
             end
           else ret name)
          (on_ClientError (fun e =>
             print ("Warning: Name check failed: " +:+ e) >> ret name))
  | _ =>
      let* u := uuid4 env in
      ret ("rtmp-input-" +:+ u)
  end.

Definition validate_name (name : option string) (attempt : nat) : M string :=
  validate_name_left (3 - attempt) name.

(** [get_available_resources(region)] *)
Definition get_available_resources : M (list Subnet * list SecurityGroup) :=
  try_except
    (let* subnets := call DescribeSubnets (api_describe_subnets env) in
     let* security_groups :=
       call DescribeSecurityGroups (api_describe_security_groups env) in
     ret (subnets, security_groups))
    (on_ClientError (fun e =>
       print ("Error fetching resources: " +:+ e) >> ret ([], []))).

(** [get_az_for_subnet(subnet_id, all_subnets)] *)
Fixpoint get_az_for_subnet (subnet_id : string) (all_subnets : list Subnet) : string :=
  match all_subnets with
  | [] => "Unknown"
  | subnet :: rest =>
      if bool_decide (SubnetId subnet = subnet_id)
      then default "Unknown" (AvailabilityZone subnet)
      else get_az_for_subnet subnet_id rest
  end.

(** The candidates handed to [select_resources]: the subnets or the security
    groups of the account, as [describe_*] lists them. *)
Inductive Items :=
| SubnetItems (l : list Subnet)
| GroupItems (l : list SecurityGroup).

Definition item_count (items : Items) : nat :=
  match items with
  | SubnetItems l => length l
  | GroupItems l => length l
  end.

(** [item['SubnetId']] or [item['GroupId']], by what [items[0]] has. *)
Definition item_ids (items : Items) : list string :=
  match items with
  | SubnetItems l => map SubnetId l
  | GroupItems l => map GroupId l
  end.

(** The lines of [for i, item in enumerate(items, 1): print(...)]. *)
Definition item_lines (items : Items) : list string :=
  match items with
  | SubnetItems l =>
      imap (fun i item =>
              Py.str_of_nat (S i) +:+ ". " +:+ SubnetId item +:+ " - "
              +:+ default "N/A" (CidrBlock item) +:+ " - "
              +:+ default "N/A" (AvailabilityZone item)) l
  | GroupItems l =>
      imap (fun i item =>
              Py.str_of_nat (S i) +:+ ". " +:+ GroupId item +:+ " - "
              +:+ default "N/A" (GroupName item)) l
  end.

Fixpoint print_all (lines : list string) : M unit :=
  match lines with
  | [] => ret tt
  | l :: rest => print l >> print_all rest
  end.

Definition int_of (s : string) : Result Z :=
  match Py.int (int_max_str_digits env) s with
  | Some z => Ok z
  | None => Raise (ValueError (int_error env s))
  end.

(** [start, end = map(int, pieces)] : [map] is lazy, so the pieces are
    converted one by one while the unpacking asks for them, a third one
    included when there is one. *)
Definition unpack2_ints (pieces : list string) : Result (Z * Z) :=
  match pieces with
  | [] => Raise (ValueError "not enough values to unpack (expected 2, got 0)")
  | a :: rest =>
      match int_of a with
      | Raise e => Raise e
      | Ok x =>
          match rest with
          | [] => Raise (ValueError "not enough values to unpack (expected 2, got 1)")
          | b :: rest' =>
              match int_of b with
              | Raise e => Raise e
              | Ok y =>
                  match rest' with
                  | [] => Ok (x, y)
                  | c :: _ =>
                      match int_of c with
                      | Raise e => Raise e
                      | Ok _ => Raise (ValueError "too many values to unpack (expected 2)")
                      end
                  end
              end
          end
      end
  end.

(** The body of [for part in selection.split(',')]. *)
Definition add_part (len : Z) (indices : gset Z) (part : string) : Result (gset Z) :=
  let part := Py.strip part in
  if Py.contains "-"%char part then
    match unpack2_ints (Py.split "-"%char part) with
    | Raise e => Raise e
    | Ok (start, end_) =>
        if (1 <=? start) && (start <=? end_) && (end_ <=? len)
        then Ok (indices ∪ list_to_set (seqZ start (end_ + 1 - start)))
        else Raise (ValueError ("Invalid range: " +:+ part))
    end
  else
    match int_of part with
    | Raise e => Raise e
    | Ok value =>
        if (1 <=? value) && (value <=? len)
        then Ok (indices ∪ {[ value ]})
        else Raise (ValueError ("Invalid selection: " +:+ Py.str_of_Z value))
    end.

Fixpoint add_parts (len : Z) (indices : gset Z) (parts : list string) : Result (gset Z) :=
  match parts with
  | [] => Ok indices
  | part :: rest =>
      match add_part len indices part with
      | Ok indices' => add_parts len indices' rest
      | Raise e => Raise e
      end
  end.

(** [sorted(indices)] *)
Definition sorted (indices : gset Z) : list Z := merge_sort Z.le (elements indices).

(** [[items[i-1][key] for i in sorted(indices)]] *)
Fixpoint pick (ids : list string) (idxs : list Z) : Result (list string) :=
  match idxs with
  | [] => Ok []
  | i :: rest =>
      match Py.index ids (i - 1) with
      | None => Raise (IndexError "list index out of range")
      | Some id =>
          match pick ids rest with
          | Ok l => Ok (id :: l)
          | Raise e => Raise e
          end
      end
  end.

(** What one pass of the [while True] body does with the line it read. *)
Inductive Attempt :=
| Selected (ids : list string)
| TooFew
| Invalid (e : exn).

(** The [try] block of [select_resources] on one line of input: the pure
    core of the selection. *)
Definition select_attempt (items : Items) (min_count : Z) (selection : string) : Attempt :=
  match add_parts (Z.of_nat (item_count items)) ∅ (Py.split ","%char selection) with
  | Raise e => Invalid e
  | Ok indices =>
      if Z.of_nat (size indices) <? min_count then TooFew
      else match pick (item_ids items) (sorted indices) with
           | Ok ids => Selected ids
           | Raise e => Invalid e
           end
  end.

Definition select_prompt (prompt : string) : string :=
  nl +:+ "Select " +:+ prompt +:+ "(s) (e.g., '1,2' or '2-4,6'): ".

(** The [while True] loop: each pass reads one line, so the loop is written
    by recursion on the lines that the standard input still holds; when they
    run out, [input] raises [EOFError]. *)
Fixpoint select_loop (items : Items) (prompt : string) (min_count : Z)
    (lines : list string) (w : World) : Result (list string) * World :=
  let w0 := with_console (Prompted (select_prompt prompt)) w in
  match lines with
  | [] => (Raise EOFError, w0)
  | selection :: rest =>
      let w1 := with_stdin rest w0 in
      match select_attempt items min_count selection with
      | Selected ids => (Ok ids, w1)
      | TooFew =>
          select_loop items prompt min_count rest
            (with_console
               (Printed ("Please select at least " +:+ Py.str_of_Z min_count +:+ " "
                         +:+ prompt +:+ "(s).")) w1)
      | Invalid e =>
          select_loop items prompt min_count rest
            (with_console
               (Printed ("Invalid selection: " +:+ exn_str e +:+ ". Please try again."))
               w1)
      end
  end.

(** [select_resources(items, prompt, multiple, min_count)] *)
Definition select_resources (items : Items) (prompt : string) (multiple : bool)
    (min_count : Z) : M (list string) :=
  match item_count items with
  | O =>
      print ("No " +:+ prompt +:+ "s available in this account/region.") >> ret []
  | S _ =>
      print (nl +:+ "Available " +:+ prompt +:+ "s:") >>
      print_all (item_lines items) >>
      (fun w => select_loop items prompt min_count (stdin w) w)
  end.

(** [validate_cidr(cidr)] : [ipaddress.ip_network(cidr)] does not raise. *)
Definition validate_cidr (cidr : string) : bool := ip_network_ok env cidr.

(** [get_available_security_groups(medialive_client)] *)
Definition get_available_security_groups : M (list InputSecurityGroup) :=
  try_except
    (let* response := call ListInputSecurityGroups (api_list_input_security_groups env) in
     ret (default [] response))
    (on_ClientError (fun e =>
       print ("Error fetching MediaLive security groups: " +:+ e) >> ret [])).

(** [get_available_networks(medialive_client)] *)
Definition get_available_networks : M (list NetworkInfo) :=
  try_except
    (let* response := call ListNetworks (api_list_networks env) in
     ret (default [] response))
    (on_ClientError (fun e =>
       print ("Error fetching networks: " +:+ e) >> ret [])).

(** [create_medialive_network(medialive_client, name, ip_pools, routes)] *)
Definition create_medialive_network (name : string) (ip_pools : list CidrEntry)
    (routes : option (list Route)) : M (option string) :=
  let request :=
    {| nr_Name := name; nr_IpPools := ip_pools;
       nr_Routes := match routes with
                    | Some (r :: rs) => Some (r :: rs)
                    | _ => None
                    end |} in
  try_except
    (let* response := call (CreateNetwork request)
                           (fun h => api_create_network env h request) in
     match response_Id response with
     | Some network_id =>
         print ("Created network '" +:+ name +:+ "' with ID: " +:+ network_id) >>
         ret (Some network_id)
     | None =>
         print ("Error: Unexpected response format: " +:+ response_text response) >>
         ret None
     end)
    (on_ClientError (fun e =>
       print ("Error creating network: " +:+ e) >> ret None)).

(** The first [while True] of [create_new_network], by recursion on the
    lines left on the standard input. *)
Fixpoint read_ip_pools (ip_pools : list CidrEntry) (lines : list string) (w : World)
  : Result (list CidrEntry) * World :=
  let w0 :=
    with_console
      (Prompted "Enter IP pool CIDR (or leave empty to finish adding pools): ") w in
  match lines with
  | [] => (Raise EOFError, w0)
  | cidr :: rest =>
      let w1 := with_stdin rest w0 in
      match cidr with
      | "" => (Ok ip_pools, w1)
      | _ =>
          if validate_cidr cidr
          then read_ip_pools (ip_pools ++ [{| entry_Cidr := cidr |}]) rest w1
          else read_ip_pools ip_pools rest
                 (with_console (Printed "Invalid CIDR format. Please try again.") w1)
      end
  end.

(** The second [while True] of [create_new_network]; a valid CIDR is
    followed by the line that holds its gateway. *)
Fixpoint read_routes (routes : list Route) (lines : list string) (w : World)
  : Result (list Route) * World :=
  let w0 :=
    with_console
      (Prompted "Enter route CIDR (or leave empty to finish adding routes): ") w in
  match lines with
  | [] => (Raise EOFError, w0)
  | cidr :: rest =>
      let w1 := with_stdin rest w0 in
      match cidr with
      | "" => (Ok routes, w1)
      | _ =>
          if validate_cidr cidr then
            let w2 := with_console (Prompted ("Enter gateway for " +:+ cidr +:+ ": ")) w1 in
            match rest with
            | [] => (Raise EOFError, w2)
            | gateway :: rest' =>
                read_routes (routes ++ [{| Cidr := cidr; Gateway := Some gateway |}])
                  rest' (with_stdin rest' w2)
            end
          else read_routes routes rest
                 (with_console (Printed "Invalid CIDR format. Please try again.") w1)
      end
  end.

(** [create_new_network(medialive_client)].  The function calls itself when
    no pool was given; [room] is the number of nested calls that the
    recursion limit of the interpreter still allows, and the call that
    exceeds it raises [RecursionError].  The limit is taken to be reached at
    the nested call itself, not inside the calls of the round before it. *)
Fixpoint create_new_network_depth (room : nat) : M (option string) :=
  let* name := input "Enter network name: " in
  let* ip_pools := (fun w => read_ip_pools [] (stdin w) w) in
  match ip_pools with
  | [] =>
      print "At least one IP pool is required." >>
      match room with
      | S room' => create_new_network_depth room'
      | O => raise (RecursionError "maximum recursion depth exceeded")
      end
  | _ :: _ =>
      let* answer := input "Do you want to add network routes? (y/n): " in
      let* routes :=
        if bool_decide (Py.lower answer = "y")
        then (fun w => read_routes [] (stdin w) w)
        else ret [] in
      create_medialive_network name ip_pools
        (match routes with [] => None | _ => Some routes end)
  end.

Definition create_new_network : M (option string) :=
  create_new_network_depth (recursion_room env).

Definition report_sg (r : SgReport) (info : ResourceInfo) : ResourceInfo :=
  {| info_subnets := info_subnets info;
     info_security_groups := info_security_groups info ++ [r];
     info_availability_zones := info_availability_zones info;
     info_networks := info_networks info |}.

Definition report_subnets (l : list string) (info : ResourceInfo) : ResourceInfo :=
  {| info_subnets := l;
     info_security_groups := info_security_groups info;
     info_availability_zones := info_availability_zones info;
     info_networks := info_networks info |}.

Definition report_network (n : string) (info : ResourceInfo) : ResourceInfo :=
  {| info_subnets := info_subnets info;
     info_security_groups := info_security_groups info;
     info_availability_zones := info_availability_zones info;
     info_networks := info_networks info ++ [n] |}.

(** [{'id': sg_id, 'cidr': cidr, 'auto_created': True}] *)
Definition created_report (sg_id cidr : string) : SgReport :=
  {| report_id := sg_id; report_cidr := Some cidr; report_auto_created := Some true;
     report_name := None; report_description := None |}.

(** [{'id': sg_id, 'auto_created': False}] *)
Definition chosen_report (sg_id : string) : SgReport :=
  {| report_id := sg_id; report_cidr := None; report_auto_created := Some false;
     report_name := None; report_description := None |}.

(** [{'id': sg_id, 'name': ..., 'description': ...}], from
    [next((sg for sg in available_security_groups if sg['GroupId'] == sg_id), {})]. *)
Definition vpc_report (sg_id : string) (available : list SecurityGroup) : SgReport :=
  let sg_info := List.find (fun sg => bool_decide (GroupId sg = sg_id)) available in
  {| report_id := sg_id; report_cidr := None; report_auto_created := None;
     report_name := Some (default "Unknown" (sg_info ≫= GroupName));
     report_description := Some (default "" (sg_info ≫= Description)) |}.

(** [medialive_client.create_input_security_group(WhitelistRules=..., Tags=...)]
    followed by [sg_response['SecurityGroup']['Id']]. *)
Definition create_input_security_group (WhitelistRules : list CidrEntry)
    (Tags : gmap string string) : M string :=
  call (CreateInputSecurityGroup WhitelistRules Tags)
       (fun h => api_create_input_security_group env h WhitelistRules Tags).

(** The listing line of the first interactive block (source lines 280-281). *)
Definition listing_rules (i : nat) (sg : InputSecurityGroup) : string :=
  Py.str_of_nat (S i) +:+ ". " +:+ isg_Id sg +:+ " - "
  +:+ repr_rules env (isg_WhitelistRules sg).

(** The listing line of the second interactive block (source lines 318-320). *)
Definition listing_whitelist (i : nat) (sg : InputSecurityGroup) : string :=
  let whitelist :=
    map (fun rule => default "N/A" (rule_Cidr rule))
        (default [] (isg_WhitelistRules sg)) in
  Py.str_of_nat (S i) +:+ ". " +:+ isg_Id sg +:+ " - Whitelist: "
  +:+ repr_strings env whitelist.

(** The interactive block that the AWS branch holds twice (source lines
    278-313 and 316-352); the two copies differ in the listing line only. *)
Definition choose_or_create (listing : nat -> InputSecurityGroup -> string)
    (ml_security_groups : list InputSecurityGroup)
    (input_request : InputRequest) (resource_info : ResourceInfo)
  : M (InputRequest * ResourceInfo) :=
  match ml_security_groups with
  | _ :: _ =>
      print (nl +:+ "Available MediaLive security groups:") >>
      print_all (imap listing ml_security_groups) >>
      let* choice :=
        input (nl +:+ "Select a security group number or enter 'new' to create one: ") in
      let* sg_id :=
        if bool_decide (Py.lower choice = "new") then
          let* cidr := input "Enter CIDR to whitelist (e.g., 0.0.0.0/0): " in
          create_input_security_group [{| entry_Cidr := cidr |}]
            {[ "AutoCreated" := "True" ]}
        else
          let* n := py_int env choice in
          let sg_idx := n - 1 in
          of_option (IndexError "list index out of range")
                    (isg_Id <$> Py.index ml_security_groups sg_idx) in
      ret (set_InputSecurityGroups [sg_id] input_request,
           report_sg (chosen_report sg_id) resource_info)
  | [] =>
      let* cidr :=
        input "No existing MediaLive security groups. Enter CIDR to whitelist (e.g., 0.0.0.0/0): " in
      let* sg_id :=
        create_input_security_group [{| entry_Cidr := cidr |}]
          {[ "AutoCreated" := "True" ]} in
      ret (set_InputSecurityGroups [sg_id] input_request,
           report_sg (created_report sg_id cidr) resource_info)
  end.

(** The branch [if args.source_type == 'AWS']. *)
Definition aws_branch (args : Args) (input_request : InputRequest)
    (resource_info : ResourceInfo) : M (InputRequest * ResourceInfo) :=
  let* ml_security_groups := get_available_security_groups in
  match security_group args with
  | Some (String c r as sg) =>
      if validate_cidr sg then
        let* sg_id :=
          create_input_security_group [{| entry_Cidr := sg |}]
            {[ "AutoCreated" := "True" ]} in
        ret (set_InputSecurityGroups [sg_id] input_request,
             report_sg (created_report sg_id sg) resource_info)
      else if Py.startswith "sg-" sg then
        let is_ml_sg :=
          existsb (fun g => bool_decide (isg_Id g = sg)) ml_security_groups in
        if is_ml_sg then
          ret (set_InputSecurityGroups [sg] input_request,
               report_sg (chosen_report sg) resource_info)
        else
          print ("Warning: " +:+ sg +:+ " is not a valid MediaLive security group") >>
          choose_or_create listing_rules ml_security_groups input_request resource_info
      else
        choose_or_create listing_whitelist ml_security_groups input_request resource_info
  | _ =>
      choose_or_create listing_whitelist ml_security_groups input_request resource_info
  end.

(** The subnets of the AWS_VPC branch (source lines 357-373). *)
Definition vpc_subnets (args : Args) (available_subnets : list Subnet)
  : M (list string) :=
  match subnets args with
  | Some (s1 :: s2 :: more) =>
      let given := s1 :: s2 :: more in
      let valid_subnet_ids := map SubnetId available_subnets in
      let valid_subnets := filter (fun s => s ∈ valid_subnet_ids) given in
      if Nat.leb 2 (length valid_subnets) then ret (take 2 valid_subnets)
      else
        print "Not enough valid subnets provided. Need at least 2." >>
        let* selected :=
          select_resources (SubnetItems available_subnets) "subnet" true 2 in
        ret (take 2 selected)
  | _ =>
      print "AWS_VPC source type requires at least 2 subnet IDs." >>
      let* selected :=
        select_resources (SubnetItems available_subnets) "subnet" true 2 in
      ret (take 2 selected)
  end.

(** The security group of the AWS_VPC branch (source lines 375-395):
    [None] when [vpc_config] gets no [SecurityGroupIds] key. *)
Definition vpc_security_group (args : Args)
    (available_security_groups : list SecurityGroup) (resource_info : ResourceInfo)
  : M (option (list string) * ResourceInfo) :=
  match security_group args with
  | Some (String c r as sg) =>
      if Py.startswith "sg-" sg then
        let sg_exists :=
          existsb (fun g => bool_decide (GroupId g = sg)) available_security_groups in
        if sg_exists then
          ret (Some [sg],
               report_sg (vpc_report sg available_security_groups) resource_info)
        else
          print ("Security group " +:+ sg +:+ " not found.") >>
          let* selected :=
            select_resources (GroupItems available_security_groups)
                             "security group" false 1 in
          let* sg_id := of_option (IndexError "list index out of range")
                                  (Py.index selected 0) in
          ret (Some [sg_id],
               report_sg (vpc_report sg_id available_security_groups) resource_info)
      else ret (None, resource_info)
  | _ => ret (None, resource_info)
  end.

(** The branch [elif args.source_type == 'AWS_VPC']. *)
Definition vpc_branch (args : Args) (available_subnets : list Subnet)
    (available_security_groups : list SecurityGroup)
    (input_request : InputRequest) (resource_info : ResourceInfo)
  : M (InputRequest * ResourceInfo) :=
  let* subnet_ids := vpc_subnets args available_subnets in
  let resource_info := report_subnets subnet_ids resource_info in
  let* '(sg_ids, resource_info) :=
    vpc_security_group args available_security_groups resource_info in
  let vpc_config := {| SubnetIds := Some subnet_ids; SecurityGroupIds := sg_ids |} in
  let* role :=
    if Py.truthy (role_arn args) then ret (default "" (role_arn args))
    else input "Enter Role ARN: " in
  ret (set_Vpc vpc_config (Some role) input_request, resource_info).

(** [available_networks[network_idx]['Id']] after the listing and the
    question (source lines 406-420). *)
Definition choose_network (available_networks : list NetworkInfo) : M (option string) :=
  match available_networks with
  | _ :: _ =>
      print (nl +:+ "Available MediaLive networks:") >>
      print_all
        (imap (fun i network =>
                 Py.str_of_nat (S i) +:+ ". " +:+ net_Id network +:+ " - "
                 +:+ default "N/A" (net_Name network)) available_networks) >>
      let* choice :=
        input (nl +:+ "Select a network number or enter 'new' to create one: ") in
      if bool_decide (Py.lower choice = "new") then create_new_network
      else
        let* n := py_int env choice in
        let network_idx := n - 1 in
        let* network :=
          of_option (IndexError "list index out of range")
                    (Py.index available_networks network_idx) in
        ret (Some (net_Id network))
  | [] =>
      print "No existing networks found. Creating a new network." >>
      create_new_network
  end.

(** The branch [elif args.source_type == 'ON_PREMISES']. *)
Definition on_premises_branch (args : Args) (input_request : InputRequest)
    (resource_info : ResourceInfo) : M (InputRequest * ResourceInfo) :=
  let* available_networks := get_available_networks in
  let* network_id :=
    if Py.truthy (network args) then ret (network args)
    else choose_network available_networks in
  match network_id with
  | Some (String c r as network_id) =>
      ret (set_Destinations
             (map (bind_network args network_id) <$> Destinations input_request)
             input_request,
           report_network network_id resource_info)
  | _ => raise (ValueError "Network ID is required for ON_PREMISES source type")
  end.

(** [create_rtmp_input(args, direct_config)] : [direct_config] is [None]
    for every falsy value. *)
Definition create_rtmp_input (args : Args) (direct_config : option Json)
  : M (InputRecord * ResourceInfo) :=
  let resource_info :=
    {| info_subnets := []; info_security_groups := [];
       info_availability_zones := ∅; info_networks := [] |} in
  match direct_config with
  | Some cfg =>
      try_except
        (let* response := create_input_from env cfg in
         ret (response, resource_info))
        (on_ClientError (fun e =>
           print ("Error creating RTMP input from config: " +:+ e) >>
           raise (ClientError e)))
  | None =>
      let* input_name := validate_name (name args) 0 in
      let input_request :=
        {| Name := input_name; Type_ := "RTMP_PUSH";
           InputNetworkLocation := location args;
           Destinations :=
             if Py.truthy (app_name args) && Py.truthy (app_instance args)
             then Some (destinations args) else None;
           InputSecurityGroups := None; Vpc := None; RoleArn := None; Tags := None |} in
      let* '(available_subnets, available_security_groups) := get_available_resources in
      let resource_info :=
        {| info_subnets := []; info_security_groups := [];
           info_availability_zones :=
             foldl (fun m subnet =>
                      <[SubnetId subnet := default "Unknown" (AvailabilityZone subnet)]> m)
                   ∅ available_subnets;
           info_networks := [] |} in
      let* '(input_request, resource_info) :=
        if bool_decide (source_type args = Some "AWS")
        then aws_branch args input_request resource_info
        else if bool_decide (source_type args = Some "AWS_VPC")
        then vpc_branch args available_subnets available_security_groups
                        input_request resource_info
        else if bool_decide (source_type args = Some "ON_PREMISES")
        then on_premises_branch args input_request resource_info
        else ret (input_request, resource_info) in
      let* input_request := add_tags args input_request in
      try_except
        (let* response := call (CreateInput input_request)
                               (fun h => api_create_input env h input_request) in
         ret (response, resource_info))
        (on_ClientError (fun e =>
           print ("Error creating RTMP input: " +:+ e) >>
           raise (ClientError e)))
  end.

(** [load_config_file(file_path)] : [None], after a message, when the file
    cannot be opened or parsed. *)
Definition load_config_file (file_path : string) : M (option Json) :=
  match read_json env file_path with
  | inl cfg => ret (Some cfg)
  | inr e => print ("Error loading config file: " +:+ e) >> ret None
  end.

Section Main.
(** What [main] asks of a loaded configuration: its truth value, and the
    message of the [AttributeError] that [.get] raises when the value is no
    mapping.  For the values of [json.load] these are [json_truthy] and
    [json_get_error]. *)
Context (config_truthy : Json -> bool) (config_get_error : Json -> option string).

(** [direct_config.get('region', 'us-west-2')], for what it may raise; the
    region itself selects the cloud that the environment stands for. *)
Definition get_region (direct_config : option Json) : M unit :=
  match direct_config with
  | None => raise (OtherError "'NoneType' object has no attribute 'get'")
  | Some cfg =>
      match config_get_error cfg with
      | Some msg => raise (OtherError msg)
      | None => ret tt
      end
  end.

(** The end of [main] : the input is created and reported. *)
Definition create_and_report (args : Args) (direct_config : option Json) : M Z :=
  let* '(response, resource_info) := create_rtmp_input args direct_config in
  print (record_text response) >>
  print (nl +:+ "RTMP Input created successfully!") >>
  ret 0.

(** [main()], from the parsed arguments on; the value returned is the exit
    status. *)
Definition main (args : Args) : M Z :=
  try_except
    (if Py.truthy (config args) then
       let* direct_config := load_config_file (default "" (config args)) in
       (if negb (Py.truthy (region args)) then get_region direct_config else ret tt) >>
       print ("Using configuration from " +:+ Py.fmt (config args)) >>
       create_and_report args
         (match direct_config with
          | Some cfg => if config_truthy cfg then Some cfg else None
          | None => None
          end)
     else if negb (Py.truthy (source_type args)) then
       print "Error: --source-type is required when not using config file" >> ret 1
     else if negb (Py.truthy (app_name args)) || negb (Py.truthy (app_instance args)) then
       print "Error: --app-name and --app-instance are required when not using config file"
       >> ret 1
     else create_and_report args None)
    (on_Exception (fun e => print ("Error: " +:+ exn_str e) >> ret 1)).

End Main.

End Script.
End rtmp_new_input.

(** ** [rtmp_quick.py] : the quick builder *)

Module rtmp_quick.
Section Script.
Context (env : Env).

(** [load_config(file_path)] *)
Definition load_config (file_path : string) : M Json :=
  match read_json env file_path with
  | inl cfg => ret cfg
  | inr e => raise (SystemExit ("Error loading config: " +:+ e))
  end.

(** [generate_name(name)] *)
Definition generate_name (name : option string) : M string :=
  match name with
  | Some (String c r as name) =>
      let* suffix := random_join env 6 in
      ret (name +:+ "-" +:+ suffix)
  | _ =>
      let* u := uuid4 env in
      ret ("rtmp-input-" +:+ u)
  end.

(** [client.create_input_security_group(WhitelistRules=..., Tags=...)] *)
Definition sdk_create_input_security_group (WhitelistRules : list CidrEntry)
    (Tags : gmap string string) : M string :=
  call (CreateInputSecurityGroup WhitelistRules Tags)
       (fun h => api_create_input_security_group env h WhitelistRules Tags).

(** [create_security_group(client, cidr)] *)
Definition create_security_group (cidr : string) : M string :=
  try_except
    (sdk_create_input_security_group [{| entry_Cidr := cidr |}]
       {[ "AutoCreated" := "True" ]})
    (on_ClientError (fun e =>
       raise (SystemExit ("Error creating security group: " +:+ e)))).

(** [create_network(client, name, ip_pools, routes)] *)
Definition create_network (name : string) (ip_pools : list CidrEntry)
    (routes : option (list Route)) : M string :=
  try_except
    (let request :=
       {| nr_Name := name; nr_IpPools := ip_pools;
          nr_Routes := match routes with
                       | Some (r :: rs) => Some (r :: rs)
                       | _ => None
                       end |} in
     let* response := call (CreateNetwork request)
                           (fun h => api_create_network env h request) in
     of_option (KeyError "Id") (response_Id response))
    (on_ClientError (fun e =>
       raise (SystemExit ("Error creating network: " +:+ e)))).

(** The branch [if args.source_type == 'AWS']. *)
Definition aws_branch (args : Args) (input_request : InputRequest) : M InputRequest :=
  if Py.truthy (security_group args)
     && Py.startswith "sg-" (default "" (security_group args))
  then ret (set_InputSecurityGroups [default "" (security_group args)] input_request)
  else
    let cidr :=
      if Py.truthy (security_group args) then default "" (security_group args)
      else "0.0.0.0/0" in
    let* sg_id := create_security_group cidr in
    ret (set_InputSecurityGroups [sg_id] input_request).

(** The branch [elif args.source_type == 'AWS_VPC']. *)
Definition vpc_branch (args : Args) (input_request : InputRequest) : M InputRequest :=
  match subnets args with
  | Some (s1 :: s2 :: more) =>
      let vpc_config :=
        {| SubnetIds := Some (take 2 (s1 :: s2 :: more));
           SecurityGroupIds :=
             if Py.truthy (security_group args)
             then Some [default "" (security_group args)] else None |} in
      ret (set_Vpc vpc_config (role_arn args) input_request)
  | _ => raise (SystemExit "Error: AWS_VPC requires at least 2 subnets")
  end.

(** The branch [elif args.source_type == 'ON_PREMISES']. *)
Definition on_premises_branch (args : Args) (input_request : InputRequest)
  : M InputRequest :=
  let* network_id :=
    if Py.truthy (network args) then ret (default "" (network args))
    else
      let ip_pools := [{| entry_Cidr := "10.0.0.0/24" |}] in
      let* u := uuid4 env in
      create_network ("network-" +:+ u) ip_pools None in
  ret (set_Destinations
         (map (bind_network args network_id) <$> Destinations input_request)
         input_request).

(** [create_rtmp_input(args)] *)
Definition create_rtmp_input (args : Args) : M InputRecord :=
  try_except
    (if Py.truthy (config args) then
       let* config := load_config (default "" (config args)) in
       create_input_from env config
     else
       let* input_name := generate_name (name args) in
       let input_request :=
         {| Name := input_name; Type_ := "RTMP_PUSH";
            InputNetworkLocation := location args;
            Destinations := Some (destinations args);
            InputSecurityGroups := None; Vpc := None; RoleArn := None; Tags := None |} in
       let* input_request := add_tags args input_request in
       let* input_request :=
         if bool_decide (source_type args = Some "AWS")
         then aws_branch args input_request
         else if bool_decide (source_type args = Some "AWS_VPC")
         then vpc_branch args input_request
         else if bool_decide (source_type args = Some "ON_PREMISES")
         then on_premises_branch args input_request
         else ret input_request in
       call (CreateInput input_request)
            (fun h => api_create_input env h input_request))
    (on_ClientError (fun e => raise (SystemExit ("Error: " +:+ e)))).

Section Main.
(** [json.dumps(format_output(response), indent=2)] : the report of the
    input created, or the exception that making it raises. *)
Context (dumps_report : InputRecord -> Result string).

(** [main()], from the parsed arguments on; the value returned is the exit
    status. *)
Definition main (args : Args) : M Z :=
  try_except
    (if negb (Py.truthy (config args))
        && (negb (Py.truthy (source_type args)) || negb (Py.truthy (app_name args))
            || negb (Py.truthy (app_instance args)))
     then
       raise (SystemExit
                "Error: --config or --source-type, --app-name, and --app-instance are required")
     else
       let* response := create_rtmp_input args in
       let* report := (fun w => (dumps_report response, w)) in
       print report >> ret 0)
    (on_Exception (fun e => print (json_dumps_error (exn_str e)) >> ret 1)).

End Main.

End Script.
End rtmp_quick.

(** ** Vocabulary of the statements *)

Fixpoint all_name_chars (s : string) : bool :=
  match s with
  | "" => true
  | String c r => (Py.is_name_char c && all_name_chars r)%bool
  end.

(** The text matches [^[A-Za-z0-9_-]+$] from its first to its last
    character. *)
Definition name_pattern (s : string) : bool :=
  match s with
  | "" => false
  | _ => all_name_chars s
  end.

(** The text is a name that matches the pattern from its first to its last
    character, followed by one line feed. *)
Fixpoint name_then_line_feed (s : string) : bool :=
  match s with
  | "" => false
  | String c r => (Py.is_name_char c && (String.eqb r nl || name_then_line_feed r))%bool
  end.

Fixpoint chars (s : string) : list ascii :=
  match s with
  | "" => []
  | String c r => c :: chars r
  end.

Definition is_suffix_char (c : ascii) : bool :=
  (Py.in_range 65 90 c || Py.in_range 48 57 c)%bool.

(** Six characters, each an upper-case letter or a digit. *)
Definition suffix_shape (s : string) : Prop :=
  length (chars s) = 6%nat ∧ Forall (fun c => is_suffix_char c = true) (chars s).

(** The suffix that [n] draws make, from the draw number [pos] on. *)
Fixpoint suffix_at (env : Env) (pos n : nat) : string :=
  match n with
  | O => ""
  | S n' =>
      String (nth (random_draw env pos mod 36)%nat
                  (String.list_ascii_of_string suffix_alphabet) "A"%char)
             (suffix_at env (S pos) n')
  end.

(** The name is the [Name] of one of the listed inputs. *)
Definition name_taken (inputs : list InputInfo) (n : string) : bool :=
  bool_decide (Some n ∈ map input_Name inputs).

(** ** Concrete environments and worlds for the examples *)

(** An account whose calls all succeed: the listed inputs, subnets and
    security groups are given, the other listings are empty. *)
Definition account (inputs : Result (list InputInfo)) (subs : list Subnet)
    (groups : list SecurityGroup) (draw : nat -> nat) : Env :=
  {| api_list_inputs := fun _ => inputs;
     api_describe_subnets := fun _ => Ok subs;
     api_describe_security_groups := fun _ => Ok groups;
     api_list_input_security_groups := fun _ => Ok (Some []);
     api_list_networks := fun _ => Ok (Some []);
     api_create_input_security_group := fun _ _ _ => Ok "1234567";
     api_create_network := fun _ _ =>
       Ok {| response_Id := Some "network-1"; response_text := "{'Id': 'network-1'}" |};
     api_create_input := fun _ _ => Ok {| record_text := "{'Input': {}}" |};
     api_create_input_from_config := fun _ _ => Ok {| record_text := "{'Input': {}}" |};
     random_draw := draw;
     uuid4_text := fun _ => "00000000-0000-4000-8000-000000000000";
     ip_network_ok := fun s => bool_decide (s = "0.0.0.0/0");
     read_json := fun _ => inr "No such file or directory";
     create_input_repr := "MediaLive.create_input()";
     recursion_room := 990;
     int_max_str_digits := 4300;
     int_error := fun s => "invalid literal for int() with base 10: '" +:+ s +:+ "'";
     repr_rules := fun _ => "[]";
     repr_strings := fun _ => "[]" |}.

(** The world at the start of a run, with the lines the operator will type. *)
Definition fresh (lines : list string) : World :=
  {| stdin := lines; console := []; calls := []; rand_pos := 0; uuid_pos := 0 |}.

Definition named (n : string) : InputInfo := {| input_Name := Some n |}.

(** As claim C7 states it: an error of [list_inputs] reaches the caller. *)
Definition surfaces_list_inputs_error (env : Env) (name : option string) (w : World) : Prop :=
  forall e, api_list_inputs env (calls w) = Raise e ->
            fst (rtmp_new_input.validate_name env name 0 w) = Raise e.

(** As claim C1 states it: the name followed by a hyphen and one suffix. *)
Definition one_suffix (nm result : string) : Prop :=
  exists suffix, result = nm +:+ "-" +:+ suffix ∧ suffix_shape suffix.

(** The arguments of a run that names its source type, its security group,
    its subnets, its role and its tags; the application is [live/main]. *)
Definition run_args (source : string) (sg : option string)
    (subs : option (list string)) (role : option string)
    (tgs : option (list string)) : Args :=
  {| config := None; name := None; region := Some "us-east-2";
     source_type := Some source;
     app_name := Some "live"; app_instance := Some "main";
     secondary_app_name := None; secondary_app_instance := None;
     security_group := sg; subnets := subs; role_arn := role;
     network := None; static_ip := None; network_routes := None;
     tags := tgs |}.

(** As claim C9 states it: tokens without ['='] are dropped, the others are
    cut at their first ['=']. *)
Fixpoint lenient_tags (d : gmap string string) (tags : list string) : gmap string string :=
  match tags with
  | [] => d
  | tag :: rest =>
      match Py.split1 "="%char tag with
      | [k; v] => lenient_tags (<[k := v]> d) rest
      | _ => lenient_tags d rest
      end
  end.

(** The prompts that [input] has shown, oldest first. *)
Definition prompts (w : World) : list string :=
  omap (fun o => match o with Prompted p => Some p | Printed _ => None end) (console w).

Definition subnet_in (id az : string) : Subnet :=
  {| SubnetId := id; CidrBlock := Some "10.0.0.0/24"; AvailabilityZone := Some az |}.

Definition group_named (id nm : string) : SecurityGroup :=
  {| GroupId := id; GroupName := Some nm; Description := None |}.

(** An account with three subnets and two security groups. *)
Definition vpc_account : Env :=
  account (Ok [])
    [subnet_in "subnet-a" "us-east-2a"; subnet_in "subnet-b" "us-east-2b";
     subnet_in "subnet-c" "us-east-2c"]
    [group_named "sg-default" "default"; group_named "sg-video" "video"]
    (fun n => n).

(** The range of indices that a token of a selection stands for, as the
    specification words it: blanks around the token do not count, one
    numeral is that index alone, two numerals around one hyphen are the
    range from the first to the second.  [None] for any other token. *)
Definition token_range (env : Env) (token : string) : option (Z * Z) :=
  match Py.split "-"%char (Py.strip token) with
  | [a] =>
      match Py.int (int_max_str_digits env) a with
      | Some v => Some (v, v)
      | None => None
      end
  | [a; b] =>
      match Py.int (int_max_str_digits env) a, Py.int (int_max_str_digits env) b with
      | Some x, Some y => Some (x, y)
      | _, _ => None
      end
  | _ => None
  end.

(** [1 <= start <= end <= len] *)
Definition in_bounds (len : Z) (r : Z * Z) : Prop := 1 ≤ r.1 ∧ r.1 ≤ r.2 ∧ r.2 ≤ len.

(** The index lies in one of the ranges. *)
Definition covered (ranges : list (Z * Z)) (i : Z) : Prop :=
  Exists (fun r => r.1 ≤ i ∧ i ≤ r.2) ranges.

(** The indices that the ranges select among [1 .. len]: ascending, each
    one once. *)
Definition chosen (len : Z) (ranges : list (Z * Z)) : list Z :=
  filter (covered ranges) (seqZ 1 len).

(** A token that the selection refuses: it stands for no range, or for a
    range that leaves [1 .. len] or runs backwards. *)
Definition bad_token (env : Env) (len : Z) (token : string) : Prop :=
  match token_range env token with
  | None => True
  | Some r => ¬ in_bounds len r
  end.

(** Every token of the expression stands for a range within bounds. *)
Definition tokens_denote (env : Env) (len : Z) (tokens : list string)
    (ranges : list (Z * Z)) : Prop :=
  Forall2 (fun token r => token_range env token = Some r) tokens ranges
  ∧ Forall (in_bounds len) ranges.

(** The identifiers of the candidates at the given 1-based indices. *)
Definition ids_at (ids : list string) (indices : list Z) (result : list string) : Prop :=
  Forall2 (fun i id => ids !! Z.to_nat (i - 1) = Some id) indices result.

(** A line that one pass of the selection refuses: one of its tokens is
    bad, or its tokens are good and cover fewer than [min_count] indices. *)
Definition refused_selection (env : Env) (len min_count : Z) (selection : string) : Prop :=
  let tokens := Py.split ","%char selection in
  (exists token, token ∈ tokens ∧ bad_token env len token)
  ∨ (exists ranges, tokens_denote env len tokens ranges
       ∧ Z.of_nat (length (chosen len ranges)) < min_count).

(** A line that one pass of the selection accepts, with the identifiers it
    selects: those of the covered candidates, in ascending index order. *)
Definition accepted_selection (env : Env) (ids : list string) (min_count : Z)
    (selection : string) (result : list string) : Prop :=
  let len := Z.of_nat (length ids) in
  exists ranges, tokens_denote env len (Py.split ","%char selection) ranges
    ∧ min_count ≤ Z.of_nat (length (chosen len ranges))
    ∧ ids_at ids (chosen len ranges) result.

(** What the console shows for a line that the selection refuses: the
    question, and then the reason, which is the request for more candidates
    when the tokens are good, and the error of the bad token otherwise. *)
Definition refusal_shown (env : Env) (prompt : string) (len min_count : Z)
    (selection : string) (shown : list Out) : Prop :=
  let tokens := Py.split ","%char selection in
  exists reason,
    shown = [Prompted (rtmp_new_input.select_prompt prompt); Printed reason]
    ∧ ((exists ranges, tokens_denote env len tokens ranges)
       -> reason = "Please select at least " +:+ Py.str_of_Z min_count +:+ " "
                   +:+ prompt +:+ "(s).")
    ∧ ((exists token, token ∈ tokens ∧ bad_token env len token)
       -> exists msg, reason = "Invalid selection: " +:+ msg +:+ ". Please try again.").

(** What [select_resources] prints before its first question: the heading
    and the numbered candidates. *)
Definition candidates_shown (prompt : string) (items : rtmp_new_input.Items) : list Out :=
  Printed (nl +:+ "Available " +:+ prompt +:+ "s:")
  :: (Printed <$> rtmp_new_input.item_lines items).

(** Ten subnets [c1 .. c10]. *)
Definition ten_candidates : rtmp_new_input.Items :=
  rtmp_new_input.SubnetItems
    (map (fun i => {| SubnetId := "c" +:+ Py.str_of_nat i; CidrBlock := None;
                      AvailabilityZone := None |}) (seq 1 10)).

(** An invariant of the logs: every prompt shown and every call made so
    far is acceptable. *)
Definition log_inv (ok_prompt : string -> Prop) (ok_call : ApiCall -> Prop)
    (w : World) : Prop :=
  Forall ok_prompt (prompts w) ∧ Forall ok_call (calls w).

(** The computation keeps the invariant, also when it raises, and what it
    returns satisfies the postcondition. *)
Definition keeps {A} (I : World -> Prop) (m : M A) (Q : A -> Prop) : Prop :=
  forall w, I w -> I (snd (m w)) ∧ forall a, fst (m w) = Ok a -> Q a.

(** A request to create an input security group carries the tag
    [AutoCreated=True]. *)
Definition sg_tagged (c : ApiCall) : Prop :=
  match c with
  | CreateInputSecurityGroup _ tags => tags !! "AutoCreated" = Some "True"
  | _ => True
  end.




(** Five subnets [c1 .. c5]. *)
Definition five_candidates : rtmp_new_input.Items :=
  rtmp_new_input.SubnetItems
    (map (fun i => {| SubnetId := "c" +:+ Py.str_of_nat i; CidrBlock := None;
                      AvailabilityZone := None |}) (seq 1 5)).

(** The key and the value of a tag token: the texts before and after its
    first ['=']. *)
Definition tag_pair (tag : string) : string * string :=
  match Py.split1 "="%char tag with
  | [k; v] => (k, v)
  | _ => (tag, "")
  end.

(** The computation reads no line, shows nothing on the console, and adds
    at most [n] calls to the log. *)
Definition unattended {A} (n : nat) (m : M A) : Prop :=
  forall w,
    stdin (snd (m w)) = stdin w
    ∧ console (snd (m w)) = console w
    ∧ exists l, calls (snd (m w)) = calls w ++ l ∧ (length l ≤ n)%nat.

(** The request of the quick builder before its source-type branch. *)
Definition quick_request (n : string) (args : Args) (tg : option (gmap string string))
  : InputRequest :=
  {| Name := n; Type_ := "RTMP_PUSH"; InputNetworkLocation := location args;
     Destinations := Some (destinations args); InputSecurityGroups := None;
     Vpc := None; RoleArn := None; Tags := tg |}.

(** The network that the quick builder asks for when none is given. *)
Definition default_network (env : Env) (k : nat) : NetworkRequest :=
  {| nr_Name := "network-" +:+ uuid4_text env k;
     nr_IpPools := [{| entry_Cidr := "10.0.0.0/24" |}];
     nr_Routes := None |}.

(** The environment with one more readable configuration file. *)
Definition with_config_file (path : string) (cfg : Json) (env : Env) : Env :=
  {| api_list_inputs := api_list_inputs env;
     api_describe_subnets := api_describe_subnets env;
     api_describe_security_groups := api_describe_security_groups env;
     api_list_input_security_groups := api_list_input_security_groups env;
     api_list_networks := api_list_networks env;
     api_create_input_security_group := api_create_input_security_group env;
     api_create_network := api_create_network env;
     api_create_input := api_create_input env;
     api_create_input_from_config := api_create_input_from_config env;
     random_draw := random_draw env;
     uuid4_text := uuid4_text env;
     ip_network_ok := ip_network_ok env;
     read_json := fun p => if bool_decide (p = path) then inl cfg else read_json env p;
     create_input_repr := create_input_repr env;
     recursion_room := recursion_room env;
     int_max_str_digits := int_max_str_digits env;
     int_error := int_error env;
     repr_rules := repr_rules env;
     repr_strings := repr_strings env |}.

(** The arguments of a run that names a configuration file, and possibly a
    name and a source type. *)
Definition config_args (path : string) (nm src : option string) : Args :=
  {| config := Some path; name := nm; region := Some "us-east-2";
     source_type := src;
     app_name := None; app_instance := None;
     secondary_app_name := None; secondary_app_instance := None;
     security_group := None; subnets := None; role_arn := None;
     network := None; static_ip := None; network_routes := None;
     tags := None |}.

(** The call is not a request to [create_input]. *)
Definition no_create_input (c : ApiCall) : Prop := forall r, c ≠ CreateInput r.

(** How a run built from the arguments ends: either it failed before it
    asked for the input, or the request for the input is the last call, the
    only one of its kind, and what the run returns is what that call
    answered. *)
Definition created_last {A} (env : Env) (record : A -> InputRecord)
    (out : Result A * World) : Prop :=
  (Forall no_create_input (calls (snd out)) ∧ forall x, fst out ≠ Ok x)
  ∨ exists pre req,
      calls (snd out) = pre ++ [CreateInput req]
      ∧ Forall no_create_input pre
      ∧ forall x, fst out = Ok x -> api_create_input env pre req = Ok (record x).

(** The element that a number typed at a numbered listing stands for, as
    the code reads it: [n] counts from 1, and [0] and the negative numbers
    down to [1 - len] count from the end of the list. *)
Definition numbered {A} (l : list A) (n : Z) : option A :=
  if decide (- Z.of_nat (length l) < n ≤ Z.of_nat (length l))
  then l !! Z.to_nat ((n - 1) `mod` Z.of_nat (length l))
  else None.

(** A request for a network as the dialogue of the full builder may send
    it: at least one pool, every pool an address block that
    [ipaddress.ip_network] accepts, and the routes, when the key is there,
    not empty, each with an accepted address block and a gateway. *)
Definition dialogue_network (env : Env) (req : NetworkRequest) : Prop :=
  nr_IpPools req ≠ []
  ∧ Forall (fun p => ip_network_ok env (entry_Cidr p) = true) (nr_IpPools req)
  ∧ match nr_Routes req with
    | None => True
    | Some routes =>
        routes ≠ []
        ∧ Forall (fun r => ip_network_ok env (Cidr r) = true ∧ is_Some (Gateway r)) routes
    end.

(** How the network dialogue ends, from the log [before] it: without a
    call, and then without a network; or with one request for a network,
    well formed, whose answer is what the dialogue returns. *)
Definition network_dialogue_end (env : Env) (before : list ApiCall)
    (out : Result (option string) * World) : Prop :=
  (calls (snd out) = before ∧ forall network_id, fst out ≠ Ok (Some network_id))
  ∨ exists req,
      calls (snd out) = before ++ [CreateNetwork req]
      ∧ dialogue_network env req
      ∧ forall network_id,
          fst out = Ok (Some network_id) ->
          exists resp, api_create_network env before req = Ok resp
                       ∧ response_Id resp = Some network_id.

(** The report of the availability zones that [create_rtmp_input] fills
    from the subnets of the account (source lines 244-245). *)
Definition availability_zones (subs : list Subnet) : gmap string string :=
  foldl (fun m subnet => <[SubnetId subnet := default "Unknown" (AvailabilityZone subnet)]> m)
        ∅ subs.

(** The cloud refuses the call [c], made after the calls [before]: it
    answers with a [ClientError]. *)
Definition refused (env : Env) (before : list ApiCall) (c : ApiCall) : Prop :=
  exists msg,
    match c with
    | ListInputs => api_list_inputs env before = Raise (ClientError msg)
    | DescribeSubnets => api_describe_subnets env before = Raise (ClientError msg)
    | DescribeSecurityGroups =>
        api_describe_security_groups env before = Raise (ClientError msg)
    | ListInputSecurityGroups =>
        api_list_input_security_groups env before = Raise (ClientError msg)
    | ListNetworks => api_list_networks env before = Raise (ClientError msg)
    | CreateInputSecurityGroup rules tags =>
        api_create_input_security_group env before rules tags = Raise (ClientError msg)
    | CreateNetwork req => api_create_network env before req = Raise (ClientError msg)
    | CreateInput req => api_create_input env before req = Raise (ClientError msg)
    | CreateInputFromConfig kwargs =>
        api_create_input_from_config env before kwargs = Raise (ClientError msg)
    end.

(** A refused call ends the computation: the calls of the computation are
    added to the log, a call that the cloud refuses is the last of them,
    and the computation then raises a [ClientError] or exits. *)
Definition refusal_ends {A} (env : Env) (m : M A) : Prop :=
  forall w, exists l,
    calls (snd (m w)) = calls w ++ l
    ∧ forall pre c after,
        l = pre ++ c :: after ->
        refused env (calls w ++ pre) c ->
        after = []
        ∧ exists msg, fst (m w) = Raise (ClientError msg)
                      ∨ fst (m w) = Raise (SystemExit msg).

(** The environment with another recursion limit. *)
Definition with_recursion_room (room : nat) (env : Env) : Env :=
  {| api_list_inputs := api_list_inputs env;
     api_describe_subnets := api_describe_subnets env;
     api_describe_security_groups := api_describe_security_groups env;
     api_list_input_security_groups := api_list_input_security_groups env;
     api_list_networks := api_list_networks env;
     api_create_input_security_group := api_create_input_security_group env;
     api_create_network := api_create_network env;
     api_create_input := api_create_input env;
     api_create_input_from_config := api_create_input_from_config env;
     random_draw := random_draw env;
     uuid4_text := uuid4_text env;
     ip_network_ok := ip_network_ok env;
     read_json := read_json env;
     create_input_repr := create_input_repr env;
     recursion_room := room;
     int_max_str_digits := int_max_str_digits env;
     int_error := int_error env;
     repr_rules := repr_rules env;
     repr_strings := repr_strings env |}.

(** An account that lists nothing and refuses every request to create
    something. *)
Definition refusing_account : Env :=
  {| api_list_inputs := fun _ => Ok [];
     api_describe_subnets := fun _ => Ok [];
     api_describe_security_groups := fun _ => Ok [];
     api_list_input_security_groups := fun _ => Ok (Some []);
     api_list_networks := fun _ => Ok (Some []);
     api_create_input_security_group := fun _ _ _ => Raise (ClientError "denied");
     api_create_network := fun _ _ => Raise (ClientError "denied");
     api_create_input := fun _ _ => Raise (ClientError "denied");
     api_create_input_from_config := fun _ _ => Raise (ClientError "denied");
     random_draw := fun n => n;
     uuid4_text := fun _ => "00000000-0000-4000-8000-000000000000";
     ip_network_ok := fun s => bool_decide (s = "0.0.0.0/0");
     read_json := fun _ => inr "No such file or directory";
     create_input_repr := "MediaLive.create_input()";
     recursion_room := 990;
     int_max_str_digits := 4300;
     int_error := fun s => s;
     repr_rules := fun _ => "[]";
     repr_strings := fun _ => "[]" |}.

(** The computation only adds to what the console shows. *)
Definition appends {A} (m : M A) : Prop :=
  forall w, console w `prefix_of` console (snd (m w)).

(** * Properties *)

(** The built-ins on a few texts. *)

Example re_match_plain : Py.re_match_name "studio_A-1" = true.
Proof. reflexivity. Qed.

Example re_match_newline : Py.re_match_name (String "a"%char (String "010"%char "")) = true.
Proof. reflexivity. Qed.

Example int_examples :
  Py.int 4300 " 3 " = Some 3 /\ Py.int 4300 "+3" = Some 3 /\ Py.int 4300 "1_0" = Some 10
  /\ Py.int 4300 "1__0" = None /\ Py.int 4300 "" = None /\ Py.int 4300 "-3" = Some (-3).
Proof. repeat split; reflexivity. Qed.

Example split_examples :
  Py.split ","%char "1,3-5" = ["1"; "3-5"] /\ Py.split ","%char "" = [""]
  /\ Py.split1 "="%char "A=B=C" = ["A"; "B=C"] /\ Py.split1 "="%char "NoEquals" = ["NoEquals"].
Proof. repeat split; reflexivity. Qed.

Example parse_tags_wellformed :
  parse_tags ["Key=Value"; "A=B=C"] = Ok (<["A" := "B=C"]> (<["Key" := "Value"]> ∅)).
Proof. reflexivity. Qed.


(** ** The name resolver *)

Lemma with_rand_with_rand n m w : with_rand n (with_rand m w) = with_rand n w.
Proof. by destruct w. Qed.

Lemma bind_ok {A B} (m : M A) (k : A -> M B) w a w' :
  m w = (Ok a, w') -> bind m k w = k a w'.
Proof. unfold bind. by intros ->. Qed.


Lemma random_join_draws env n w :
  random_join env n w
  = (Ok (suffix_at env (rand_pos w) n), with_rand (rand_pos w + n)%nat w).
Proof.
  revert w. induction n as [|n IH]; intros w.
  - cbn. rewrite Nat.add_0_r. destruct w. reflexivity.
  - cbn [random_join suffix_at].
    erewrite bind_ok; last reflexivity.
    rewrite (bind_ok _ _ _ _ _ (IH _)). unfold ret. cbn [rand_pos with_rand].
    rewrite with_rand_with_rand. do 2 f_equal. lia.
Qed.

Lemma alphabet_suffix_chars :
  Forall (fun c => is_suffix_char c = true)
         (String.list_ascii_of_string suffix_alphabet).
Proof. repeat constructor. Qed.

Lemma suffix_at_shape env pos : suffix_shape (suffix_at env pos 6).
Proof.
  split; first done.
  cbn [suffix_at chars]. repeat constructor.
  all: apply (Forall_nth (fun c => is_suffix_char c = true) "A"%char);
    [apply alphabet_suffix_chars | apply Nat.mod_upper_bound; done].
Qed.

Lemma append_cons c a b : String c a +:+ b = String c (a +:+ b).
Proof. reflexivity. Qed.

Lemma all_name_chars_app a b :
  all_name_chars (a +:+ b) = (all_name_chars a && all_name_chars b)%bool.
Proof.
  induction a as [|c a IH]; [done|].
  rewrite append_cons. cbn [all_name_chars]. rewrite IH. by destruct (Py.is_name_char c).
Qed.

Lemma re_name_tail_all s : all_name_chars s = true -> Py.re_name_tail s = true.
Proof.
  induction s as [|c s IH]; cbn; [done|].
  destruct (Py.is_name_char c); cbn; [done | discriminate].
Qed.

Lemma name_pattern_match s : name_pattern s = true -> Py.re_match_name s = true.
Proof.
  destruct s as [|c s]; cbn; [done|].
  destruct (Py.is_name_char c); cbn; [apply re_name_tail_all | discriminate].
Qed.

Lemma suffix_chars_name s :
  Forall (fun c => is_suffix_char c = true) (chars s) -> all_name_chars s = true.
Proof.
  induction s as [|c s IH]; cbn; [done|].
  intros [Hc Hs]%Forall_cons. rewrite (IH Hs), andb_true_r.
  unfold Py.is_name_char. unfold is_suffix_char in Hc.
  destruct (Py.in_range 65 90 c), (Py.in_range 48 57 c), (Py.in_range 97 122 c); done.
Qed.

Lemma name_pattern_suffixed nm s :
  name_pattern nm = true -> suffix_shape s -> name_pattern (nm +:+ "-" +:+ s) = true.
Proof.
  intros Hn [_ Hs]. destruct nm as [|c nm]; [done|].
  rewrite append_cons. change (all_name_chars (String c nm) = true) in Hn.
  change (all_name_chars (String c (nm +:+ "-" +:+ s)) = true).
  rewrite <- append_cons, all_name_chars_app, Hn.
  change ("-" +:+ s) with (String "-"%char s). cbn [all_name_chars andb].
  change (Py.is_name_char "-") with true. by apply suffix_chars_name.
Qed.

Lemma name_taken_existsb inputs n :
  existsb (fun input_info => bool_decide (input_Name input_info = Some n)) inputs
  = name_taken inputs n.
Proof.
  unfold name_taken. induction inputs as [|i l IH]; cbn.
  - symmetry. apply bool_decide_eq_false. apply not_elem_of_nil.
  - rewrite IH. destruct (decide (input_Name i = Some n)) as [->|Hne].
    + rewrite bool_decide_eq_true_2 by done. symmetry. apply bool_decide_eq_true. left.
    + rewrite (bool_decide_eq_false_2 _ Hne). cbn. apply bool_decide_ext.
      rewrite elem_of_cons. split; [by right | by intros [?|?]; [congruence|]].
Qed.

Lemma validate_name_left_no_ClientError env left name w e :
  fst (rtmp_new_input.validate_name_left env left name w) ≠ Raise (ClientError e).
Proof.
  destruct left, name as [[|c r]|]; cbn [rtmp_new_input.validate_name_left]; try done.
  all: destruct (Py.re_match_name (String c r)); cbn [negb]; try done.
  all: unfold try_except;
    lazymatch goal with
    | |- context [match ?x with (_, _) => _ end] => destruct x as [[a|[]] w']
    end;
    done.
Qed.

(** One call of [validate_name] on a name that passes the pattern. *)
Lemma validate_name_left_matched env left nm w :
  Py.re_match_name nm = true ->
  rtmp_new_input.validate_name_left env left (Some nm) w =
  match api_list_inputs env (calls w) with
  | Ok inputs =>
      if name_taken inputs nm then
        match left with
        | O => (Raise (ValueError "Could not generate unique name after 3 attempts"),
                with_call ListInputs w)
        | S left' =>
            let suffix := suffix_at env (rand_pos w) 6 in
            let new_name := nm +:+ "-" +:+ suffix in
            rtmp_new_input.validate_name_left env left' (Some new_name)
              (with_console
                 (Printed ("Warning: Name '" +:+ nm +:+ "' exists, trying '"
                           +:+ new_name +:+ "'"))
                 (with_rand (rand_pos w + 6)%nat (with_call ListInputs w)))
        end
      else (Ok nm, with_call ListInputs w)
  | Raise (ClientError e) =>
      (Ok nm, with_console (Printed ("Warning: Name check failed: " +:+ e))
                (with_call ListInputs w))
  | Raise e => (Raise e, with_call ListInputs w)
  end.
Proof.
  intros Hm. destruct nm as [|c r]; [done|].
  assert (Hbody : forall left,
    rtmp_new_input.validate_name_left env left (Some (String c r)) w
    = try_except
        (let* existing_inputs := call ListInputs (api_list_inputs env) in
         if existsb (fun input_info =>
                       bool_decide (input_Name input_info = Some (String c r)))
                    existing_inputs
         then
           match left with
           | O => raise (ValueError "Could not generate unique name after 3 attempts")
           | S left' =>
               let* suffix := random_join env 6 in
               let new_name := String c r +:+ "-" +:+ suffix in
               print ("Warning: Name '" +:+ String c r +:+ "' exists, trying '"
                      +:+ new_name +:+ "'") >>
               rtmp_new_input.validate_name_left env left' (Some new_name)
           end
         else ret (String c r))
        (on_ClientError (fun e =>
           print ("Warning: Name check failed: " +:+ e) >> ret (String c r))) w).
  { intros [|l]; cbn [rtmp_new_input.validate_name_left]; by rewrite Hm. }
  rewrite Hbody. unfold try_except, bind at 1, call. cbn [calls with_call].
  destruct (api_list_inputs env (calls w)) as [inputs|e].
  - rewrite name_taken_existsb. destruct (name_taken inputs (String c r)); [|done].
    destruct left as [|left']; [done|].
    rewrite (bind_ok _ _ _ _ _ (random_join_draws _ _ _)).
    unfold bind, print. cbn [rand_pos with_call].
    pose proof (validate_name_left_no_ClientError env left'
      (Some (String c r +:+ "-" +:+ suffix_at env (rand_pos w) 6))
      (with_console
         (Printed ("Warning: Name '" +:+ String c r +:+ "' exists, trying '"
                   +:+ (String c r +:+ "-" +:+ suffix_at env (rand_pos w) 6) +:+ "'"))
         (with_rand (rand_pos w + 6)%nat (with_call ListInputs w)))) as Hno.
    cbv zeta.
    destruct (rtmp_new_input.validate_name_left env left' _ _) as [[a|e] w'] eqn:E; [done|].
    destruct e; try done. by destruct (Hno msg).
  - by destruct e.
Qed.

(** C5.  A name that matches [^[A-Za-z0-9_-]+$] and is the name of no
    existing input is returned unchanged by [validate_name], whatever the
    attempt counter; the only effect is the one [list_inputs] call. *)
Theorem validate_name_free_unchanged env nm attempt w inputs :
  name_pattern nm = true ->
  api_list_inputs env (calls w) = Ok inputs ->
  Some nm ∉ map input_Name inputs ->
  rtmp_new_input.validate_name env (Some nm) attempt w = (Ok nm, with_call ListInputs w).
Proof.
  intros Hn Hl Hfree. unfold rtmp_new_input.validate_name.
  rewrite validate_name_left_matched by by apply name_pattern_match.
  rewrite Hl. unfold name_taken. by rewrite bool_decide_eq_false_2.
Qed.

Lemma validate_name_free_unchanged_witness :
  rtmp_new_input.validate_name
    (account (Ok [named "studio-1"; named "studio-2"]) [] [] (fun _ => O))
    (Some "studio-3") 0 (fresh [])
  = (Ok "studio-3", with_call ListInputs (fresh [])).
Proof.
  apply (validate_name_free_unchanged _ _ _ _ [named "studio-1"; named "studio-2"]).
  - reflexivity.
  - reflexivity.
  - apply (bool_decide_unpack _). vm_compute. reflexivity.
Defined.

(** C7, as the code has it.  When [list_inputs] raises a [ClientError]
    during the name check, [validate_name] makes no second call, prints a
    warning and returns the name it was checking; any other exception of
    the call reaches the caller as it is. *)
Theorem validate_name_list_inputs_failure env nm attempt w e :
  Py.re_match_name nm = true ->
  api_list_inputs env (calls w) = Raise e ->
  rtmp_new_input.validate_name env (Some nm) attempt w =
  match e with
  | ClientError msg =>
      (Ok nm, with_console (Printed ("Warning: Name check failed: " +:+ msg))
                (with_call ListInputs w))
  | _ => (Raise e, with_call ListInputs w)
  end.
Proof.
  intros Hn Hl. unfold rtmp_new_input.validate_name.
  rewrite validate_name_left_matched by done. rewrite Hl. by destruct e.
Qed.

Lemma validate_name_list_inputs_failure_witness :
  rtmp_new_input.validate_name
    (account (Raise (ClientError "AccessDenied")) [] [] (fun _ => O))
    (Some "studio") 0 (fresh [])
  = (Ok "studio",
     with_console (Printed "Warning: Name check failed: AccessDenied")
       (with_call ListInputs (fresh []))).
Proof.
  apply (validate_name_list_inputs_failure _ "studio" 0 (fresh []) (ClientError "AccessDenied"));
    reflexivity.
Defined.

(** C7, as it is stated, fails: the [ClientError] of [list_inputs] is not
    raised to the caller, the name is returned. *)
Lemma list_inputs_error_not_surfaced :
  ¬ surfaces_list_inputs_error
      (account (Raise (ClientError "AccessDenied")) [] [] (fun _ => O))
      (Some "studio") (fresh []).
Proof. intros H. specialize (H (ClientError "AccessDenied") eq_refl). discriminate H. Qed.

Lemma line_feed_no_name_char : Py.is_name_char "010"%char = false.
Proof. reflexivity. Qed.

(** What [[a-zA-Z0-9_-]*$] accepts: class characters to the end, possibly
    followed by one final line feed. *)
Lemma re_name_tail_cases s :
  Py.re_name_tail s
  = (all_name_chars s || String.eqb s nl || name_then_line_feed s)%bool.
Proof.
  induction s as [|c r IH]; [done|].
  cbn [Py.re_name_tail all_name_chars name_then_line_feed].
  destruct (Py.is_name_char c) eqn:Hc.
  - rewrite IH. cbn [andb].
    assert (String.eqb (String c r) nl = false) as ->.
    { apply String.eqb_neq. intros [= -> _]. by rewrite line_feed_no_name_char in Hc. }
    by rewrite orb_false_r, orb_assoc.
  - cbn [andb orb]. by rewrite orb_false_r.
Qed.

(** What the name check of the full builder accepts: the names that match
    the pattern from the first to the last character, and these names
    followed by one line feed. *)
Lemma re_match_name_cases s :
  Py.re_match_name s = (name_pattern s || name_then_line_feed s)%bool.
Proof.
  destruct s as [|c r]; [done|].
  cbn [Py.re_match_name name_pattern all_name_chars name_then_line_feed].
  rewrite re_name_tail_cases.
  destruct (Py.is_name_char c); cbn [andb orb]; [by rewrite orb_assoc | done].
Qed.

Lemma name_then_line_feed_spec s :
  name_then_line_feed s = true ↔ exists t, name_pattern t = true ∧ s = t +:+ nl.
Proof.
  split.
  - induction s as [|c r IH]; [done|]. cbn [name_then_line_feed].
    intros [Hc [Hr|Hr]%orb_true_iff]%andb_true_iff.
    + apply String.eqb_eq in Hr as ->. exists (String c ""). split; [|done].
      cbn. by rewrite Hc.
    + destruct (IH Hr) as (t & Ht & ->). exists (String c t). split; [|done].
      destruct t; [done|]. cbn in *. by rewrite Hc.
  - intros (t & Ht & ->). induction t as [|c t IH]; [done|].
    cbn [name_pattern all_name_chars] in Ht. apply andb_true_iff in Ht as [Hc Ht].
    rewrite append_cons. cbn [name_then_line_feed]. rewrite Hc. cbn [andb].
    destruct t as [|d t]; [done|]. apply orb_true_iff. right. by apply IH.
Qed.

Lemma all_name_chars_chars s c :
  all_name_chars s = true -> c ∈ chars s -> Py.is_name_char c = true.
Proof.
  induction s as [|d s IH]; cbn [all_name_chars chars].
  - by intros _ ?%elem_of_nil.
  - intros [Hd Hs]%andb_true_iff [->|Hc]%elem_of_cons; [done | by apply IH].
Qed.

(** C4, as the code has it.  In the full builder a name that holds a
    character outside [[A-Za-z0-9_-]] is refused with the [ValueError] of
    the name check before any call to the cloud, whatever the existing
    inputs, unless it is a name matching the pattern followed by one final
    line feed; the quick builder checks nothing and returns the name with a
    random suffix. *)
Theorem validate_name_rejects_bad_chars env nm attempt w c :
  c ∈ chars nm -> Py.is_name_char c = false -> name_then_line_feed nm = false ->
  rtmp_new_input.validate_name env (Some nm) attempt w
  = (Raise (ValueError "Input name must be alphanumeric with hyphens/underscores"), w)
  ∧ rtmp_quick.generate_name env (Some nm) w
    = (Ok (nm +:+ "-" +:+ suffix_at env (rand_pos w) 6),
       with_rand (rand_pos w + 6)%nat w).
Proof.
  intros Hc Hbad Hnl.
  assert (Hm : Py.re_match_name nm = false).
  { rewrite re_match_name_cases, Hnl, orb_false_r.
    destruct (name_pattern nm) eqn:E; [|done].
    assert (all_name_chars nm = true) as Hall by by destruct nm.
    by rewrite (all_name_chars_chars nm c Hall Hc) in Hbad. }
  destruct nm as [|d r]; [by apply elem_of_nil in Hc|]. split.
  - unfold rtmp_new_input.validate_name.
    destruct (3 - attempt)%nat; cbn [rtmp_new_input.validate_name_left]; by rewrite Hm.
  - unfold rtmp_quick.generate_name.
    by rewrite (bind_ok _ _ _ _ _ (random_join_draws _ _ _)).
Qed.

Lemma validate_name_rejects_bad_chars_witness :
  let nm := "a" +:+ nl +:+ "b" in
  rtmp_new_input.validate_name
    (account (Ok [named nm]) [] [] (fun _ => O)) (Some nm) 0 (fresh [])
  = (Raise (ValueError "Input name must be alphanumeric with hyphens/underscores"),
     fresh [])
  ∧ rtmp_quick.generate_name
      (account (Ok [named nm]) [] [] (fun _ => O)) (Some nm) (fresh [])
    = (Ok (nm +:+ "-AAAAAA"), with_rand 6 (fresh [])).
Proof.
  refine (validate_name_rejects_bad_chars
            (account (Ok [named ("a" +:+ nl +:+ "b")]) [] [] (fun _ => O))
            ("a" +:+ nl +:+ "b") 0 (fresh []) "010"%char _ _ _).
  - apply (bool_decide_unpack _). vm_compute. reflexivity.
  - reflexivity.
  - reflexivity.
Defined.

(** Names that the full builder refuses: with a space, with a line feed in
    the middle, a line feed alone, two final line feeds. *)
Example validate_name_refused_names :
  Forall (fun nm =>
            fst (rtmp_new_input.validate_name (account (Ok []) [] [] (fun n => n))
                   (Some nm) 0 (fresh []))
            = Raise (ValueError "Input name must be alphanumeric with hyphens/underscores"))
         ["a b"; "a" +:+ nl +:+ "b"; nl; "a" +:+ nl +:+ nl].
Proof. repeat constructor. Qed.

(** C4, as it is stated, fails in the quick builder: a name with a space
    and an exclamation mark is accepted. *)
Lemma generate_name_accepts_any_name :
  (exists c, c ∈ chars "live feed!" ∧ Py.is_name_char c = false)
  ∧ fst (rtmp_quick.generate_name (account (Ok []) [] [] (fun n => n))
           (Some "live feed!") (fresh []))
    = Ok "live feed!-ABCDEF".
Proof.
  split; [|reflexivity].
  exists " "%char. split; [|reflexivity].
  apply (bool_decide_unpack _). vm_compute. reflexivity.
Qed.

(** The pattern of the full builder lets a final line feed through: [$]
    also matches before it. *)
Example validate_name_final_line_feed :
  fst (rtmp_new_input.validate_name (account (Ok []) [] [] (fun n => n))
         (Some ("studio" +:+ nl)) 0 (fresh []))
  = Ok ("studio" +:+ nl).
Proof. reflexivity. Qed.

(** C1, as the code has it.  For a name that matches the pattern and is the
    name of an existing input, with every listing answering the same
    inputs, [validate_name] draws up to three fresh six-character suffixes,
    each appended with a hyphen to the name tried before, and returns the
    first of the three names that no input has; when all three are taken it
    raises the [ValueError] of the exhausted attempts. *)
Theorem validate_name_conflict env nm w inputs :
  name_pattern nm = true ->
  (forall h, api_list_inputs env h = Ok inputs) ->
  Some nm ∈ map input_Name inputs ->
  let s1 := suffix_at env (rand_pos w) 6 in
  let s2 := suffix_at env (rand_pos w + 6) 6 in
  let s3 := suffix_at env (rand_pos w + 12) 6 in
  let n1 := nm +:+ "-" +:+ s1 in
  let n2 := n1 +:+ "-" +:+ s2 in
  let n3 := n2 +:+ "-" +:+ s3 in
  suffix_shape s1 ∧ suffix_shape s2 ∧ suffix_shape s3
  ∧ fst (rtmp_new_input.validate_name env (Some nm) 0 w)
    = if name_taken inputs n1 then
        if name_taken inputs n2 then
          if name_taken inputs n3
          then Raise (ValueError "Could not generate unique name after 3 attempts")
          else Ok n3
        else Ok n2
      else Ok n1.
Proof.
  intros Hn Hl Hin s1 s2 s3 n1 n2 n3.
  pose proof (suffix_at_shape env (rand_pos w)) as H1.
  pose proof (suffix_at_shape env (rand_pos w + 6)) as H2.
  pose proof (suffix_at_shape env (rand_pos w + 12)) as H3.
  do 3 (split; [done|]).
  pose proof (name_pattern_suffixed nm s1 Hn H1) as Hn1.
  pose proof (name_pattern_suffixed n1 s2 Hn1 H2) as Hn2.
  pose proof (name_pattern_suffixed n2 s3 Hn2 H3) as Hn3.
  unfold rtmp_new_input.validate_name. change (3 - 0)%nat with 3%nat.
  rewrite validate_name_left_matched by by apply name_pattern_match.
  rewrite Hl. unfold name_taken at 1. rewrite bool_decide_eq_true_2 by done.
  cbv zeta. fold s1 n1.
  rewrite validate_name_left_matched by by apply name_pattern_match.
  rewrite Hl. destruct (name_taken inputs n1); [|done].
  cbv zeta. cbn [rand_pos with_console with_rand with_call]. fold s2 n2.
  rewrite validate_name_left_matched by by apply name_pattern_match.
  rewrite Hl. destruct (name_taken inputs n2); [|done].
  cbv zeta. cbn [rand_pos with_console with_rand with_call].
  replace (rand_pos w + 6 + 6)%nat with (rand_pos w + 12)%nat by lia. fold s3 n3.
  rewrite validate_name_left_matched by by apply name_pattern_match.
  rewrite Hl. by destruct (name_taken inputs n3).
Qed.

Lemma validate_name_conflict_witness :
  fst (rtmp_new_input.validate_name
         (account (Ok [named "studio"; named "studio-AAAAAA"]) [] [] (fun n => n / 6)%nat)
         (Some "studio") 0 (fresh []))
  = Ok "studio-AAAAAA-BBBBBB".
Proof.
  refine (proj2 (proj2 (proj2 (validate_name_conflict
           (account (Ok [named "studio"; named "studio-AAAAAA"]) [] [] (fun n => n / 6)%nat)
           "studio" (fresh []) [named "studio"; named "studio-AAAAAA"] _ _ _)))).
  - reflexivity.
  - reflexivity.
  - apply (bool_decide_unpack _). vm_compute. reflexivity.
Defined.

(** C1, as it is stated, fails: when the first suffixed name is taken too,
    the name returned carries two suffixes, not one. *)
Lemma second_suffix_is_appended :
  fst (rtmp_new_input.validate_name
         (account (Ok [named "studio"; named "studio-AAAAAA"]) [] [] (fun n => n / 6)%nat)
         (Some "studio") 0 (fresh []))
  = Ok "studio-AAAAAA-BBBBBB"
  ∧ ¬ one_suffix "studio" "studio-AAAAAA-BBBBBB".
Proof.
  split; [reflexivity|].
  intros (suffix & Heq & Hlen & _).
  assert (suffix = "AAAAAA-BBBBBB") as -> by (by injection Heq).
  discriminate Hlen.
Qed.

(** ** Tag parsing *)

Lemma split1_without sep s : Py.contains sep s = false -> Py.split1 sep s = [s].
Proof.
  induction s as [|c s IH]; cbn [Py.contains Py.split1]; [done|].
  intros [Hc Hs]%orb_false_iff. rewrite Hc, (IH Hs). done.
Qed.

Lemma split1_with sep s :
  Py.contains sep s = true ->
  exists k v, Py.split1 sep s = [k; v] ∧ s = k +:+ String sep v ∧ Py.contains sep k = false.
Proof.
  induction s as [|c s IH]; cbn [Py.contains Py.split1]; [done|].
  destruct (Ascii.eqb c sep) eqn:Hc.
  - intros _. apply Ascii.eqb_eq in Hc as ->. by exists "", s.
  - cbn [orb]. intros (k & v & -> & -> & Hk)%IH.
    exists (String c k), v. split_and!; [done|done|]. cbn [Py.contains]. by rewrite Hc, Hk.
Qed.

Lemma add_tag_without d tag :
  Py.contains "="%char tag = false ->
  add_tag d tag = Raise (ValueError "not enough values to unpack (expected 2, got 1)").
Proof. intros H. unfold add_tag. by rewrite (split1_without _ _ H). Qed.

Lemma add_tag_with d tag :
  Py.contains "="%char tag = true ->
  exists k v, Py.split1 "="%char tag = [k; v] ∧ add_tag d tag = Ok (<[k := v]> d).
Proof.
  intros H. destruct (split1_with _ _ H) as (k & v & Hs & _).
  exists k, v. split; [done|]. unfold add_tag. by rewrite Hs, H.
Qed.

(** A token without ['='] anywhere in the list makes the comprehension
    raise: the pieces are unpacked before the filter is tested. *)
Lemma parse_tags_from_raises d tags tag :
  tag ∈ tags -> Py.contains "="%char tag = false ->
  parse_tags_from d tags
  = Raise (ValueError "not enough values to unpack (expected 2, got 1)").
Proof.
  revert d. induction tags as [|t rest IH]; intros d Hin Hno.
  - by apply elem_of_nil in Hin.
  - cbn [parse_tags_from]. destruct (Py.contains "="%char t) eqn:Ht.
    + destruct (add_tag_with d t Ht) as (k & v & _ & ->).
      apply IH; [|done]. apply elem_of_cons in Hin as [->|?]; [congruence|done].
    + by rewrite (add_tag_without d t Ht).
Qed.

(** When every token has an ['='], the comprehension does what the claim
    says: each token is cut at its first ['=']. *)
Lemma parse_tags_from_wellformed d tags :
  Forall (fun tag => Py.contains "="%char tag = true) tags ->
  parse_tags_from d tags = Ok (lenient_tags d tags).
Proof.
  revert d. induction tags as [|t rest IH]; intros d Hall; [done|].
  apply Forall_cons in Hall as [Ht Hrest]. cbn [parse_tags_from lenient_tags].
  destruct (add_tag_with d t Ht) as (k & v & -> & ->). by apply IH.
Qed.

Example lenient_tags_example :
  lenient_tags ∅ ["Key=Value"; "NoEquals"; "A=B=C"]
  = <["A" := "B=C"]> (<["Key" := "Value"]> ∅).
Proof. reflexivity. Qed.

(** C9.  On the tokens [Key=Value], [NoEquals], [A=B=C] the dict
    comprehension of both scripts raises [ValueError] where the claim
    promises the two well-formed tags, and both builders end with that
    exception. *)
Theorem parse_tags_token_without_equals :
  parse_tags ["Key=Value"; "NoEquals"; "A=B=C"]
  = Raise (ValueError "not enough values to unpack (expected 2, got 1)")
  ∧ fst (rtmp_new_input.create_rtmp_input
           (account (Ok []) [] [] (fun n => n))
           (run_args "AWS" (Some "0.0.0.0/0") None None
                     (Some ["Key=Value"; "NoEquals"; "A=B=C"]))
           None (fresh []))
    = Raise (ValueError "not enough values to unpack (expected 2, got 1)")
  ∧ fst (rtmp_quick.create_rtmp_input
           (account (Ok []) [] [] (fun n => n))
           (run_args "AWS" (Some "0.0.0.0/0") None None
                     (Some ["Key=Value"; "NoEquals"; "A=B=C"]))
           (fresh []))
    = Raise (ValueError "not enough values to unpack (expected 2, got 1)").
Proof. repeat split; vm_compute; reflexivity. Qed.

(** ** End-to-end runs *)

Lemma prompts_printed l w : prompts (with_console (Printed l) w) = prompts w.
Proof. unfold prompts. cbn [console with_console]. by rewrite omap_app, app_nil_r. Qed.

Lemma generate_name_quiet env name w :
  exists n w1, rtmp_quick.generate_name env name w = (Ok n, w1)
    ∧ calls w1 = calls w ∧ stdin w1 = stdin w ∧ console w1 = console w.
Proof.
  unfold rtmp_quick.generate_name. destruct name as [[|c r]|].
  2: rewrite (bind_ok _ _ _ _ _ (random_join_draws _ _ _)).
  all: eexists _, _; split; [reflexivity|done].
Qed.

(** C10.  In the quick builder with source type AWS and no security group
    given, a run whose tags parse and whose group creation succeeds asks the
    cloud for one input security group that whitelists [0.0.0.0/0], and
    sends the identifier it gets back as the only security group of the
    input request. *)
Theorem quick_aws_default_whitelist env args w tg sg_id :
  Py.truthy (config args) = false ->
  source_type args = Some "AWS" ->
  Py.truthy (security_group args) = false ->
  tags_of args = Ok tg ->
  api_create_input_security_group env (calls w)
    [{| entry_Cidr := "0.0.0.0/0" |}] {[ "AutoCreated" := "True" ]} = Ok sg_id ->
  exists req,
    calls (snd (rtmp_quick.create_rtmp_input env args w))
    = calls w ++ [CreateInputSecurityGroup [{| entry_Cidr := "0.0.0.0/0" |}]
                                           {[ "AutoCreated" := "True" ]};
                  CreateInput req]
    ∧ InputSecurityGroups req = Some [sg_id]
    ∧ InputNetworkLocation req = "AWS"
    ∧ Vpc req = None.
Proof.
  intros Hcfg Hsrc Hsg Htags Hcreate.
  destruct (generate_name_quiet env (name args) w) as (n & w1 & Hgen & Hcalls & _).
  unfold rtmp_quick.create_rtmp_input. rewrite Hcfg.
  set (req0 := {| Name := n; Type_ := "RTMP_PUSH"; InputNetworkLocation := location args;
                  Destinations := Some (destinations args); InputSecurityGroups := None;
                  Vpc := None; RoleArn := None; Tags := tg |}).
  exists (set_InputSecurityGroups [sg_id] req0).
  assert (Hloc : location args = "AWS") by (unfold location; by rewrite Hsrc).
  split; [|by rewrite <- Hloc].
  unfold try_except. rewrite (bind_ok _ _ _ _ _ Hgen).
  assert (Htg : add_tags args
            {| Name := n; Type_ := "RTMP_PUSH"; InputNetworkLocation := location args;
               Destinations := Some (destinations args); InputSecurityGroups := None;
               Vpc := None; RoleArn := None; Tags := None |} w1 = (Ok req0, w1)).
  { unfold add_tags. rewrite Htags. by destruct tg. }
  rewrite (bind_ok _ _ _ _ _ Htg). rewrite Hsrc, bool_decide_eq_true_2 by done.
  assert (Hbranch : rtmp_quick.aws_branch env args req0 w1
            = (Ok (set_InputSecurityGroups [sg_id] req0),
               with_call (CreateInputSecurityGroup [{| entry_Cidr := "0.0.0.0/0" |}]
                                                   {[ "AutoCreated" := "True" ]}) w1)).
  { unfold rtmp_quick.aws_branch. rewrite Hsg. cbn [andb].
    unfold rtmp_quick.create_security_group, rtmp_quick.sdk_create_input_security_group,
      try_except, bind, call. by rewrite Hcalls, Hcreate. }
  rewrite (bind_ok _ _ _ _ _ Hbranch). unfold call.
  destruct (api_create_input env _ _) as [resp|[]];
    cbn [snd calls with_call raise on_ClientError]; by rewrite Hcalls, <- app_assoc.
Qed.

Lemma quick_aws_default_whitelist_witness :
  exists req,
    calls (snd (rtmp_quick.create_rtmp_input (account (Ok []) [] [] (fun n => n))
                  (run_args "AWS" None None None (Some ["Team=video"])) (fresh [])))
    = [CreateInputSecurityGroup [{| entry_Cidr := "0.0.0.0/0" |}]
                                {[ "AutoCreated" := "True" ]};
       CreateInput req]
    ∧ InputSecurityGroups req = Some ["1234567"]
    ∧ InputNetworkLocation req = "AWS"
    ∧ Vpc req = None.
Proof.
  refine (quick_aws_default_whitelist (account (Ok []) [] [] (fun n => n))
            (run_args "AWS" None None None (Some ["Team=video"])) (fresh [])
            (Some (<["Team" := "video"]> ∅)) "1234567" _ _ _ _ _); reflexivity.
Defined.

(** [validate_name] reads nothing from the operator. *)
Lemma validate_name_left_quiet env left name w :
  stdin (snd (rtmp_new_input.validate_name_left env left name w)) = stdin w
  ∧ prompts (snd (rtmp_new_input.validate_name_left env left name w)) = prompts w.
Proof.
  revert name w. induction left as [|left IH]; intros name w.
  all: destruct name as [[|c r]|]; try done.
  all: destruct (Py.re_match_name (String c r)) eqn:Hm;
    [ rewrite validate_name_left_matched by done
    | cbn [rtmp_new_input.validate_name_left]; by rewrite Hm ].
  all: destruct (api_list_inputs env (calls w)) as [inputs|[]];
    try (cbn [snd]; by rewrite ?prompts_printed).
  all: destruct (name_taken inputs (String c r)); try done.
  cbv zeta. destruct (IH (Some (String c r +:+ "-" +:+ suffix_at env (rand_pos w) 6))
    (with_console
       (Printed ("Warning: Name '" +:+ String c r +:+ "' exists, trying '"
                 +:+ (String c r +:+ "-" +:+ suffix_at env (rand_pos w) 6) +:+ "'"))
       (with_rand (rand_pos w + 6)%nat (with_call ListInputs w)))) as [-> ->].
  by rewrite prompts_printed.
Qed.

(** C2.  In the full builder with source type AWS_VPC, three subnet
    identifiers of which exactly two are in the inventory, a security group
    identifier that starts with [sg-] and is in the inventory, and a role
    ARN: the request sent to [create_input] has exactly the two valid
    subnets in the order given, the given security group, the location
    [AWS], the role, and no input security group; nothing is read from the
    operator and no prompt is shown.  The name is resolved, both inventory
    listings answer and the tags parse. *)
Theorem vpc_request_from_valid_arguments
    env args w n a b c x y sg arn subs groups tg :
  let w1 := snd (rtmp_new_input.validate_name env (name args) 0 w) in
  source_type args = Some "AWS_VPC" ->
  fst (rtmp_new_input.validate_name env (name args) 0 w) = Ok n ->
  api_describe_subnets env (calls w1) = Ok subs ->
  api_describe_security_groups env (calls w1 ++ [DescribeSubnets]) = Ok groups ->
  subnets args = Some [a; b; c] ->
  filter (fun s => s ∈ map SubnetId subs) [a; b; c] = [x; y] ->
  security_group args = Some sg ->
  Py.startswith "sg-" sg = true ->
  sg ∈ map GroupId groups ->
  role_arn args = Some arn ->
  arn ≠ "" ->
  tags_of args = Ok tg ->
  let w' := snd (rtmp_new_input.create_rtmp_input env args None w) in
  exists req,
    calls w' = calls w1 ++ [DescribeSubnets; DescribeSecurityGroups; CreateInput req]
    ∧ Vpc req = Some {| SubnetIds := Some [x; y]; SecurityGroupIds := Some [sg] |}
    ∧ InputNetworkLocation req = "AWS"
    ∧ RoleArn req = Some (Some arn)
    ∧ InputSecurityGroups req = None
    ∧ Name req = n
    ∧ stdin w' = stdin w
    ∧ prompts w' = prompts w.
Proof.
  intros w1 Hsrc Hname Hsubs Hgroups Hargs Hvalid Hsg Hpre Hin Hrole Harn Htags w'.
  destruct (validate_name_left_quiet env 3 (name args) w) as [Hstdin Hprompts].
  change (rtmp_new_input.validate_name_left env 3 (name args) w)
    with (rtmp_new_input.validate_name env (name args) 0 w) in Hstdin, Hprompts.
  fold w1 in Hstdin, Hprompts.
  assert (Hv : rtmp_new_input.validate_name env (name args) 0 w = (Ok n, w1)).
  { subst w1. destruct (rtmp_new_input.validate_name env (name args) 0 w); cbn in *.
    by subst. }
  assert (Hloc : location args = "AWS") by (unfold location; by rewrite Hsrc).
  set (req0 := {| Name := n; Type_ := "RTMP_PUSH"; InputNetworkLocation := location args;
                  Destinations :=
                    if Py.truthy (app_name args) && Py.truthy (app_instance args)
                    then Some (destinations args) else None;
                  InputSecurityGroups := None; Vpc := None; RoleArn := None;
                  Tags := None |}).
  set (vpc := {| SubnetIds := Some [x; y]; SecurityGroupIds := Some [sg] |}).
  set (req1 := set_Vpc vpc (Some arn) req0).
  set (req := match tg with Some d => set_Tags d req1 | None => req1 end).
  exists req.
  assert (Hfields : Vpc req = Some vpc ∧ InputNetworkLocation req = "AWS"
                    ∧ RoleArn req = Some (Some arn) ∧ InputSecurityGroups req = None
                    ∧ Name req = n).
  { subst req. by destruct tg. }
  destruct Hfields as (? & ? & ? & ? & ?).
  set (w2 := with_call DescribeSecurityGroups (with_call DescribeSubnets w1)).
  assert (Hres : rtmp_new_input.get_available_resources env w1 = (Ok (subs, groups), w2)).
  { unfold rtmp_new_input.get_available_resources, try_except, bind, call.
    rewrite Hsubs. cbn [calls with_call]. by rewrite Hgroups. }
  assert (Hbr : forall info, exists info',
            rtmp_new_input.vpc_branch env args subs groups req0 info w2
            = (Ok (req1, info'), w2)).
  { intros info. unfold rtmp_new_input.vpc_branch.
    assert (Hs : rtmp_new_input.vpc_subnets env args subs w2 = (Ok [x; y], w2)).
    { unfold rtmp_new_input.vpc_subnets. by rewrite Hargs, Hvalid. }
    rewrite (bind_ok _ _ _ _ _ Hs).
    assert (Hg : forall i, rtmp_new_input.vpc_security_group env args groups i w2
              = (Ok (Some [sg], rtmp_new_input.report_sg
                                  (rtmp_new_input.vpc_report sg groups) i), w2)).
    { intros i. unfold rtmp_new_input.vpc_security_group. rewrite Hsg.
      destruct sg as [|c0 r0]; [done|]. rewrite Hpre.
      assert (existsb (fun g => bool_decide (GroupId g = String c0 r0)) groups = true)
        as ->; [|done].
      apply existsb_exists. apply list_elem_of_fmap in Hin as (g & Hg & Hing).
      exists g. split; [by apply list_elem_of_In|]. by apply bool_decide_eq_true. }
    rewrite (bind_ok _ _ _ _ _ (Hg _)).
    rewrite Hrole. destruct arn as [|c0 r0]; [done|]. cbn [Py.truthy default].
    eexists. reflexivity. }
  unfold w', rtmp_new_input.create_rtmp_input.
  rewrite (bind_ok _ _ _ _ _ Hv), (bind_ok _ _ _ _ _ Hres).
  rewrite Hsrc. rewrite bool_decide_eq_false_2 by done.
  rewrite bool_decide_eq_true_2 by done.
  fold req0. destruct (Hbr {| rtmp_new_input.info_subnets := [];
                             rtmp_new_input.info_security_groups := [];
                             rtmp_new_input.info_availability_zones :=
                               foldl (fun m subnet =>
                                        <[SubnetId subnet :=
                                            default "Unknown" (AvailabilityZone subnet)]> m)
                                     ∅ subs;
                             rtmp_new_input.info_networks := [] |}) as [info' Hb].
  rewrite (bind_ok _ _ _ _ _ Hb).
  assert (Htg : add_tags args req1 w2 = (Ok req, w2)).
  { unfold add_tags. rewrite Htags. subst req. by destruct tg. }
  rewrite (bind_ok _ _ _ _ _ Htg).
  unfold try_except, bind, call.
  destruct (api_create_input env (calls w2) req) as [resp|[]];
    cbn [snd calls stdin with_call with_console raise on_ClientError print ret fst];
    subst w2; cbn [calls stdin with_call];
    rewrite <- ?app_assoc, ?prompts_printed; split_and!; done.
Qed.

Lemma vpc_request_from_valid_arguments_witness :
  exists req,
    calls (snd (rtmp_new_input.create_rtmp_input vpc_account
                  (run_args "AWS_VPC" (Some "sg-video")
                            (Some ["subnet-c"; "subnet-x"; "subnet-a"])
                            (Some "arn:aws:iam::1:role/medialive") None)
                  None (fresh [])))
    = [DescribeSubnets; DescribeSecurityGroups; CreateInput req]
    ∧ Vpc req = Some {| SubnetIds := Some ["subnet-c"; "subnet-a"];
                        SecurityGroupIds := Some ["sg-video"] |}
    ∧ InputNetworkLocation req = "AWS"
    ∧ RoleArn req = Some (Some "arn:aws:iam::1:role/medialive")
    ∧ InputSecurityGroups req = None
    ∧ Name req = "rtmp-input-00000000-0000-4000-8000-000000000000"
    ∧ stdin (snd (rtmp_new_input.create_rtmp_input vpc_account
                    (run_args "AWS_VPC" (Some "sg-video")
                              (Some ["subnet-c"; "subnet-x"; "subnet-a"])
                              (Some "arn:aws:iam::1:role/medialive") None)
                    None (fresh []))) = []
    ∧ prompts (snd (rtmp_new_input.create_rtmp_input vpc_account
                      (run_args "AWS_VPC" (Some "sg-video")
                                (Some ["subnet-c"; "subnet-x"; "subnet-a"])
                                (Some "arn:aws:iam::1:role/medialive") None)
                      None (fresh []))) = [].
Proof.
  refine (vpc_request_from_valid_arguments vpc_account
            (run_args "AWS_VPC" (Some "sg-video")
                      (Some ["subnet-c"; "subnet-x"; "subnet-a"])
                      (Some "arn:aws:iam::1:role/medialive") None)
            (fresh []) "rtmp-input-00000000-0000-4000-8000-000000000000"
            "subnet-c" "subnet-x" "subnet-a" "subnet-c" "subnet-a" "sg-video"
            "arn:aws:iam::1:role/medialive"
            [subnet_in "subnet-a" "us-east-2a"; subnet_in "subnet-b" "us-east-2b";
             subnet_in "subnet-c" "us-east-2c"]
            [group_named "sg-default" "default"; group_named "sg-video" "video"]
            None _ _ _ _ _ _ _ _ _ _ _ _).
  all: try reflexivity.
  - apply (bool_decide_unpack _). vm_compute. reflexivity.
  - discriminate.
Defined.

(** ** One pass of the selection *)

Lemma split_without sep s : Py.contains sep s = false -> Py.split sep s = [s].
Proof.
  induction s as [|c s IH]; cbn [Py.contains Py.split]; [done|].
  intros [Hc Hs]%orb_false_iff. by rewrite Hc, (IH Hs).
Qed.

Lemma split_with sep s :
  Py.contains sep s = true -> exists a b rest, Py.split sep s = a :: b :: rest.
Proof.
  induction s as [|c s IH]; cbn [Py.contains Py.split]; [done|].
  destruct (Ascii.eqb c sep) eqn:Hc.
  - intros _. destruct s as [|d s]; [by eexists _, _, _|].
    destruct (Py.split sep (String d s)) as [|h t] eqn:E; [|by eexists _, _, _].
    exfalso. revert E. cbn [Py.split]. by repeat case_match.
  - cbn [orb]. intros (a & b & rest & ->)%IH. by eexists _, _, _.
Qed.

Lemma covered_cons r ranges i :
  covered (r :: ranges) i ↔ (r.1 ≤ i ∧ i ≤ r.2) ∨ covered ranges i.
Proof. unfold covered. by rewrite Exists_cons. Qed.

(** One token: the loop body agrees with the range that the token stands
    for. *)
Lemma add_part_spec env len indices token :
  match rtmp_new_input.add_part env len indices token with
  | Ok indices' =>
      exists r, token_range env token = Some r ∧ in_bounds len r
        ∧ forall i, i ∈ indices' ↔ i ∈ indices ∨ (r.1 ≤ i ∧ i ≤ r.2)
  | Raise e => bad_token env len token
  end.
Proof.
  unfold rtmp_new_input.add_part, bad_token, token_range, rtmp_new_input.int_of.
  destruct (Py.contains "-"%char (Py.strip token)) eqn:Hc.
  - destruct (split_with _ _ Hc) as (a & b & rest & ->).
    cbn [rtmp_new_input.unpack2_ints]. unfold rtmp_new_input.int_of.
    destruct (Py.int _ a) as [x|]; [|by destruct rest as [|? []]].
    destruct (Py.int _ b) as [y|]; [|by destruct rest as [|? []]].
    destruct rest as [|c rest]; [|by destruct (Py.int _ c), rest].
    destruct ((1 <=? x) && (x <=? y) && (y <=? len)) eqn:Hb.
    + exists (x, y). unfold in_bounds. cbn [fst snd].
      apply andb_true_iff in Hb as [[?%Z.leb_le ?%Z.leb_le]%andb_true_iff ?%Z.leb_le].
      split_and!; try done. intros i.
      rewrite elem_of_union, elem_of_list_to_set, elem_of_seqZ.
      split; (intros [?|?]; [by left | right; lia]).
    + unfold in_bounds. cbn [fst snd]. intros (?&?&?).
      apply andb_false_iff in Hb as [[?%Z.leb_gt|?%Z.leb_gt]%andb_false_iff|?%Z.leb_gt]; lia.
  - rewrite (split_without _ _ Hc).
    destruct (Py.int _ (Py.strip token)) as [v|]; [|done].
    destruct ((1 <=? v) && (v <=? len)) eqn:Hb.
    + exists (v, v). unfold in_bounds. cbn [fst snd].
      apply andb_true_iff in Hb as [?%Z.leb_le ?%Z.leb_le].
      split_and!; try done; try lia. intros i.
      rewrite elem_of_union, elem_of_singleton.
      split; (intros [?|?]; [by left | right; lia]).
    + unfold in_bounds. cbn [fst snd]. intros (?&?&?).
      apply andb_false_iff in Hb as [?%Z.leb_gt|?%Z.leb_gt]; lia.
Qed.

(** All tokens: the set built by the [for] loop. *)
Lemma add_parts_spec env len indices tokens :
  match rtmp_new_input.add_parts env len indices tokens with
  | Ok indices' =>
      exists ranges, tokens_denote env len tokens ranges
        ∧ forall i, i ∈ indices' ↔ i ∈ indices ∨ covered ranges i
  | Raise e => exists token, token ∈ tokens ∧ bad_token env len token
  end.
Proof.
  revert indices. induction tokens as [|t rest IH]; intros indices.
  - cbn. exists []. split; [by split|]. intros i. unfold covered.
    rewrite Exists_nil. tauto.
  - cbn [rtmp_new_input.add_parts]. pose proof (add_part_spec env len indices t) as Ht.
    destruct (rtmp_new_input.add_part env len indices t) as [indices1|e].
    + destruct Ht as (r & Hr & Hb & Hin). specialize (IH indices1).
      destruct (rtmp_new_input.add_parts env len indices1 rest) as [indices2|e].
      * destruct IH as (ranges & [HF Hbs] & Hin2). exists (r :: ranges).
        split; [split; by constructor|]. intros i.
        rewrite Hin2, Hin, covered_cons. tauto.
      * destruct IH as (token & ? & ?). exists token. split; [by right|done].
    + exists t. split; [by left|done].
Qed.

Lemma StronglySorted_seqZ m k : StronglySorted Z.le (seqZ m (Z.of_nat k)).
Proof.
  revert m. induction k as [|k IH]; intros m.
  - rewrite seqZ_nil by lia. constructor.
  - rewrite seqZ_cons by lia. replace (Z.pred (Z.of_nat (S k))) with (Z.of_nat k) by lia.
    constructor; [apply IH|]. apply Forall_seqZ. lia.
Qed.

Lemma StronglySorted_filter {A} (R : relation A) (P : A -> Prop)
    `{!forall x, Decision (P x)} l :
  StronglySorted R l -> StronglySorted R (filter P l).
Proof.
  induction 1 as [|x l Hl IH Hx]; [constructor|].
  rewrite filter_cons. case_decide; [|done].
  constructor; [done|]. apply Forall_forall. intros y [_ Hy]%list_elem_of_filter.
  by eapply Forall_forall in Hx.
Qed.

Lemma covered_in_bounds len ranges i :
  Forall (in_bounds len) ranges -> covered ranges i -> 1 ≤ i ∧ i ≤ len.
Proof.
  intros Hb (r & Hr & Hi)%Exists_exists.
  eapply Forall_forall in Hb as (?&?&?); [|done]. lia.
Qed.

Lemma elem_of_chosen len ranges i :
  Forall (in_bounds len) ranges -> i ∈ chosen len ranges ↔ covered ranges i.
Proof.
  intros Hb. unfold chosen. rewrite list_elem_of_filter, elem_of_seqZ.
  split; [by intros [? _]|]. intros Hc. split; [done|].
  destruct (covered_in_bounds _ _ _ Hb Hc). lia.
Qed.

(** [sorted(indices)] is the ascending list of the covered indices. *)
Lemma sorted_chosen len (indices : gset Z) ranges :
  (0 ≤ len) ->
  Forall (in_bounds len) ranges ->
  (forall i, i ∈ indices ↔ covered ranges i) ->
  rtmp_new_input.sorted indices = chosen len ranges.
Proof.
  intros Hlen Hb Hin. unfold rtmp_new_input.sorted.
  apply (Sorted_unique Z.le).
  - apply Sorted_merge_sort. apply _.
  - apply StronglySorted_Sorted, StronglySorted_filter.
    replace len with (Z.of_nat (Z.to_nat len)) by lia. apply StronglySorted_seqZ.
  - apply NoDup_Permutation.
    + rewrite merge_sort_Permutation. apply NoDup_elements.
    + apply NoDup_filter, NoDup_seqZ.
    + intros i. rewrite merge_sort_Permutation, elem_of_elements, Hin.
      by rewrite elem_of_chosen.
Qed.

Lemma size_sorted (indices : gset Z) :
  size indices = length (rtmp_new_input.sorted indices).
Proof.
  unfold rtmp_new_input.sorted. by rewrite merge_sort_Permutation.
Qed.

(** The comprehension over the sorted indices never leaves the list. *)
Lemma pick_in_range ids indices :
  Forall (fun i => 1 ≤ i ∧ i ≤ Z.of_nat (length ids)) indices ->
  exists result, rtmp_new_input.pick ids indices = Ok result ∧ ids_at ids indices result.
Proof.
  induction 1 as [|i indices [Hlo Hhi] _ (result & Hp & Hat)].
  - exists []. split; [done|constructor].
  - cbn [rtmp_new_input.pick]. unfold Py.index.
    assert ((0 <=? i - 1) && (i - 1 <? Z.of_nat (length ids)) = true) as ->.
    { apply andb_true_iff. split; [apply Z.leb_le | apply Z.ltb_lt]; lia. }
    destruct (ids !! Z.to_nat (i - 1)) as [id|] eqn:E.
    + rewrite Hp. exists (id :: result). split; [done|by constructor].
    + apply lookup_ge_None in E. lia.
Qed.

Lemma length_item_ids items :
  length (rtmp_new_input.item_ids items) = rtmp_new_input.item_count items.
Proof. destruct items; cbn; by rewrite length_map. Qed.

(** What one pass of the selection does with a line, case by case. *)
Lemma select_attempt_cases env items min_count selection :
  let len := Z.of_nat (rtmp_new_input.item_count items) in
  let tokens := Py.split ","%char selection in
  match rtmp_new_input.select_attempt env items min_count selection with
  | rtmp_new_input.Selected ids =>
      exists ranges, tokens_denote env len tokens ranges
        ∧ min_count ≤ Z.of_nat (length (chosen len ranges))
        ∧ ids_at (rtmp_new_input.item_ids items) (chosen len ranges) ids
  | rtmp_new_input.TooFew =>
      exists ranges, tokens_denote env len tokens ranges
        ∧ Z.of_nat (length (chosen len ranges)) < min_count
  | rtmp_new_input.Invalid e => exists token, token ∈ tokens ∧ bad_token env len token
  end.
Proof.
  intros len tokens. unfold rtmp_new_input.select_attempt. fold len tokens.
  pose proof (add_parts_spec env len ∅ tokens) as Hparts.
  destruct (rtmp_new_input.add_parts env len ∅ tokens) as [indices|e]; [|done].
  destruct Hparts as (ranges & Hden & Hin).
  assert (Hcov : forall i, i ∈ indices ↔ covered ranges i).
  { intros i. rewrite Hin. split; [|by right].
    intros [Hi|Hi]; [by apply not_elem_of_empty in Hi | done]. }
  assert (Hsorted : rtmp_new_input.sorted indices = chosen len ranges).
  { apply sorted_chosen; [lia | apply Hden | done]. }
  rewrite size_sorted, Hsorted.
  destruct (Z.of_nat (length (chosen len ranges)) <? min_count) eqn:Hcount.
  - exists ranges. split; [done|]. by apply Z.ltb_lt.
  - destruct (pick_in_range (rtmp_new_input.item_ids items) (chosen len ranges))
      as (result & -> & Hat).
    + apply Forall_forall. intros i Hi%elem_of_chosen; [|apply Hden].
      rewrite length_item_ids. by eapply covered_in_bounds; [apply Hden|].
    + exists ranges. split_and!; [done| by apply Z.ltb_ge |done].
Qed.

Lemma tokens_denote_unique env len tokens ranges1 ranges2 :
  tokens_denote env len tokens ranges1 -> tokens_denote env len tokens ranges2 ->
  ranges1 = ranges2.
Proof.
  intros [H1 _] [H2 _]. revert ranges2 H2.
  induction H1 as [|t r tokens ranges1 Hr _ IH]; intros ranges2 H2.
  - by apply Forall2_nil_inv_l in H2.
  - apply Forall2_cons_inv_l in H2 as (r' & ranges2' & Hr' & H2 & ->).
    f_equal; [congruence | by apply IH].
Qed.

Lemma tokens_denote_not_bad env len tokens ranges token :
  tokens_denote env len tokens ranges -> token ∈ tokens -> ¬ bad_token env len token.
Proof.
  intros [HF Hb] (k & Hk)%list_elem_of_lookup. unfold bad_token.
  destruct (Forall2_lookup_l _ _ _ k token HF Hk) as (r & Hr & ->).
  intros Hbad. apply Hbad. eapply Forall_forall in Hb; [done|].
  apply list_elem_of_lookup. by exists k.
Qed.

Lemma ids_at_unique ids indices result1 result2 :
  ids_at ids indices result1 -> ids_at ids indices result2 -> result1 = result2.
Proof.
  intros H1. revert result2.
  induction H1 as [|i id indices result1 Hi _ IH]; intros result2 H2.
  - by apply Forall2_nil_inv_l in H2.
  - apply Forall2_cons_inv_l in H2 as (id' & result2' & Hi' & H2 & ->).
    f_equal; [congruence | by apply IH].
Qed.

(** One pass of the selection over any candidates and any line: which of
    the three outcomes it has, and when. *)
Theorem select_attempt_spec env items min_count selection :
  let len := Z.of_nat (rtmp_new_input.item_count items) in
  let tokens := Py.split ","%char selection in
  let outcome := rtmp_new_input.select_attempt env items min_count selection in
  ((exists e, outcome = rtmp_new_input.Invalid e)
   ↔ exists token, token ∈ tokens ∧ bad_token env len token)
  ∧ (outcome = rtmp_new_input.TooFew
     ↔ exists ranges, tokens_denote env len tokens ranges
         ∧ Z.of_nat (length (chosen len ranges)) < min_count)
  ∧ (forall ids,
       outcome = rtmp_new_input.Selected ids
       ↔ exists ranges, tokens_denote env len tokens ranges
           ∧ min_count ≤ Z.of_nat (length (chosen len ranges))
           ∧ ids_at (rtmp_new_input.item_ids items) (chosen len ranges) ids).
Proof.
  intros len tokens outcome.
  pose proof (select_attempt_cases env items min_count selection) as Hcases.
  cbv zeta in Hcases. fold len tokens outcome in Hcases.
  split_and!.
  - split.
    + intros [e He]. by rewrite He in Hcases.
    + intros (token & Hin & Hbad). destruct outcome as [ids| |e]; [..|by exists e].
      * destruct Hcases as (ranges & Hden & _).
        by destruct (tokens_denote_not_bad _ _ _ _ _ Hden Hin).
      * destruct Hcases as (ranges & Hden & _).
        by destruct (tokens_denote_not_bad _ _ _ _ _ Hden Hin).
  - split.
    + intros He. by rewrite He in Hcases.
    + intros (ranges & Hden & Hlt). destruct outcome as [ids| |e]; [|done|].
      * destruct Hcases as (ranges' & Hden' & Hge & _).
        rewrite (tokens_denote_unique _ _ _ _ _ Hden' Hden) in Hge. lia.
      * destruct Hcases as (token & Hin & Hbad).
        by destruct (tokens_denote_not_bad _ _ _ _ _ Hden Hin).
  - intros ids. split.
    + intros He. by rewrite He in Hcases.
    + intros (ranges & Hden & Hge & Hat). destruct outcome as [ids'| |e].
      * destruct Hcases as (ranges' & Hden' & _ & Hat').
        rewrite (tokens_denote_unique _ _ _ _ _ Hden' Hden) in Hat'.
        by rewrite (ids_at_unique _ _ _ _ Hat Hat').
      * destruct Hcases as (ranges' & Hden' & Hlt).
        rewrite (tokens_denote_unique _ _ _ _ _ Hden' Hden) in Hlt. lia.
      * destruct Hcases as (token & Hin & Hbad).
        by destruct (tokens_denote_not_bad _ _ _ _ _ Hden Hin).
Qed.

(** The examples of the specification. *)
Example select_attempt_examples :
  let env := account (Ok []) [] [] (fun n => n) in
  rtmp_new_input.select_attempt env ten_candidates 2 "1,3-5"
  = rtmp_new_input.Selected ["c1"; "c3"; "c4"; "c5"]
  ∧ rtmp_new_input.select_attempt env ten_candidates 2 "3-5,1,4"
    = rtmp_new_input.Selected ["c1"; "c3"; "c4"; "c5"]
  ∧ rtmp_new_input.select_attempt env ten_candidates 3 "1,2" = rtmp_new_input.TooFew
  ∧ rtmp_new_input.select_attempt env ten_candidates 1 "0"
    = rtmp_new_input.Invalid (ValueError "Invalid selection: 0")
  ∧ rtmp_new_input.select_attempt env ten_candidates 1 "11"
    = rtmp_new_input.Invalid (ValueError "Invalid selection: 11")
  ∧ rtmp_new_input.select_attempt env ten_candidates 1 "5-3"
    = rtmp_new_input.Invalid (ValueError "Invalid range: 5-3").
Proof. cbv zeta. repeat split; vm_compute; reflexivity. Qed.

(** The loop of [select_resources] returns what a pass selects and asks
    again after a refusal. *)
Lemma select_loop_pass env items prompt min_count selection rest w :
  rtmp_new_input.select_loop env items prompt min_count (selection :: rest) w
  = let w1 := with_stdin rest
                (with_console (Prompted (rtmp_new_input.select_prompt prompt)) w) in
    match rtmp_new_input.select_attempt env items min_count selection with
    | rtmp_new_input.Selected ids => (Ok ids, w1)
    | rtmp_new_input.TooFew =>
        rtmp_new_input.select_loop env items prompt min_count rest
          (with_console
             (Printed ("Please select at least " +:+ Py.str_of_Z min_count +:+ " "
                       +:+ prompt +:+ "(s).")) w1)
    | rtmp_new_input.Invalid e =>
        rtmp_new_input.select_loop env items prompt min_count rest
          (with_console
             (Printed ("Invalid selection: " +:+ exn_str e +:+ ". Please try again."))
             w1)
    end.
Proof. reflexivity. Qed.

(** ** Invariants of the logs *)

Section keeps_rules.
Context {A B : Type} (I : World -> Prop).

Lemma keeps_ret (a : A) (Q : A -> Prop) : Q a -> keeps I (ret a) Q.
Proof. intros Ha w Hw. split; [done|]. intros a' [= <-]. done. Qed.

Lemma keeps_raise e (Q : A -> Prop) : keeps I (raise e) Q.
Proof. intros w Hw. split; [done|]. intros a' [=]. Qed.

Lemma keeps_bind (m : M A) (k : A -> M B) (Q : A -> Prop) (R : B -> Prop) :
  keeps I m Q -> (forall a, Q a -> keeps I (k a) R) -> keeps I (bind m k) R.
Proof.
  intros Hm Hk w Hw. destruct (Hm w Hw) as [Hw' HQ]. unfold bind.
  destruct (m w) as [[a|e] w']; cbn [fst snd] in *.
  - by apply Hk; [apply HQ|].
  - split; [done|]. intros a' [=].
Qed.

Lemma keeps_weaken (m : M A) (Q Q' : A -> Prop) :
  keeps I m Q -> (forall a, Q a -> Q' a) -> keeps I m Q'.
Proof. intros Hm HQ w Hw. destruct (Hm w Hw). split; [done|]. auto. Qed.

Lemma keeps_try_except (m : M A) handler (Q : A -> Prop) :
  keeps I m Q -> (forall e h, handler e = Some h -> keeps I h Q) ->
  keeps I (try_except m handler) Q.
Proof.
  intros Hm Hh w Hw. destruct (Hm w Hw) as [Hw' HQ]. unfold try_except.
  destruct (m w) as [[a|e] w']; cbn [fst snd] in *.
  - split; [done|]. intros a' [= <-]. by apply HQ.
  - destruct (handler e) as [h|] eqn:E.
    + by apply (Hh e h E).
    + split; [done|]. intros a' [=].
Qed.

Lemma keeps_of_option e (o : option A) (Q : A -> Prop) :
  (forall a, o = Some a -> Q a) -> keeps I (of_option e o) Q.
Proof.
  intros HQ. destruct o as [a|]; [apply keeps_ret; auto | apply keeps_raise].
Qed.

End keeps_rules.

Lemma keeps_on_ClientError {A} (I : World -> Prop) (h : string -> M A) (Q : A -> Prop) :
  (forall msg, keeps I (h msg) Q) ->
  forall e h', on_ClientError h e = Some h' -> keeps I h' Q.
Proof. intros Hh [] h' [= <-]. apply Hh. Qed.

Section log_rules.
Context (ok_prompt : string -> Prop) (ok_call : ApiCall -> Prop).

Lemma log_inv_printed l w :
  log_inv ok_prompt ok_call w ->
  log_inv ok_prompt ok_call (with_console (Printed l) w).
Proof. intros [? ?]. split; [by rewrite prompts_printed | done]. Qed.

Lemma log_inv_prompted p w :
  ok_prompt p ->
  log_inv ok_prompt ok_call w ->
  log_inv ok_prompt ok_call (with_console (Prompted p) w).
Proof.
  intros Hp [? ?]. split; [|done]. unfold prompts. cbn [console with_console].
  rewrite omap_app. apply Forall_app. split; [done|]. by constructor.
Qed.

Lemma log_inv_stdin l w :
  log_inv ok_prompt ok_call w ->
  log_inv ok_prompt ok_call (with_stdin l w).
Proof. done. Qed.

Lemma log_inv_rand n w :
  log_inv ok_prompt ok_call w ->
  log_inv ok_prompt ok_call (with_rand n w).
Proof. done. Qed.

Lemma log_inv_uuid n w :
  log_inv ok_prompt ok_call w ->
  log_inv ok_prompt ok_call (with_uuid n w).
Proof. done. Qed.

Lemma log_inv_call c w :
  ok_call c ->
  log_inv ok_prompt ok_call w ->
  log_inv ok_prompt ok_call (with_call c w).
Proof.
  intros Hc [? ?]. split; [done|]. cbn [calls with_call].
  apply Forall_app. split; [done|]. by constructor.
Qed.

Lemma keeps_print l : keeps (log_inv ok_prompt ok_call) (print l) (fun _ => True).
Proof. intros w Hw. split; [by apply log_inv_printed | done]. Qed.

Lemma keeps_input p :
  ok_prompt p ->
  keeps (log_inv ok_prompt ok_call) (input p) (fun _ => True).
Proof.
  intros Hp w Hw. unfold input. destruct (stdin w); (split; [|done]); cbn [snd].
  - by apply log_inv_prompted.
  - by apply log_inv_stdin, log_inv_prompted.
Qed.

Lemma keeps_call {A} c (answer : list ApiCall -> Result A) :
  ok_call c -> keeps (log_inv ok_prompt ok_call) (call c answer) (fun _ => True).
Proof. intros Hc w Hw. split; [by apply log_inv_call | done]. Qed.

Lemma keeps_uuid4 env : keeps (log_inv ok_prompt ok_call) (uuid4 env) (fun _ => True).
Proof. intros w Hw. split; [by apply log_inv_uuid | done]. Qed.

Lemma keeps_random_join env n :
  keeps (log_inv ok_prompt ok_call) (random_join env n) (fun _ => True).
Proof.
  intros w Hw. rewrite random_join_draws. split; [by apply log_inv_rand | done].
Qed.

Lemma keeps_py_int env s : keeps (log_inv ok_prompt ok_call) (py_int env s) (fun _ => True).
Proof. by apply keeps_of_option. Qed.

Lemma keeps_print_all lines :
  keeps (log_inv ok_prompt ok_call) (rtmp_new_input.print_all lines) (fun _ => True).
Proof.
  induction lines as [|l lines IH]; cbn [rtmp_new_input.print_all].
  - by apply keeps_ret.
  - eapply keeps_bind; [apply keeps_print | intros _ _; apply IH].
Qed.

End log_rules.

Lemma keeps_bind_any {A B} (I : World -> Prop) (m : M A) (k : A -> M B) (R : B -> Prop) :
  keeps I m (fun _ => True) -> (forall a, keeps I (k a) R) -> keeps I (bind m k) R.
Proof. intros Hm Hk. eapply keeps_bind; [apply Hm | auto]. Qed.

(** The prompt is not the one that asks for a security group of the VPC. *)
Ltac other_prompt :=
  let H := fresh in
  intros H; vm_compute in H; discriminate H.

Ltac keeps_step :=
  first
    [ apply keeps_raise
    | apply keeps_ret; exact Logic.I
    | apply keeps_print
    | apply keeps_print_all
    | apply keeps_uuid4
    | apply keeps_random_join
    | apply keeps_py_int
    | apply keeps_of_option; intros; exact Logic.I
    | apply keeps_bind_any; [ | intros ? ]
    | apply keeps_try_except; [ | apply keeps_on_ClientError; intros ? ]
    | lazymatch goal with
      | |- keeps _ (match ?x with _ => _ end) _ => destruct x
      | |- keeps _ (if ?x then _ else _) _ => destruct x
      end ].

(** The functions of the scripts keep every invariant that accepts the
    prompts they show and the calls they make. *)
Section scripts_keep.
Context (env : Env) (ok_prompt : string -> Prop) (ok_call : ApiCall -> Prop).

Hypothesis other_prompts :
  forall p, p ≠ rtmp_new_input.select_prompt "security group" -> ok_prompt p.
Hypothesis tagged_creations :
  forall rules, ok_call (CreateInputSecurityGroup rules {[ "AutoCreated" := "True" ]}).
Hypothesis other_calls :
  forall c, (forall rules t, c ≠ CreateInputSecurityGroup rules t) ->
            (forall r, c ≠ CreateInput r) -> ok_call c.

Ltac step :=
  first
    [ keeps_step
    | apply keeps_input; apply other_prompts; other_prompt
    | apply keeps_call; first [ apply tagged_creations | by apply other_calls ] ].

Lemma keeps_validate_name_left left name :
  keeps (log_inv ok_prompt ok_call)
        (rtmp_new_input.validate_name_left env left name) (fun _ => True).
Proof.
  revert name. induction left as [|left IH]; intros name;
    cbn [rtmp_new_input.validate_name_left]; repeat step. apply IH.
Qed.

Lemma keeps_get_available_resources :
  keeps (log_inv ok_prompt ok_call)
        (rtmp_new_input.get_available_resources env) (fun _ => True).
Proof. unfold rtmp_new_input.get_available_resources. repeat step. Qed.

Lemma keeps_get_available_security_groups :
  keeps (log_inv ok_prompt ok_call)
        (rtmp_new_input.get_available_security_groups env) (fun _ => True).
Proof. unfold rtmp_new_input.get_available_security_groups. repeat step. Qed.

Lemma keeps_get_available_networks :
  keeps (log_inv ok_prompt ok_call)
        (rtmp_new_input.get_available_networks env) (fun _ => True).
Proof. unfold rtmp_new_input.get_available_networks. repeat step. Qed.

Lemma keeps_create_input_security_group_tagged rules :
  keeps (log_inv ok_prompt ok_call) (rtmp_new_input.create_input_security_group env rules
             {[ "AutoCreated" := "True" ]}) (fun _ => True).
Proof. unfold rtmp_new_input.create_input_security_group. repeat step. Qed.

Lemma keeps_choose_or_create listing groups req info :
  keeps (log_inv ok_prompt ok_call)
        (rtmp_new_input.choose_or_create env listing groups req info) (fun _ => True).
Proof.
  unfold rtmp_new_input.choose_or_create.
  repeat first [ apply keeps_create_input_security_group_tagged | step ].
Qed.

Lemma keeps_aws_branch args req info :
  keeps (log_inv ok_prompt ok_call)
        (rtmp_new_input.aws_branch env args req info) (fun _ => True).
Proof.
  unfold rtmp_new_input.aws_branch.
  repeat first [ apply keeps_create_input_security_group_tagged
               | apply keeps_get_available_security_groups
               | apply keeps_choose_or_create | step ].
Qed.

Lemma keeps_select_loop items prompt min_count lines :
  ok_prompt (rtmp_new_input.select_prompt prompt) ->
  forall w, log_inv ok_prompt ok_call w ->
    log_inv ok_prompt ok_call (snd (rtmp_new_input.select_loop env items prompt min_count lines w)).
Proof.
  intros Hp. induction lines as [|l lines IH]; intros w Hw;
    cbn [rtmp_new_input.select_loop].
  - by apply log_inv_prompted.
  - assert (log_inv ok_prompt ok_call (with_stdin lines
                 (with_console (Prompted (rtmp_new_input.select_prompt prompt)) w)))
      by by apply log_inv_stdin, log_inv_prompted.
    destruct (rtmp_new_input.select_attempt env items min_count l); [done|..];
      by apply IH, log_inv_printed.
Qed.

Lemma keeps_select_resources items prompt multiple min_count :
  ok_prompt (rtmp_new_input.select_prompt prompt) ->
  keeps (log_inv ok_prompt ok_call)
        (rtmp_new_input.select_resources env items prompt multiple min_count)
        (fun _ => True).
Proof.
  intros Hp. unfold rtmp_new_input.select_resources.
  destruct (rtmp_new_input.item_count items); repeat step.
  intros w Hw. split; [by apply keeps_select_loop | done].
Qed.

Lemma keeps_vpc_subnets args subs :
  keeps (log_inv ok_prompt ok_call)
        (rtmp_new_input.vpc_subnets env args subs) (fun _ => True).
Proof.
  unfold rtmp_new_input.vpc_subnets.
  repeat first [ apply keeps_select_resources; apply other_prompts; other_prompt | step ].
Qed.

Lemma keeps_vpc_security_group args groups info :
  ok_prompt (rtmp_new_input.select_prompt "security group") ->
  keeps (log_inv ok_prompt ok_call)
        (rtmp_new_input.vpc_security_group env args groups info) (fun _ => True).
Proof.
  intros Hp. unfold rtmp_new_input.vpc_security_group.
  repeat first [ by apply keeps_select_resources | step ].
Qed.

Lemma keeps_vpc_branch args subs groups req info :
  ok_prompt (rtmp_new_input.select_prompt "security group") ->
  keeps (log_inv ok_prompt ok_call)
        (rtmp_new_input.vpc_branch env args subs groups req info) (fun _ => True).
Proof.
  intros Hp. unfold rtmp_new_input.vpc_branch.
  repeat first [ apply keeps_vpc_subnets | by apply keeps_vpc_security_group | step ].
Qed.

Lemma keeps_read_ip_pools pools lines :
  forall w, log_inv ok_prompt ok_call w ->
    log_inv ok_prompt ok_call (snd (rtmp_new_input.read_ip_pools env pools lines w)).
Proof.
  revert pools. induction lines as [|l lines IH]; intros pools w Hw;
    cbn [rtmp_new_input.read_ip_pools].
  - apply log_inv_prompted; [|done]. apply other_prompts. other_prompt.
  - assert (log_inv ok_prompt ok_call (with_stdin lines
                 (with_console
                    (Prompted "Enter IP pool CIDR (or leave empty to finish adding pools): ")
                    w))).
    { apply log_inv_stdin, log_inv_prompted; [|done]. apply other_prompts. other_prompt. }
    destruct l; [done|]. destruct (rtmp_new_input.validate_cidr env _);
      [by apply IH | by apply IH, log_inv_printed].
Qed.

Lemma keeps_read_routes routes lines :
  forall w, log_inv ok_prompt ok_call w ->
    log_inv ok_prompt ok_call (snd (rtmp_new_input.read_routes env routes lines w)).
Proof.
  revert routes. induction lines as [lines IH] using (induction_ltof1 _ length).
  unfold ltof in IH. intros routes w Hw.
  destruct lines as [|l lines]; cbn [rtmp_new_input.read_routes].
  - apply log_inv_prompted; [|done]. apply other_prompts. other_prompt.
  - assert (log_inv ok_prompt ok_call (with_stdin lines
                 (with_console
                    (Prompted "Enter route CIDR (or leave empty to finish adding routes): ")
                    w))) as Hw1.
    { apply log_inv_stdin, log_inv_prompted; [|done]. apply other_prompts. other_prompt. }
    destruct l as [|c r]; [done|]. destruct (rtmp_new_input.validate_cidr env _).
    + assert (log_inv ok_prompt ok_call (with_console (Prompted ("Enter gateway for " +:+ String c r +:+ ": "))
                   (with_stdin lines
                      (with_console
                         (Prompted "Enter route CIDR (or leave empty to finish adding routes): ")
                         w)))) as Hw2.
      { apply log_inv_prompted; [|done]. apply other_prompts. other_prompt. }
      destruct lines as [|g lines']; [done|].
      apply IH; [cbn; lia | by apply log_inv_stdin].
    + apply IH; [cbn; lia | by apply log_inv_printed].
Qed.

Lemma keeps_create_medialive_network nm pools routes :
  keeps (log_inv ok_prompt ok_call)
        (rtmp_new_input.create_medialive_network env nm pools routes) (fun _ => True).
Proof. unfold rtmp_new_input.create_medialive_network. repeat step. Qed.

Lemma keeps_create_new_network_depth depth :
  keeps (log_inv ok_prompt ok_call)
        (rtmp_new_input.create_new_network_depth env depth) (fun _ => True).
Proof.
  induction depth as [|depth IH]; cbn [rtmp_new_input.create_new_network_depth].
  all: repeat first
         [ apply keeps_create_medialive_network
         | apply IH
         | lazymatch goal with
           | |- keeps _ (fun w => rtmp_new_input.read_ip_pools _ _ _ _) _ =>
               intros w Hw; split; [by apply keeps_read_ip_pools | done]
           | |- keeps _ (fun w => rtmp_new_input.read_routes _ _ _ _) _ =>
               intros w Hw; split; [by apply keeps_read_routes | done]
           end
         | step ].
Qed.

Lemma keeps_create_new_network :
  keeps (log_inv ok_prompt ok_call) (rtmp_new_input.create_new_network env) (fun _ => True).
Proof. intros w Hw. by apply keeps_create_new_network_depth. Qed.

Lemma keeps_choose_network networks :
  keeps (log_inv ok_prompt ok_call)
        (rtmp_new_input.choose_network env networks) (fun _ => True).
Proof.
  unfold rtmp_new_input.choose_network.
  repeat first [ apply keeps_create_new_network | step ].
Qed.

Lemma keeps_on_premises_branch args req info :
  keeps (log_inv ok_prompt ok_call)
        (rtmp_new_input.on_premises_branch env args req info) (fun _ => True).
Proof.
  unfold rtmp_new_input.on_premises_branch.
  repeat first [ apply keeps_get_available_networks | apply keeps_choose_network | step ].
Qed.

Lemma keeps_add_tags args req (Q : InputRequest -> Prop) :
  (forall d, Q (set_Tags d req)) -> Q req -> keeps (log_inv ok_prompt ok_call)
        (add_tags args req) Q.
Proof.
  intros Hd Hr. unfold add_tags. destruct (tags_of args) as [[d|]|e].
  - by apply keeps_ret.
  - by apply keeps_ret.
  - apply keeps_raise.
Qed.

Lemma keeps_create_input_from cfg :
  keeps (log_inv ok_prompt ok_call) (create_input_from env cfg) (fun _ => True).
Proof. unfold create_input_from. destruct cfg; repeat step. Qed.

(** The whole run of the full builder, for an invariant that accepts every
    request to [create_input]. *)
Lemma keeps_full_run args direct_config :
  ok_prompt (rtmp_new_input.select_prompt "security group") ->
  (forall r, ok_call (CreateInput r)) ->
  keeps (log_inv ok_prompt ok_call)
        (rtmp_new_input.create_rtmp_input env args direct_config) (fun _ => True).
Proof.
  intros Hp Hc. unfold rtmp_new_input.create_rtmp_input, rtmp_new_input.validate_name.
  repeat first
    [ apply keeps_validate_name_left
    | apply keeps_get_available_resources
    | apply keeps_aws_branch
    | by apply keeps_vpc_branch
    | apply keeps_on_premises_branch
    | by apply keeps_add_tags
    | apply keeps_create_input_from
    | apply keeps_call; apply Hc
    | step ].
Qed.

Lemma keeps_generate_name nm :
  keeps (log_inv ok_prompt ok_call) (rtmp_quick.generate_name env nm) (fun _ => True).
Proof. unfold rtmp_quick.generate_name. repeat step. Qed.

Lemma keeps_create_security_group cidr :
  keeps (log_inv ok_prompt ok_call)
        (rtmp_quick.create_security_group env cidr) (fun _ => True).
Proof.
  unfold rtmp_quick.create_security_group, rtmp_quick.sdk_create_input_security_group.
  repeat step.
Qed.

Lemma keeps_create_network nm pools routes :
  keeps (log_inv ok_prompt ok_call)
        (rtmp_quick.create_network env nm pools routes) (fun _ => True).
Proof. unfold rtmp_quick.create_network. repeat step. Qed.

Lemma keeps_quick_aws_branch args req :
  keeps (log_inv ok_prompt ok_call) (rtmp_quick.aws_branch env args req) (fun _ => True).
Proof.
  unfold rtmp_quick.aws_branch. repeat first [ apply keeps_create_security_group | step ].
Qed.

Lemma keeps_quick_on_premises_branch args req :
  keeps (log_inv ok_prompt ok_call)
        (rtmp_quick.on_premises_branch env args req) (fun _ => True).
Proof.
  unfold rtmp_quick.on_premises_branch.
  repeat first [ apply keeps_create_network | step ].
Qed.

Lemma keeps_load_config path :
  keeps (log_inv ok_prompt ok_call) (rtmp_quick.load_config env path) (fun _ => True).
Proof. unfold rtmp_quick.load_config. repeat step. Qed.

(** The whole run of the quick builder, likewise. *)
Lemma keeps_quick_run args :
  (forall r, ok_call (CreateInput r)) ->
  keeps (log_inv ok_prompt ok_call) (rtmp_quick.create_rtmp_input env args) (fun _ => True).
Proof.
  intros Hc. unfold rtmp_quick.create_rtmp_input, rtmp_quick.vpc_branch.
  repeat first
    [ apply keeps_generate_name
    | apply keeps_load_config
    | apply keeps_quick_aws_branch
    | apply keeps_quick_on_premises_branch
    | by apply keeps_add_tags
    | apply keeps_create_input_from
    | apply keeps_call; apply Hc
    | step ].
Qed.

End scripts_keep.

(** C8.  Whatever the arguments, the answers of the cloud and the lines
    typed, every request to create an input security group that a run of
    either builder makes carries the tag [AutoCreated=True]: if the calls
    made before the run are so, the calls made at its end are. *)
Theorem created_groups_carry_the_tag env args direct_config w :
  Forall sg_tagged (calls w) ->
  Forall sg_tagged
    (calls (snd (rtmp_new_input.create_rtmp_input env args direct_config w)))
  ∧ Forall sg_tagged (calls (snd (rtmp_quick.create_rtmp_input env args w))).
Proof.
  intros Hw.
  assert (Hinv : log_inv (fun _ => True) sg_tagged w).
  { split; [|done]. by apply Forall_true. }
  assert (Hsg : forall rules,
            sg_tagged (CreateInputSecurityGroup rules {[ "AutoCreated" := "True" ]})).
  { intros rules. apply lookup_singleton_eq. }
  assert (Hother : forall c, (forall rules t, c ≠ CreateInputSecurityGroup rules t) ->
                             (forall r, c ≠ CreateInput r) -> sg_tagged c).
  { intros c Hnsg _. destruct c as [| | | | |rules t| | |]; try done.
    by destruct (Hnsg rules t). }
  split.
  - by apply (keeps_full_run env (fun _ => True) sg_tagged).
  - by apply (keeps_quick_run env (fun _ => True) sg_tagged).
Qed.

Lemma created_groups_carry_the_tag_witness :
  let env := account (Ok []) [] [] (fun n => n) in
  let args := run_args "AWS" (Some "0.0.0.0/0") None None None in
  Forall sg_tagged (calls (snd (rtmp_new_input.create_rtmp_input env args None (fresh []))))
  ∧ Forall sg_tagged (calls (snd (rtmp_quick.create_rtmp_input env args (fresh [])))).
Proof.
  cbv zeta.
  refine (created_groups_carry_the_tag (account (Ok []) [] [] (fun n => n))
            (run_args "AWS" (Some "0.0.0.0/0") None None None) None (fresh []) _).
  vm_compute. constructor.
Defined.

(** In that run each builder does create a group, for the address block
    given. *)
Example created_groups_example :
  let env := account (Ok []) [] [] (fun n => n) in
  let args := run_args "AWS" (Some "0.0.0.0/0") None None None in
  exists r1 r2,
    calls (snd (rtmp_new_input.create_rtmp_input env args None (fresh [])))
    = [DescribeSubnets; DescribeSecurityGroups; ListInputSecurityGroups;
       CreateInputSecurityGroup [{| entry_Cidr := "0.0.0.0/0" |}]
                                {[ "AutoCreated" := "True" ]};
       CreateInput r1]
    ∧ calls (snd (rtmp_quick.create_rtmp_input env args (fresh [])))
      = [CreateInputSecurityGroup [{| entry_Cidr := "0.0.0.0/0" |}]
                                  {[ "AutoCreated" := "True" ]};
         CreateInput r2].
Proof. cbv zeta. eexists _, _. split; reflexivity. Qed.

(** ** The security group of a VPC input *)





Lemma print_all_console lines w :
  exists w', rtmp_new_input.print_all lines w = (Ok tt, w')
    ∧ console w' = console w ++ (Printed <$> lines) ∧ stdin w' = stdin w.
Proof.
  revert w. induction lines as [|l lines IH]; intros w.
  - exists w. by rewrite app_nil_r.
  - destruct (IH (with_console (Printed l) w)) as (w' & Hrun & Hc & Hs).
    exists w'. cbn [rtmp_new_input.print_all]. unfold bind, print.
    rewrite Hrun, Hc. cbn [console with_console fmap list_fmap].
    by rewrite <- app_assoc.
Qed.


(** What the loop returns is what one pass selected. *)
Lemma select_loop_selected env items prompt min_count lines w ids :
  fst (rtmp_new_input.select_loop env items prompt min_count lines w) = Ok ids ->
  exists selection,
    rtmp_new_input.select_attempt env items min_count selection
    = rtmp_new_input.Selected ids.
Proof.
  revert w. induction lines as [|l lines IH]; intros w;
    cbn [rtmp_new_input.select_loop]; [done|].
  destruct (rtmp_new_input.select_attempt env items min_count l) eqn:E.
  - intros [= <-]. by exists l.
  - apply IH.
  - apply IH.
Qed.



(** Over candidates, [select_resources] prints the list and enters the
    loop. *)
Lemma select_resources_nonempty env items prompt multiple min_count w :
  rtmp_new_input.item_count items ≠ O ->
  exists w2,
    rtmp_new_input.select_resources env items prompt multiple min_count w
    = rtmp_new_input.select_loop env items prompt min_count (stdin w2) w2
    ∧ console w2
      = console w ++ [Printed (nl +:+ "Available " +:+ prompt +:+ "s:")]
        ++ (Printed <$> rtmp_new_input.item_lines items)
    ∧ stdin w2 = stdin w.
Proof.
  intros Hne. unfold rtmp_new_input.select_resources.
  destruct (rtmp_new_input.item_count items); [done|].
  destruct (print_all_console (rtmp_new_input.item_lines items)
              (with_console (Printed (nl +:+ "Available " +:+ prompt +:+ "s:")) w))
    as (w2 & Hpr & Hc2 & Hs2).
  exists w2. unfold bind, print. rewrite Hpr. split_and!; [done| |done].
  rewrite Hc2. cbn [console with_console]. by rewrite <- app_assoc.
Qed.






(** The run of that witness: the operator types 2 and gets the second
    group of the inventory. *)
Example unknown_group_run :
  fst (rtmp_new_input.vpc_security_group vpc_account
         (run_args "AWS_VPC" (Some "sg-gone") (Some ["subnet-a"; "subnet-b"])
                   (Some "arn:aws:iam::1:role/medialive") None)
         [group_named "sg-default" "default"; group_named "sg-video" "video"]
         {| rtmp_new_input.info_subnets := [];
            rtmp_new_input.info_security_groups := [];
            rtmp_new_input.info_availability_zones := ∅;
            rtmp_new_input.info_networks := [] |}
         (fresh ["2"]))
  = Ok (Some ["sg-video"],
        {| rtmp_new_input.info_subnets := [];
           rtmp_new_input.info_security_groups :=
             [{| rtmp_new_input.report_id := "sg-video";
                 rtmp_new_input.report_cidr := None;
                 rtmp_new_input.report_auto_created := None;
                 rtmp_new_input.report_name := Some "video";
                 rtmp_new_input.report_description := Some "" |}];
           rtmp_new_input.info_availability_zones := ∅;
           rtmp_new_input.info_networks := [] |}).
Proof. vm_compute. reflexivity. Qed.


(** ** The network dialogue *)

(** The loop over the IP pools reads at least one line. *)
Lemma read_ip_pools_consumes env pools lines w r w' :
  rtmp_new_input.read_ip_pools env pools lines w = (Ok r, w') ->
  (length (stdin w') < length lines)%nat.
Proof.
  revert pools w. induction lines as [|l lines IH]; intros pools w;
    cbn [rtmp_new_input.read_ip_pools]; [done|].
  destruct l as [|c s].
  - intros [= _ <-]. cbn. lia.
  - destruct (rtmp_new_input.validate_cidr env (String c s));
      intros H%IH; cbn [length]; lia.
Qed.

(** The recursion limit of [create_new_network] is not reached while it
    leaves room for as many nested calls as there are lines left on the
    standard input: any two such limits give the same run. *)
Lemma create_new_network_depth_eof env d w :
  stdin w = [] ->
  rtmp_new_input.create_new_network_depth env d w
  = (Raise EOFError, with_console (Prompted "Enter network name: ") w).
Proof.
  intros E. destruct d; cbn [rtmp_new_input.create_new_network_depth];
    unfold bind, input; by rewrite E.
Qed.

Lemma create_new_network_depth_enough env d1 d2 w :
  (length (stdin w) ≤ d1)%nat -> (length (stdin w) ≤ d2)%nat ->
  rtmp_new_input.create_new_network_depth env d1 w
  = rtmp_new_input.create_new_network_depth env d2 w.
Proof.
  revert d2 w. induction d1 as [|d1 IH]; intros d2 w H1 H2.
  all: destruct (stdin w) as [|nm rest] eqn:E;
    [by rewrite !create_new_network_depth_eof|].
  all: cbn [length] in H1, H2.
  { lia. }
  destruct d2 as [|d2]; [lia|].
  cbn [rtmp_new_input.create_new_network_depth]. unfold bind, input, print.
  rewrite E. cbn [stdin with_stdin with_console].
  destruct (rtmp_new_input.read_ip_pools env [] rest _) as [[pools|e] w1] eqn:Er;
    [|done].
  apply read_ip_pools_consumes in Er. destruct pools; [|done].
  apply IH; cbn [stdin with_console]; lia.
Qed.

(** ** The selection as an operation *)

Lemma select_resources_empty env items prompt multiple min_count w :
  rtmp_new_input.item_count items = O ->
  rtmp_new_input.select_resources env items prompt multiple min_count w
  = (Ok [], with_console
              (Printed ("No " +:+ prompt +:+ "s available in this account/region.")) w).
Proof. intros H. unfold rtmp_new_input.select_resources. by rewrite H. Qed.

(** Over candidates, [select_resources] prints the heading and the list,
    and enters the loop; no call is made. *)
Lemma select_resources_begins env items prompt multiple min_count w :
  rtmp_new_input.item_count items ≠ O ->
  exists w2,
    rtmp_new_input.select_resources env items prompt multiple min_count w
    = rtmp_new_input.select_loop env items prompt min_count (stdin w) w2
    ∧ console w2 = console w ++ candidates_shown prompt items
    ∧ calls w2 = calls w.
Proof.
  intros Hne. unfold rtmp_new_input.select_resources.
  destruct (rtmp_new_input.item_count items); [done|].
  unfold bind at 1 2, print.
  set (w1 := with_console (Printed (nl +:+ "Available " +:+ prompt +:+ "s:")) w).
  assert (forall lines w0, exists w',
            rtmp_new_input.print_all lines w0 = (Ok tt, w')
            ∧ console w' = console w0 ++ (Printed <$> lines)
            ∧ stdin w' = stdin w0 ∧ calls w' = calls w0) as Hprint.
  { induction lines as [|l lines IH]; intros w0.
    - exists w0. by rewrite app_nil_r.
    - destruct (IH (with_console (Printed l) w0)) as (w' & Hrun & Hc & Hs & Hcalls).
      exists w'. cbn [rtmp_new_input.print_all]. unfold bind, print.
      rewrite Hrun, Hc. cbn [console with_console fmap list_fmap].
      by rewrite <- app_assoc. }
  destruct (Hprint (rtmp_new_input.item_lines items) w1) as (w2 & -> & Hc & Hs & Hcalls).
  exists w2. rewrite Hs. split_and!; [done| |done].
  rewrite Hc. unfold candidates_shown. subst w1. cbn [console with_console].
  by rewrite <- app_assoc.
Qed.

(** The passes of the loop over lines that are refused: each shows the
    question and the reason, and the loop goes on with the next line. *)
Lemma select_loop_refusals env items prompt min_count refused :
  let len := Z.of_nat (rtmp_new_input.item_count items) in
  Forall (refused_selection env len min_count) refused ->
  forall rest w,
  exists shown w',
    Forall2 (refusal_shown env prompt len min_count) refused shown
    ∧ rtmp_new_input.select_loop env items prompt min_count (refused ++ rest) w
      = rtmp_new_input.select_loop env items prompt min_count rest w'
    ∧ console w' = console w ++ concat shown
    ∧ calls w' = calls w
    ∧ (refused = [] -> w' = w).
Proof.
  intros len H. induction H as [|l refused Hl _ IH]; intros rest w.
  { exists [], w. cbn. by rewrite app_nil_r. }
  cbn [app]. rewrite select_loop_pass. cbv zeta.
  pose proof (select_attempt_spec env items min_count l) as (Hinv & Hfew & _).
  fold len in Hinv, Hfew.
  set (w1 := with_stdin (refused ++ rest)
               (with_console (Prompted (rtmp_new_input.select_prompt prompt)) w)).
  destruct Hl as [Hbad|Hshort].
  - destruct (proj2 Hinv Hbad) as [e ->].
    destruct (IH rest
                (with_console
                   (Printed ("Invalid selection: " +:+ exn_str e +:+ ". Please try again."))
                   w1)) as (shown & w' & HF & Hrun & Hc & Hcalls & _).
    eexists (_ :: shown), w'. split_and!; [|exact Hrun| |done|done].
    + constructor; [|done]. eexists. split; [reflexivity|]. split.
      * intros [ranges Hden]. destruct Hbad as (token & Hin & Hb).
        by destruct (tokens_denote_not_bad _ _ _ _ _ Hden Hin).
      * intros _. by eexists.
    + rewrite Hc. cbn [console with_console with_stdin w1 concat].
      subst w1. cbn [console with_console with_stdin]. by rewrite <- !app_assoc.
  - rewrite (proj2 Hfew Hshort).
    destruct (IH rest
                (with_console
                   (Printed ("Please select at least " +:+ Py.str_of_Z min_count +:+ " "
                             +:+ prompt +:+ "(s).")) w1))
      as (shown & w' & HF & Hrun & Hc & Hcalls & _).
    eexists (_ :: shown), w'. split_and!; [|exact Hrun| |done|done].
    + constructor; [|done]. eexists. split; [reflexivity|]. split; [done|].
      intros (token & Hin & Hb). destruct Hshort as (ranges & Hden & _).
      by destruct (tokens_denote_not_bad _ _ _ _ _ Hden Hin).
    + rewrite Hc. subst w1. cbn [console with_console with_stdin concat].
      by rewrite <- !app_assoc.
Qed.

(** C3, as the code has it.  One pass of the selection over the line typed
    reads the comma-separated tokens as single 1-based indices and inclusive
    ranges.  The pass is refused exactly when some token stands for no range
    or for one that leaves [1 .. len(candidates)] or runs backwards, or when
    the tokens are good and fewer than [min_count] distinct indices are
    covered; every line is either refused or accepted, never both.  A
    refusal does not fail: over a non-empty candidate list
    [select_resources] shows, for every line it refuses, the question and
    the reason, and goes on with the next line; it returns what the first
    line that is not refused selects, the identifiers of the covered
    candidates in ascending index order, each once, and makes no call; when
    the lines run out it ends with the [EOFError] of the last question.
    Over an empty list it returns the empty list and reads nothing. *)
Theorem select_resources_passes env items prompt multiple min_count w :
  let len := Z.of_nat (rtmp_new_input.item_count items) in
  let run := rtmp_new_input.select_resources env items prompt multiple min_count w in
  (rtmp_new_input.item_count items = O ->
   run = (Ok [], with_console
                   (Printed ("No " +:+ prompt +:+ "s available in this account/region.")) w))
  ∧ (forall refused selection rest ids,
       rtmp_new_input.item_count items ≠ O ->
       stdin w = refused ++ selection :: rest ->
       Forall (refused_selection env len min_count) refused ->
       accepted_selection env (rtmp_new_input.item_ids items) min_count selection ids ->
       fst run = Ok ids
       ∧ stdin (snd run) = rest
       ∧ calls (snd run) = calls w
       ∧ exists shown,
           Forall2 (refusal_shown env prompt len min_count) refused shown
           ∧ console (snd run)
             = console w ++ candidates_shown prompt items ++ concat shown
               ++ [Prompted (rtmp_new_input.select_prompt prompt)])
  ∧ (forall refused,
       rtmp_new_input.item_count items ≠ O ->
       stdin w = refused ->
       Forall (refused_selection env len min_count) refused ->
       fst run = Raise EOFError
       ∧ calls (snd run) = calls w
       ∧ exists shown,
           Forall2 (refusal_shown env prompt len min_count) refused shown
           ∧ console (snd run)
             = console w ++ candidates_shown prompt items ++ concat shown
               ++ [Prompted (rtmp_new_input.select_prompt prompt)])
  ∧ (forall selection,
       refused_selection env len min_count selection
       ∨ exists ids,
           accepted_selection env (rtmp_new_input.item_ids items) min_count selection ids)
  ∧ (forall selection ids,
       refused_selection env len min_count selection ->
       ¬ accepted_selection env (rtmp_new_input.item_ids items) min_count selection ids).
Proof.
  intros len run. split; [apply select_resources_empty|].
  assert (Haccepted : forall selection ids,
    accepted_selection env (rtmp_new_input.item_ids items) min_count selection ids
    ↔ rtmp_new_input.select_attempt env items min_count selection
      = rtmp_new_input.Selected ids).
  { intros selection ids.
    pose proof (select_attempt_spec env items min_count selection) as (_ & _ & Hok).
    unfold accepted_selection. rewrite length_item_ids. symmetry. apply Hok. }
  assert (Hrefuse : forall selection,
    refused_selection env len min_count selection
    ↔ (exists e, rtmp_new_input.select_attempt env items min_count selection
                 = rtmp_new_input.Invalid e)
      ∨ rtmp_new_input.select_attempt env items min_count selection
        = rtmp_new_input.TooFew).
  { intros selection.
    pose proof (select_attempt_spec env items min_count selection) as (Hinv & Hfew & _).
    unfold refused_selection. cbv zeta. fold len. by rewrite Hinv, Hfew. }
  split_and!.
  3: { intros selection.
       destruct (rtmp_new_input.select_attempt env items min_count selection)
         as [ids| |e] eqn:E.
       - right. exists ids. by apply Haccepted.
       - left. apply Hrefuse. by right.
       - left. apply Hrefuse. left. by exists e. }
  3: { intros selection ids [[e He]|He]%Hrefuse Hok%Haccepted; congruence. }
  2: { intros refused Hne Hin Hrefused.
       destruct (select_resources_begins env items prompt multiple min_count w Hne)
         as (w2 & Hrun & Hc2 & Hcalls2).
       destruct (select_loop_refusals env items prompt min_count refused Hrefused [] w2)
         as (shown & w' & HF & Hloop & Hc & Hcalls & _).
       rewrite app_nil_r in Hloop.
       subst run. rewrite Hrun, Hin, Hloop. cbn [rtmp_new_input.select_loop fst snd].
       cbn [calls console with_console]. split_and!; [done|congruence|].
       exists shown. split; [done|]. rewrite Hc, Hc2. by rewrite <- !app_assoc. }
  intros refused selection rest ids Hne Hin Hrefused Hsel.
  destruct (select_resources_begins env items prompt multiple min_count w Hne)
    as (w2 & Hrun & Hc2 & Hcalls2).
  destruct (select_loop_refusals env items prompt min_count refused Hrefused
              (selection :: rest) w2) as (shown & w' & HF & Hloop & Hc & Hcalls & _).
  pose proof (select_attempt_spec env items min_count selection) as (_ & _ & Hok).
  unfold accepted_selection in Hsel. rewrite length_item_ids in Hsel. fold len in Hsel.
  subst run. rewrite Hrun, Hin, Hloop, select_loop_pass. cbv zeta.
  rewrite (proj2 (Hok ids) Hsel). cbn [fst snd stdin calls console with_stdin with_console].
  split_and!; [done|done|congruence|].
  exists shown. split; [done|]. rewrite Hc, Hc2. by rewrite <- !app_assoc.
Qed.

Lemma select_resources_passes_witness :
  let env := account (Ok []) [] [] (fun n => n) in
  let run := rtmp_new_input.select_resources env five_candidates "subnet" true 3
               (fresh ["1,2"; "1-3"; "left"]) in
  fst run = Ok ["c1"; "c2"; "c3"]
  ∧ stdin (snd run) = ["left"]
  ∧ calls (snd run) = []
  ∧ exists shown,
      Forall2 (refusal_shown env "subnet" 5 3) ["1,2"] shown
      ∧ console (snd run)
        = [] ++ candidates_shown "subnet" five_candidates ++ concat shown
          ++ [Prompted (rtmp_new_input.select_prompt "subnet")].
Proof.
  cbv zeta.
  refine (proj1 (proj2 (select_resources_passes (account (Ok []) [] [] (fun n => n))
                          five_candidates "subnet" true 3
                          (fresh ["1,2"; "1-3"; "left"])))
            ["1,2"] "1-3" ["left"] ["c1"; "c2"; "c3"] _ _ _ _).
  - discriminate.
  - reflexivity.
  - constructor; [|constructor]. right. exists [(1, 1); (2, 2)]. split.
    + split; repeat constructor; cbn; lia.
    + vm_compute. reflexivity.
  - exists [(1, 3)]. split_and!.
    + split; repeat constructor; cbn; lia.
    + vm_compute. discriminate.
    + vm_compute. repeat constructor.
Defined.

(** The console of that run, line by line. *)
Example select_resources_dialogue :
  console (snd (rtmp_new_input.select_resources (account (Ok []) [] [] (fun n => n))
                  five_candidates "subnet" true 3 (fresh ["1,2"; "x"; "1-3"; "left"])))
  = [Printed (nl +:+ "Available subnets:");
     Printed "1. c1 - N/A - N/A"; Printed "2. c2 - N/A - N/A";
     Printed "3. c3 - N/A - N/A"; Printed "4. c4 - N/A - N/A";
     Printed "5. c5 - N/A - N/A";
     Prompted (nl +:+ "Select subnet(s) (e.g., '1,2' or '2-4,6'): ");
     Printed "Please select at least 3 subnet(s).";
     Prompted (nl +:+ "Select subnet(s) (e.g., '1,2' or '2-4,6'): ");
     Printed "Invalid selection: invalid literal for int() with base 10: 'x'. Please try again.";
     Prompted (nl +:+ "Select subnet(s) (e.g., '1,2' or '2-4,6'): ")].
Proof. vm_compute. reflexivity. Qed.

(** C3, as it is stated, fails.  Over an empty candidate list the operation
    returns the empty list although the index typed lies outside the
    candidates and fewer than [min_count] are selected; and a line that
    selects too few candidates does not make the operation fail: it asks
    again and returns what the next line selects. *)
Lemma selection_does_not_fail :
  let env := account (Ok []) [] [] (fun n => n) in
  (bad_token env 0 "1"
   ∧ fst (rtmp_new_input.select_resources env (rtmp_new_input.SubnetItems [])
            "subnet" true 2 (fresh ["1"]))
     = Ok [])
  ∧ (rtmp_new_input.select_attempt env five_candidates 3 "1,2" = rtmp_new_input.TooFew
     ∧ fst (rtmp_new_input.select_resources env five_candidates "subnet" true 3
              (fresh ["1,2"; "1-3"]))
       = Ok ["c1"; "c2"; "c3"]).
Proof.
  cbv zeta. split_and!.
  - unfold bad_token.
    assert (token_range (account (Ok []) [] [] (fun n => n)) "1" = Some (1, 1)) as ->
      by reflexivity.
    unfold in_bounds. cbn [fst snd]. lia.
  - reflexivity.
  - vm_compute. reflexivity.
  - vm_compute. reflexivity.
Qed.

(** * Further properties *)

(** ** Routes and tags *)

(** A route token is cut at its first colon: joining the two parts with a
    colon gives the token back, the part before holds no colon, and a token
    without a colon gets no gateway. *)
Theorem parse_route_round_trip r :
  match Gateway (parse_route r) with
  | Some g =>
      r = Cidr (parse_route r) +:+ ":" +:+ g
      ∧ Py.contains ":"%char (Cidr (parse_route r)) = false
  | None => Cidr (parse_route r) = r ∧ Py.contains ":"%char r = false
  end.
Proof.
  unfold parse_route. destruct (Py.contains ":"%char r) eqn:Hc; [|done].
  destruct (split1_with _ _ Hc) as (k & v & -> & -> & Hk). done.
Qed.

Lemma tag_pair_joined tag :
  Py.contains "="%char tag = true ->
  Py.split1 "="%char tag = [(tag_pair tag).1; (tag_pair tag).2]
  ∧ tag = (tag_pair tag).1 +:+ "=" +:+ (tag_pair tag).2
  ∧ Py.contains "="%char (tag_pair tag).1 = false.
Proof.
  intros H. unfold tag_pair. by destruct (split1_with _ _ H) as (k & v & -> & -> & Hk).
Qed.

Lemma lenient_tags_foldl d tags :
  Forall (fun tag => Py.contains "="%char tag = true) tags ->
  lenient_tags d tags
  = foldl (fun m tag => <[(tag_pair tag).1 := (tag_pair tag).2]> m) d tags.
Proof.
  intros Hall. revert d. induction Hall as [|t rest Ht _ IH]; intros d; [done|].
  cbn [lenient_tags foldl]. destruct (tag_pair_joined t Ht) as (-> & _). apply IH.
Qed.

Lemma foldl_insert_last (pairs : list string) :
  foldl (fun m tag => <[(tag_pair tag).1 := (tag_pair tag).2]> m)
        (∅ : gmap string string) pairs
  = list_to_map (reverse (tag_pair <$> pairs)).
Proof.
  induction pairs as [|t rest IH] using rev_ind; [done|].
  rewrite foldl_app, fmap_app, reverse_app. cbn. by rewrite IH.
Qed.

(** The tags of a request.  The comprehension succeeds exactly when every
    token holds an ['=']; each token then gives the key before its first
    ['='] and the value after it, and of two tokens with the same key the
    later one wins. *)
Theorem parse_tags_last_wins tags :
  (Forall (fun tag => Py.contains "="%char tag = true) tags ->
   parse_tags tags = Ok (list_to_map (reverse (tag_pair <$> tags)))
   ∧ Forall (fun tag => tag = (tag_pair tag).1 +:+ "=" +:+ (tag_pair tag).2
                        ∧ Py.contains "="%char (tag_pair tag).1 = false) tags)
  ∧ ((exists d, parse_tags tags = Ok d) ->
     Forall (fun tag => Py.contains "="%char tag = true) tags).
Proof.
  split.
  - intros Hall. split.
    + unfold parse_tags. rewrite parse_tags_from_wellformed by done.
      by rewrite lenient_tags_foldl, foldl_insert_last.
    + eapply Forall_impl; [exact Hall|]. intros tag Ht.
      by destruct (tag_pair_joined tag Ht) as (_ & ? & ?).
  - intros [d Hd]. apply Forall_forall. intros tag Hin.
    destruct (Py.contains "="%char tag) eqn:Ht; [done|].
    unfold parse_tags in Hd. by rewrite (parse_tags_from_raises _ _ tag Hin Ht) in Hd.
Qed.

Lemma parse_tags_last_wins_witness :
  parse_tags ["Team=video"; "Env=a=b"; "Team=audio"]
  = Ok (list_to_map [("Team", "audio"); ("Env", "a=b"); ("Team", "video")])
  ∧ Forall (fun tag => Py.contains "="%char tag = true) ["Team=video"; "Env=a=b"].
Proof.
  split.
  - refine (proj1 (proj1 (parse_tags_last_wins ["Team=video"; "Env=a=b"; "Team=audio"]) _)).
    repeat constructor.
  - refine (proj2 (parse_tags_last_wins ["Team=video"; "Env=a=b"]) _).
    eexists. vm_compute. reflexivity.
Defined.

(** ** The cost of the name check *)

Lemma validate_name_left_bounded env left name w :
  (exists k, (k ≤ S left)%nat
     ∧ calls (snd (rtmp_new_input.validate_name_left env left name w))
       = calls w ++ replicate k ListInputs)
  ∧ (rand_pos (snd (rtmp_new_input.validate_name_left env left name w))
     ≤ rand_pos w + 6 * left)%nat.
Proof.
  revert name w. induction left as [|left IH]; intros name w.
  all: destruct name as [[|c r]|];
    try (split; [exists O; split; [lia | by rewrite app_nil_r] | cbn; lia]).
  all: destruct (Py.re_match_name (String c r)) eqn:Hm;
    [ rewrite validate_name_left_matched by done
    | cbn [rtmp_new_input.validate_name_left]; rewrite Hm;
      split; [exists O; split; [lia | by rewrite app_nil_r] | cbn; lia] ].
  all: destruct (api_list_inputs env (calls w)) as [inputs|[]];
    try (split; [exists 1%nat; split; [lia | done] | cbn; lia]).
  all: destruct (name_taken inputs (String c r));
    try (split; [exists 1%nat; split; [lia | done] | cbn; lia]).
  cbv zeta.
  destruct (IH (Some (String c r +:+ "-" +:+ suffix_at env (rand_pos w) 6))
    (with_console
       (Printed ("Warning: Name '" +:+ String c r +:+ "' exists, trying '"
                 +:+ (String c r +:+ "-" +:+ suffix_at env (rand_pos w) 6) +:+ "'"))
       (with_rand (rand_pos w + 6)%nat (with_call ListInputs w))))
    as [(k & Hk & ->) Hr].
  split.
  - exists (S k). split; [lia|]. cbn [calls with_console with_rand with_call].
    by rewrite <- app_assoc.
  - cbn [rand_pos with_console with_rand] in Hr. lia.
Qed.

(** Whatever the cloud answers, one name check costs at most four
    [list_inputs] calls and nothing else from the cloud, draws at most
    eighteen random characters, asks the operator nothing, and never ends
    with a [ClientError]. *)
Theorem validate_name_bounded env name attempt w :
  (exists k, (k ≤ S (3 - attempt))%nat
     ∧ calls (snd (rtmp_new_input.validate_name env name attempt w))
       = calls w ++ replicate k ListInputs)
  ∧ (rand_pos (snd (rtmp_new_input.validate_name env name attempt w))
     ≤ rand_pos w + 6 * (3 - attempt))%nat
  ∧ stdin (snd (rtmp_new_input.validate_name env name attempt w)) = stdin w
  ∧ prompts (snd (rtmp_new_input.validate_name env name attempt w)) = prompts w
  ∧ forall msg,
      fst (rtmp_new_input.validate_name env name attempt w) ≠ Raise (ClientError msg).
Proof.
  unfold rtmp_new_input.validate_name.
  destruct (validate_name_left_bounded env (3 - attempt) name w) as [Hc Hr].
  destruct (validate_name_left_quiet env (3 - attempt) name w) as [Hs Hp].
  split_and!; try done. intros msg. apply validate_name_left_no_ClientError.
Qed.

(** The bound is reached: three taken names in a row cost four listings. *)
Example validate_name_four_listings :
  calls (snd (rtmp_new_input.validate_name
                (account (Ok [named "a"; named "a-AAAAAA"; named "a-AAAAAA-AAAAAA";
                              named "a-AAAAAA-AAAAAA-AAAAAA"]) [] [] (fun _ => O))
                (Some "a") 0 (fresh [])))
  = [ListInputs; ListInputs; ListInputs; ListInputs].
Proof. vm_compute. reflexivity. Qed.

(** ** What a selection can return *)

Lemma ids_at_fmap ids indices result :
  ids_at ids indices result ->
  result = (fun i => default "" (ids !! Z.to_nat (i - 1))) <$> indices.
Proof.
  induction 1 as [|i id indices result Hi _ IH]; [done|].
  cbn. by rewrite Hi, IH.
Qed.

Lemma ids_fmap_seqZ (ids : list string) :
  ids = (fun i => default "" (ids !! Z.to_nat (i - 1))) <$> seqZ 1 (Z.of_nat (length ids)).
Proof.
  apply list_eq. intros k. rewrite list_lookup_fmap.
  destruct (ids !! k) as [id|] eqn:E.
  - rewrite lookup_seqZ_lt by (apply lookup_lt_Some in E; lia). cbn.
    replace (Z.to_nat (1 + Z.of_nat k - 1)) with k by lia. by rewrite E.
  - rewrite lookup_seqZ_ge; [done|]. apply lookup_ge_None in E. lia.
Qed.

(** What one pass selects is a subsequence of the candidates. *)
Lemma selected_sublist env items min_count selection ids :
  rtmp_new_input.select_attempt env items min_count selection
  = rtmp_new_input.Selected ids ->
  ids `sublist_of` rtmp_new_input.item_ids items
  ∧ min_count ≤ Z.of_nat (length ids).
Proof.
  intros E. pose proof (select_attempt_cases env items min_count selection) as H.
  cbv zeta in H. rewrite E in H. destruct H as (ranges & _ & Hlen & Hat).
  split.
  - pose proof (ids_fmap_seqZ (rtmp_new_input.item_ids items)) as Hall.
    rewrite (ids_at_fmap _ _ _ Hat).
    set (f := fun i => default "" (rtmp_new_input.item_ids items !! Z.to_nat (i - 1))) in *.
    rewrite Hall, length_item_ids. apply fmap_sublist, sublist_filter.
  - apply Forall2_length in Hat. by rewrite <- Hat.
Qed.

Lemma select_resources_sublist env items prompt multiple min_count w ids :
  fst (rtmp_new_input.select_resources env items prompt multiple min_count w) = Ok ids ->
  ids `sublist_of` rtmp_new_input.item_ids items
  ∧ (rtmp_new_input.item_count items ≠ O -> min_count ≤ Z.of_nat (length ids)).
Proof.
  intros Hrun. destruct (rtmp_new_input.item_count items) as [|n] eqn:Hn.
  - rewrite select_resources_empty in Hrun by done. injection Hrun as <-.
    split; [apply sublist_nil_l | done].
  - destruct (select_resources_nonempty env items prompt multiple min_count w)
      as (w2 & Hsel & _); [by rewrite Hn|].
    rewrite Hsel in Hrun. apply select_loop_selected in Hrun as [selection Hpass].
    apply selected_sublist in Hpass as [? ?]. done.
Qed.

(** Whatever the operator types, the identifiers that [select_resources]
    returns are a subsequence of the candidates' identifiers, in the order
    of the candidates; over a non-empty candidate list there are at least
    [min_count] of them. *)
Theorem select_resources_returns_candidates env items prompt multiple min_count w ids :
  fst (rtmp_new_input.select_resources env items prompt multiple min_count w) = Ok ids ->
  ids `sublist_of` rtmp_new_input.item_ids items
  ∧ (rtmp_new_input.item_count items ≠ O -> min_count ≤ Z.of_nat (length ids)).
Proof. apply select_resources_sublist. Qed.

Lemma select_resources_returns_candidates_witness :
  ["c2"; "c4"; "c5"]
    `sublist_of` rtmp_new_input.item_ids five_candidates
  ∧ (rtmp_new_input.item_count five_candidates ≠ O -> 2 ≤ Z.of_nat 3).
Proof.
  refine (select_resources_returns_candidates (account (Ok []) [] [] (fun n => n))
            five_candidates "subnet" true 2 (fresh ["9"; "5,4-5,2"]) ["c2"; "c4"; "c5"] _).
  vm_compute. reflexivity.
Defined.

(** The subnets of a VPC input in the full builder: whatever is given and
    typed, they are two subnets of the inventory; with an empty inventory
    the builder goes on with none. *)
Lemma vpc_subnets_valid env args subs w ids :
  fst (rtmp_new_input.vpc_subnets env args subs w) = Ok ids ->
  Forall (fun id => id ∈ map SubnetId subs) ids
  ∧ length ids = (if decide (subs = []) then 0 else 2)%nat.
Proof.
  assert (Hselect : forall w1,
    fst ((let* selected :=
            rtmp_new_input.select_resources env (rtmp_new_input.SubnetItems subs)
              "subnet" true 2 in
          ret (take 2 selected)) w1) = Ok ids ->
    Forall (fun id => id ∈ map SubnetId subs) ids
    ∧ length ids = (if decide (subs = []) then 0 else 2)%nat).
  { intros w1. unfold bind, ret.
    destruct (rtmp_new_input.select_resources env _ _ _ _ w1) as [[selected|e] w2] eqn:E;
      [|done].
    intros [= <-].
    destruct (select_resources_sublist env
                (rtmp_new_input.SubnetItems subs) "subnet" true 2 w1 selected)
      as [Hsub Hmin]; [by rewrite E|].
    cbn [rtmp_new_input.item_ids rtmp_new_input.item_count] in Hsub, Hmin. split.
    - apply Forall_forall. intros id Hid.
      eapply elem_of_sublist; [|exact Hsub].
      eapply elem_of_sublist; [exact Hid | apply sublist_take].
    - rewrite length_take. case_decide as Hs.
      + subst subs. apply sublist_nil_r in Hsub. by subst.
      + assert (length subs ≠ O) by by destruct subs. specialize (Hmin ltac:(done)). lia. }
  unfold rtmp_new_input.vpc_subnets.
  destruct (subnets args) as [[|s1 [|s2 more]]|];
    try (unfold bind at 1, print; apply Hselect).
  destruct (Nat.leb 2 (length (filter (fun s => s ∈ map SubnetId subs) (s1 :: s2 :: more))))
    eqn:Hlen; [|unfold bind at 1, print; apply Hselect].
  intros [= <-]. apply Nat.leb_le in Hlen. split.
  - apply Forall_forall. intros id Hid.
    assert (id ∈ filter (fun s => s ∈ map SubnetId subs) (s1 :: s2 :: more)) as Hf
      by (eapply elem_of_sublist; [exact Hid | apply sublist_take]).
    by apply list_elem_of_filter in Hf as [? _].
  - rewrite length_take. case_decide as Hs; [|lia].
    subst subs.
    assert (Hnil : forall l : list string,
              filter (fun s => s ∈ map SubnetId []) l = []).
    { induction l as [|x l IH]; [done|].
      rewrite filter_cons_False; [done | apply not_elem_of_nil]. }
    rewrite Hnil in Hlen. cbn in Hlen. lia.
Qed.

Lemma bind_Ok_inv {A B} (m : M A) (k : A -> M B) w b :
  fst (bind m k w) = Ok b ->
  exists a w1, m w = (Ok a, w1) ∧ fst (k a w1) = Ok b.
Proof.
  unfold bind. destruct (m w) as [[a|e] w1]; [|done]. intros H. by exists a, w1.
Qed.

(** The security group of a VPC input in the full builder, when there is
    one, is a group of the inventory. *)
Lemma vpc_security_group_valid env args groups info w ids info' :
  fst (rtmp_new_input.vpc_security_group env args groups info w) = Ok (ids, info') ->
  ids = None ∨ exists g, g ∈ map GroupId groups ∧ ids = Some [g].
Proof.
  unfold rtmp_new_input.vpc_security_group.
  destruct (security_group args) as [[|c r]|]; try (intros [= <- _]; by left).
  destruct (Py.startswith "sg-" (String c r)); [|intros [= <- _]; by left].
  destruct (existsb _ groups) eqn:Hex.
  - intros [= <- _]. right. exists (String c r). split; [|done].
    apply existsb_exists in Hex as (g & Hg & Heq). apply bool_decide_eq_true in Heq.
    apply list_elem_of_fmap. exists g. split; [done | by apply list_elem_of_In].
  - intros H. right.
    apply bind_Ok_inv in H as ([] & w1 & _ & H).
    apply bind_Ok_inv in H as (selected & w2 & Hsel & H).
    apply bind_Ok_inv in H as (sg_id & w3 & Hidx & H).
    injection H as <- _. exists sg_id. split; [|done].
    destruct (select_resources_sublist env (rtmp_new_input.GroupItems groups)
                "security group" false 1 w1 selected) as [Hsub _]; [by rewrite Hsel|].
    cbn [rtmp_new_input.item_ids] in Hsub.
    eapply elem_of_sublist; [|exact Hsub].
    unfold of_option in Hidx. destruct (Py.index selected 0) as [x|] eqn:Hx; [|done].
    injection Hidx as -> _. unfold Py.index in Hx.
    destruct selected as [|s0 rest]; [done|]. cbn in Hx. injection Hx as ->. by left.
Qed.

(** The VPC configuration that the full builder sends holds resources of
    the account only, whatever is given and typed: the subnets are two
    subnets of the inventory (none when the inventory is empty), and the
    security group, when there is one, is a group of the inventory.  The
    role is sent as given or typed. *)
Theorem vpc_config_from_inventory env args subs groups req info w req' info' :
  fst (rtmp_new_input.vpc_branch env args subs groups req info w) = Ok (req', info') ->
  exists ids sgs role,
    Vpc req' = Some {| SubnetIds := Some ids; SecurityGroupIds := sgs |}
    ∧ Forall (fun id => id ∈ map SubnetId subs) ids
    ∧ length ids = (if decide (subs = []) then 0 else 2)%nat
    ∧ (sgs = None ∨ exists g, g ∈ map GroupId groups ∧ sgs = Some [g])
    ∧ RoleArn req' = Some (Some role)
    ∧ (Py.truthy (role_arn args) = true -> role_arn args = Some role)
    ∧ rtmp_new_input.info_subnets info' = ids.
Proof.
  unfold rtmp_new_input.vpc_branch. intros H.
  apply bind_Ok_inv in H as (ids & w1 & Hids & H).
  apply bind_Ok_inv in H as ([sgs info1] & w2 & Hsgs & H).
  apply bind_Ok_inv in H as (role & w3 & Hrole & H).
  injection H as <- <-. exists ids, sgs, role.
  destruct (vpc_subnets_valid env args subs w ids) as [Hin Hlen]; [by rewrite Hids|].
  split_and!; try done.
  - eapply vpc_security_group_valid. by rewrite Hsgs.
  - intros Ht. rewrite Ht in Hrole. injection Hrole as <- _.
    by destruct (role_arn args).
  - assert (rtmp_new_input.info_subnets info1 = ids) as <-; [|done].
    revert Hsgs. unfold rtmp_new_input.vpc_security_group.
    destruct (security_group args) as [[|c r]|]; try (by intros [= _ <- _]).
    destruct (Py.startswith "sg-" (String c r)); [|by intros [= _ <- _]].
    destruct (existsb _ groups); [by intros [= _ <- _]|].
    intros H. assert (fst ((print ("Security group " +:+ String c r +:+ " not found.") >>
        let* selected := rtmp_new_input.select_resources env
                           (rtmp_new_input.GroupItems groups) "security group" false 1 in
        let* sg_id := of_option (IndexError "list index out of range")
                                (Py.index selected 0) in
        ret (Some [sg_id],
             rtmp_new_input.report_sg (rtmp_new_input.vpc_report sg_id groups)
               (rtmp_new_input.report_subnets ids info))) w1) = Ok (sgs, info1)) as H'
      by by rewrite H.
    apply bind_Ok_inv in H' as ([] & w4 & _ & H').
    apply bind_Ok_inv in H' as (selected & w5 & _ & H').
    apply bind_Ok_inv in H' as (sg_id & w6 & _ & H').
    by injection H' as _ <-.
Qed.

Lemma vpc_config_from_inventory_witness :
  let subs := [subnet_in "subnet-a" "us-east-2a"; subnet_in "subnet-b" "us-east-2b";
               subnet_in "subnet-c" "us-east-2c"] in
  let groups := [group_named "sg-default" "default"; group_named "sg-video" "video"] in
  let req := {| Name := "n"; Type_ := "RTMP_PUSH"; InputNetworkLocation := "AWS";
                Destinations := None; InputSecurityGroups := None; Vpc := None;
                RoleArn := None; Tags := None |} in
  let info := {| rtmp_new_input.info_subnets := [];
                 rtmp_new_input.info_security_groups := [];
                 rtmp_new_input.info_availability_zones := ∅;
                 rtmp_new_input.info_networks := [] |} in
  let args := run_args "AWS_VPC" None
                (Some ["subnet-x"; "subnet-b"; "subnet-a"; "subnet-c"])
                (Some "arn:aws:iam::1:role/medialive") None in
  let vpc := {| SubnetIds := Some ["subnet-b"; "subnet-a"]; SecurityGroupIds := None |} in
  let req' := set_Vpc vpc (Some "arn:aws:iam::1:role/medialive") req in
  let info' := rtmp_new_input.report_subnets ["subnet-b"; "subnet-a"] info in
  exists ids sgs role,
    Vpc req' = Some {| SubnetIds := Some ids; SecurityGroupIds := sgs |}
    ∧ Forall (fun id => id ∈ map SubnetId subs) ids
    ∧ length ids = (if decide (subs = []) then 0 else 2)%nat
    ∧ (sgs = None ∨ exists g, g ∈ map GroupId groups ∧ sgs = Some [g])
    ∧ RoleArn req' = Some (Some role)
    ∧ (Py.truthy (role_arn args) = true -> role_arn args = Some role)
    ∧ rtmp_new_input.info_subnets info' = ids.
Proof.
  intros subs groups req info args vpc req' info'.
  refine (vpc_config_from_inventory vpc_account args subs groups req info (fresh [])
            req' info' _).
  vm_compute. reflexivity.
Defined.

(** ** The quick builder runs unattended *)

Section unattended_rules.
Context {A B : Type}.

Lemma unattended_ret n (a : A) : unattended n (ret a).
Proof. intros w. split_and!; [done..|]. exists []. by rewrite app_nil_r; cbn; split; [|lia]. Qed.

Lemma unattended_raise n e : unattended n (@raise A e).
Proof. intros w. split_and!; [done..|]. exists []. by rewrite app_nil_r; cbn; split; [|lia]. Qed.

Lemma unattended_call n c (answer : list ApiCall -> Result A) :
  unattended (S n) (call c answer).
Proof. intros w. split_and!; [done..|]. exists [c]. cbn. split; [done|lia]. Qed.

Lemma unattended_bind n1 n2 (m : M A) (k : A -> M B) :
  unattended n1 m -> (forall a, unattended n2 (k a)) -> unattended (n1 + n2) (bind m k).
Proof.
  intros Hm Hk w. destruct (Hm w) as (Hs & Hc & l & Hl & Hn). unfold bind.
  destruct (m w) as [[a|e] w1]; cbn [snd] in *.
  - destruct (Hk a w1) as (Hs' & Hc' & l' & Hl' & Hn').
    split_and!; [congruence..|]. exists (l ++ l'). rewrite Hl', Hl, app_assoc.
    split; [done|]. rewrite length_app. lia.
  - split_and!; [done..|]. exists l. split; [done|lia].
Qed.

Lemma unattended_try_except n1 n2 (m : M A) handler :
  unattended n1 m -> (forall e h, handler e = Some h -> unattended n2 h) ->
  unattended (n1 + n2) (try_except m handler).
Proof.
  intros Hm Hh w. destruct (Hm w) as (Hs & Hc & l & Hl & Hn). unfold try_except.
  destruct (m w) as [[a|e] w1]; cbn [snd] in *.
  - split_and!; [done..|]. exists l. split; [done|lia].
  - destruct (handler e) as [h|] eqn:E; cbn [snd].
    + destruct (Hh e h E w1) as (Hs' & Hc' & l' & Hl' & Hn').
      split_and!; [congruence..|]. exists (l ++ l'). rewrite Hl', Hl, app_assoc.
      split; [done|]. rewrite length_app. lia.
    + split_and!; [done..|]. exists l. split; [done|lia].
Qed.

Lemma unattended_mono n n' (m : M A) : (n ≤ n')%nat -> unattended n m -> unattended n' m.
Proof.
  intros Hle Hm w. destruct (Hm w) as (Hs & Hc & l & Hl & Hn).
  split_and!; [done..|]. exists l. split; [done|lia].
Qed.

End unattended_rules.

Lemma unattended_exits {A} (f : string -> string) e h :
  on_ClientError (fun msg => @raise A (SystemExit (f msg))) e = Some h ->
  unattended 0 h.
Proof. destruct e; intros [= <-]. apply unattended_raise. Qed.

Lemma unattended_generate_name env nm : unattended 0 (rtmp_quick.generate_name env nm).
Proof.
  intros w. destruct (generate_name_quiet env nm w) as (n & w1 & -> & Hc & Hs & Ho).
  split_and!; [done..|]. exists []. rewrite app_nil_r. by split.
Qed.

Lemma unattended_create_input_from env cfg n :
  unattended (S n) (create_input_from env cfg).
Proof.
  unfold create_input_from. destruct cfg; first [apply unattended_raise | apply unattended_call].
Qed.

Lemma unattended_add_tags args req : unattended 0 (add_tags args req).
Proof.
  unfold add_tags. destruct (tags_of args) as [[d|]|e];
    [apply unattended_ret.. | apply unattended_raise].
Qed.

Lemma unattended_quick_branches env args req :
  unattended 1
    (if bool_decide (source_type args = Some "AWS")
     then rtmp_quick.aws_branch env args req
     else if bool_decide (source_type args = Some "AWS_VPC")
     then rtmp_quick.vpc_branch args req
     else if bool_decide (source_type args = Some "ON_PREMISES")
     then rtmp_quick.on_premises_branch env args req
     else ret req).
Proof.
  repeat case_bool_decide.
  - unfold rtmp_quick.aws_branch. destruct (_ && _); [apply unattended_ret|].
    apply (unattended_bind 1 0); [|intros; apply unattended_ret].
    apply (unattended_try_except 1 0); [apply unattended_call|].
    apply unattended_exits.
  - unfold rtmp_quick.vpc_branch.
    destruct (subnets args) as [[|s1 [|s2 more]]|];
      first [apply unattended_ret | apply unattended_raise].
  - unfold rtmp_quick.on_premises_branch.
    apply (unattended_bind 1 0); [|intros; apply unattended_ret].
    destruct (Py.truthy (network args)); [apply unattended_ret|].
    apply (unattended_bind 0 1).
    { intros w. split_and!; [done..|]. exists []. by rewrite app_nil_r. }
    intros u. apply (unattended_try_except 1 0); [|apply unattended_exits].
    apply (unattended_bind 1 0); [apply unattended_call|].
    intros resp. destruct (response_Id resp); [apply unattended_ret | apply unattended_raise].
  - apply unattended_ret.
Qed.

Lemma exits_on_ClientError {A} (m : M A) (f : string -> string) w msg :
  fst (try_except m (on_ClientError (fun e => raise (SystemExit (f e)))) w)
  ≠ Raise (ClientError msg).
Proof.
  unfold try_except. destruct (m w) as [[a|[]] w1]; cbn; congruence.
Qed.

Lemma quick_run_is_unattended env args :
  unattended 2 (rtmp_quick.create_rtmp_input env args).
Proof.
  unfold rtmp_quick.create_rtmp_input.
  apply (unattended_try_except 2 0); [|apply unattended_exits].
  destruct (Py.truthy (config args)).
  - apply (unattended_bind 0 2); [|intros; apply unattended_create_input_from].
    unfold rtmp_quick.load_config.
    destruct (read_json env _); [apply unattended_ret | apply unattended_raise].
  - apply (unattended_bind 0 2); [apply unattended_generate_name|]. intros n.
    apply (unattended_bind 0 2); [apply unattended_add_tags|]. intros req.
    apply (unattended_bind 1 1); [apply unattended_quick_branches|].
    intros; apply unattended_call.
Qed.

Lemma quick_run_no_ClientError env args w msg :
  fst (rtmp_quick.create_rtmp_input env args w) ≠ Raise (ClientError msg).
Proof. apply exits_on_ClientError. Qed.

(** The quick builder never waits for the operator: whatever the arguments
    and the answers of the cloud, a run reads nothing, shows nothing, makes
    at most two calls, and never ends with a [ClientError] (the script turns
    it into an exit). *)
Theorem quick_run_unattended env args w :
  stdin (snd (rtmp_quick.create_rtmp_input env args w)) = stdin w
  ∧ console (snd (rtmp_quick.create_rtmp_input env args w)) = console w
  ∧ (exists l, calls (snd (rtmp_quick.create_rtmp_input env args w)) = calls w ++ l
               ∧ (length l ≤ 2)%nat)
  ∧ forall msg, fst (rtmp_quick.create_rtmp_input env args w) ≠ Raise (ClientError msg).
Proof.
  destruct (quick_run_is_unattended env args w) as (? & ? & ?). split_and!; [done..|].
  intros msg. apply exits_on_ClientError.
Qed.

(** Both calls are made when a group has to be created first. *)
Example quick_run_two_calls :
  length (calls (snd (rtmp_quick.create_rtmp_input (account (Ok []) [] [] (fun n => n))
                        (run_args "AWS" None None None None) (fresh ["typed"]))))
  = 2%nat
  ∧ stdin (snd (rtmp_quick.create_rtmp_input (account (Ok []) [] [] (fun n => n))
                  (run_args "AWS" None None None None) (fresh ["typed"])))
    = ["typed"].
Proof. vm_compute. done. Qed.

(** ** The quick builder, branch by branch *)

(** Without a configuration file and with tags that parse, the quick
    builder comes to its source-type branch without a call. *)
Lemma quick_run_to_branch env args w tg :
  Py.truthy (config args) = false ->
  tags_of args = Ok tg ->
  exists n w1,
    calls w1 = calls w
    ∧ uuid_pos w1 = (if Py.truthy (name args) then uuid_pos w else S (uuid_pos w))
    ∧ rtmp_quick.create_rtmp_input env args w
      = try_except
          (let* input_request :=
             if bool_decide (source_type args = Some "AWS")
             then rtmp_quick.aws_branch env args (quick_request n args tg)
             else if bool_decide (source_type args = Some "AWS_VPC")
             then rtmp_quick.vpc_branch args (quick_request n args tg)
             else if bool_decide (source_type args = Some "ON_PREMISES")
             then rtmp_quick.on_premises_branch env args (quick_request n args tg)
             else ret (quick_request n args tg) in
           call (CreateInput input_request)
                (fun h => api_create_input env h input_request))
          (on_ClientError (fun e => raise (SystemExit ("Error: " +:+ e)))) w1.
Proof.
  intros Hcfg Htags.
  assert (exists n w1, rtmp_quick.generate_name env (name args) w = (Ok n, w1)
            ∧ calls w1 = calls w
            ∧ uuid_pos w1 = (if Py.truthy (name args) then uuid_pos w else S (uuid_pos w)))
    as (n & w1 & Hgen & Hcalls & Hu).
  { unfold rtmp_quick.generate_name. destruct (name args) as [[|c r]|].
    2: rewrite (bind_ok _ _ _ _ _ (random_join_draws _ _ _)).
    all: eexists _, _; split; [reflexivity|done]. }
  exists n, w1. split; [done|]. split; [done|].
  unfold rtmp_quick.create_rtmp_input, try_except. rewrite Hcfg.
  rewrite (bind_ok _ _ _ _ _ Hgen).
  assert (Htg : add_tags args
            {| Name := n; Type_ := "RTMP_PUSH"; InputNetworkLocation := location args;
               Destinations := Some (destinations args); InputSecurityGroups := None;
               Vpc := None; RoleArn := None; Tags := None |} w1
            = (Ok (quick_request n args tg), w1)).
  { unfold add_tags. rewrite Htags. by destruct tg. }
  by rewrite (bind_ok _ _ _ _ _ Htg).
Qed.

(** The last step of a run: the request goes to [create_input]. *)
Lemma quick_run_sends env req w1 :
  calls (snd (try_except
                (call (CreateInput req) (fun h => api_create_input env h req))
                (on_ClientError (fun e => raise (SystemExit ("Error: " +:+ e)))) w1))
  = calls w1 ++ [CreateInput req].
Proof.
  unfold try_except, call. by destruct (api_create_input env _ _) as [resp|[]].
Qed.

(** The quick builder with source type AWS_VPC takes the first two subnets
    as they are given, without asking the account for its subnets; the
    security group, when given, and the role go into the request as they
    are, the role also when it is missing.  With fewer than two subnets the
    run exits before any call. *)
Theorem quick_vpc_takes_first_two env args w tg :
  Py.truthy (config args) = false ->
  source_type args = Some "AWS_VPC" ->
  tags_of args = Ok tg ->
  match subnets args with
  | Some (s1 :: s2 :: _) =>
      exists req,
        calls (snd (rtmp_quick.create_rtmp_input env args w)) = calls w ++ [CreateInput req]
        ∧ Vpc req
          = Some {| SubnetIds := Some [s1; s2];
                    SecurityGroupIds :=
                      if Py.truthy (security_group args)
                      then Some [default "" (security_group args)] else None |}
        ∧ RoleArn req = Some (role_arn args)
        ∧ InputSecurityGroups req = None
        ∧ InputNetworkLocation req = "AWS"
        ∧ Tags req = tg
  | _ =>
      fst (rtmp_quick.create_rtmp_input env args w)
      = Raise (SystemExit "Error: AWS_VPC requires at least 2 subnets")
      ∧ calls (snd (rtmp_quick.create_rtmp_input env args w)) = calls w
  end.
Proof.
  intros Hcfg Hsrc Htags.
  assert (Hloc : location args = "AWS") by (unfold location; by rewrite Hsrc).
  destruct (quick_run_to_branch env args w tg Hcfg Htags) as (n & w1 & Hcalls & _ & ->).
  rewrite Hsrc. rewrite bool_decide_eq_false_2 by done.
  rewrite bool_decide_eq_true_2 by done.
  unfold rtmp_quick.vpc_branch.
  destruct (subnets args) as [[|s1 [|s2 more]]|]; try (by rewrite <- Hcalls).
  eexists. split.
  - unfold bind at 1, ret. rewrite quick_run_sends. by rewrite Hcalls.
  - by rewrite <- Hloc.
Qed.

Lemma quick_vpc_takes_first_two_witness :
  exists req,
    calls (snd (rtmp_quick.create_rtmp_input (account (Ok []) [] [] (fun n => n))
                  (run_args "AWS_VPC" None (Some ["subnet-x"; "subnet-y"; "subnet-z"])
                            None None) (fresh [])))
    = [CreateInput req]
    ∧ Vpc req = Some {| SubnetIds := Some ["subnet-x"; "subnet-y"];
                        SecurityGroupIds := None |}
    ∧ RoleArn req = Some None
    ∧ InputSecurityGroups req = None
    ∧ InputNetworkLocation req = "AWS"
    ∧ Tags req = None.
Proof.
  refine (quick_vpc_takes_first_two (account (Ok []) [] [] (fun n => n))
            (run_args "AWS_VPC" None (Some ["subnet-x"; "subnet-y"; "subnet-z"])
                      None None) (fresh []) None _ _ _); reflexivity.
Defined.

(** One subnet is not enough. *)
Example quick_vpc_one_subnet :
  fst (rtmp_quick.create_rtmp_input vpc_account
         (run_args "AWS_VPC" None (Some ["subnet-a"]) None None) (fresh []))
  = Raise (SystemExit "Error: AWS_VPC requires at least 2 subnets").
Proof. reflexivity. Qed.

(** The quick builder with source type ON_PREMISES.  A network given in the
    arguments is used as it is, with [create_input] as the only call.
    Otherwise the builder first asks for a new network named
    [network-<uuid>] with the single pool [10.0.0.0/24] and no route; when
    that call answers with an identifier, this identifier is attached.  In
    both cases every destination of the request carries the network. *)
Theorem quick_on_premises_network env args w tg :
  Py.truthy (config args) = false ->
  source_type args = Some "ON_PREMISES" ->
  tags_of args = Ok tg ->
  let w' := snd (rtmp_quick.create_rtmp_input env args w) in
  let k := if Py.truthy (name args) then uuid_pos w else S (uuid_pos w) in
  (forall network_id,
     network args = Some network_id -> network_id ≠ "" ->
     exists req,
       calls w' = calls w ++ [CreateInput req]
       ∧ Destinations req = Some (map (bind_network args network_id) (destinations args))
       ∧ InputNetworkLocation req = "ON_PREMISES")
  ∧ (forall resp network_id,
       Py.truthy (network args) = false ->
       api_create_network env (calls w) (default_network env k) = Ok resp ->
       response_Id resp = Some network_id ->
       exists req,
         calls w' = calls w ++ [CreateNetwork (default_network env k); CreateInput req]
         ∧ Destinations req = Some (map (bind_network args network_id) (destinations args))
         ∧ InputNetworkLocation req = "ON_PREMISES")
  ∧ forall network_id d, d ∈ map (bind_network args network_id) (destinations args) ->
                         Network d = Some network_id.
Proof.
  intros Hcfg Hsrc Htags w' k.
  assert (Hloc : location args = "ON_PREMISES") by (unfold location; by rewrite Hsrc).
  destruct (quick_run_to_branch env args w tg Hcfg Htags) as (n & w1 & Hcalls & Hu & Hrun).
  subst w'. rewrite Hrun. clear Hrun.
  rewrite Hsrc. rewrite !bool_decide_eq_false_2 by done.
  rewrite bool_decide_eq_true_2 by done.
  unfold rtmp_quick.on_premises_branch. split_and!.
  - intros network_id Hn Hne. rewrite Hn.
    destruct network_id as [|c r]; [done|]. cbn [Py.truthy default].
    eexists. split; [|split].
    + unfold bind at 1 2, ret. rewrite quick_run_sends. by rewrite Hcalls.
    + reflexivity.
    + by rewrite <- Hloc.
  - intros resp network_id Hn Hcreate Hid. rewrite Hn.
    assert (Hnet :
      (let* u := uuid4 env in
       rtmp_quick.create_network env ("network-" +:+ u)
         [{| entry_Cidr := "10.0.0.0/24" |}] None) w1
      = (Ok network_id,
         with_call (CreateNetwork (default_network env k)) (with_uuid (S (uuid_pos w1)) w1))).
    { unfold bind at 1, uuid4. unfold rtmp_quick.create_network, try_except, bind, call.
      cbn [calls with_uuid]. rewrite Hcalls, Hu.
      change {| nr_Name := "network-" +:+ uuid4_text env _; nr_IpPools := _; nr_Routes := _ |}
        with (default_network env k).
      rewrite Hcreate, Hid. done. }
    eexists. split; [|split].
    + unfold try_except.
      erewrite bind_ok; [|erewrite bind_ok; [reflexivity | exact Hnet]].
      unfold call. destruct (api_create_input env _ _) as [r|[]];
        cbn [snd calls with_call with_uuid raise on_ClientError];
        by rewrite Hcalls, <- app_assoc.
    + reflexivity.
    + by rewrite <- Hloc.
  - intros network_id d Hd. apply list_elem_of_fmap in Hd as (d0 & -> & _). done.
Qed.

Lemma quick_on_premises_network_witness :
  let env := account (Ok []) [] [] (fun n => n) in
  let args := run_args "ON_PREMISES" None None None None in
  exists req,
    calls (snd (rtmp_quick.create_rtmp_input env args (fresh [])))
    = [CreateNetwork (default_network env 1); CreateInput req]
    ∧ Destinations req = Some (map (bind_network args "network-1") (destinations args))
    ∧ InputNetworkLocation req = "ON_PREMISES".
Proof.
  cbv zeta.
  refine (proj1 (proj2 (quick_on_premises_network (account (Ok []) [] [] (fun n => n))
            (run_args "ON_PREMISES" None None None None) (fresh []) None _ _ _))
            {| response_Id := Some "network-1"; response_text := "{'Id': 'network-1'}" |}
            "network-1" _ _ _); reflexivity.
Defined.

(** With a configuration file the quick builder looks at no other argument
    (the region apart, which picks the client that the environment stands
    for): the run is decided by what the file holds.  A file that cannot be
    read ends the run by an exit.  A JSON object is forwarded to
    [create_input] as keyword arguments, in one call, whose answer is the
    result of the run, a [ClientError] becoming an exit.  Any other JSON
    value raises a [TypeError] before any call.  No name is drawn, nothing is
    read and nothing is shown. *)
Theorem quick_config_overrides_arguments env args w path :
  config args = Some path ->
  path ≠ "" ->
  rtmp_quick.create_rtmp_input env args w
  = match read_json env path with
    | inr msg => (Raise (SystemExit ("Error loading config: " +:+ msg)), w)
    | inl (JsonObject kwargs) =>
        (match api_create_input_from_config env (calls w) kwargs with
         | Raise (ClientError msg) => Raise (SystemExit ("Error: " +:+ msg))
         | answer => answer
         end,
         with_call (CreateInputFromConfig kwargs) w)
    | inl value =>
        (Raise (TypeError (create_input_repr env
                           +:+ " argument after ** must be a mapping, not "
                           +:+ type_name value)), w)
    end.
Proof.
  intros Hcfg Hne. unfold rtmp_quick.create_rtmp_input. rewrite Hcfg.
  change (default "" (Some path)) with path.
  destruct path as [|c r]; [done|]. cbn [Py.truthy].
  unfold rtmp_quick.load_config, try_except, bind.
  destruct (read_json env (String c r)) as [value|msg]; [|done].
  destruct value; try done.
  unfold ret, create_input_from, call.
  by destruct (api_create_input_from_config env (calls w) members) as [resp|[]].
Qed.

Lemma quick_config_overrides_arguments_witness :
  let kwargs := [("Name", JsonString "studio"); ("Type", JsonString "RTMP_PUSH")] in
  let env := with_config_file "input.json" (JsonObject kwargs)
               (account (Ok []) [] [] (fun n => n)) in
  rtmp_quick.create_rtmp_input env
    (config_args "input.json" (Some "other") (Some "ON_PREMISES")) (fresh ["typed"])
  = (Ok {| record_text := "{'Input': {}}" |},
     with_call (CreateInputFromConfig kwargs) (fresh ["typed"])).
Proof.
  intros kwargs env.
  refine (eq_trans
            (quick_config_overrides_arguments env
               (config_args "input.json" (Some "other") (Some "ON_PREMISES"))
               (fresh ["typed"]) "input.json" _ _) _).
  - reflexivity.
  - discriminate.
  - reflexivity.
Defined.

(** A configuration file that holds a JSON array: the quick builder makes
    no call, and the script ends with status 1 and the [TypeError] as a JSON
    object on the standard output. *)
Example quick_config_array :
  let env := with_config_file "input.json" (JsonArray [JsonInt 1])
               (account (Ok []) [] [] (fun n => n)) in
  let args := config_args "input.json" None (Some "AWS") in
  let report := fun r : InputRecord => Ok (record_text r) in
  rtmp_quick.create_rtmp_input env args (fresh [])
  = (Raise (TypeError
              "MediaLive.create_input() argument after ** must be a mapping, not list"),
     fresh [])
  ∧ fst (rtmp_quick.main env report args (fresh [])) = Ok 1
  ∧ calls (snd (rtmp_quick.main env report args (fresh []))) = []
  ∧ console (snd (rtmp_quick.main env report args (fresh [])))
    = [Printed (json_dumps_error
                  "MediaLive.create_input() argument after ** must be a mapping, not list")].
Proof. cbv zeta. split_and!; reflexivity. Qed.

(** ** The input is created last, and once *)

Lemma keeps_then {A B} (I : World -> Prop) (m : M A) (k : A -> M B)
    (P : Result B * World -> Prop) :
  keeps I m (fun _ => True) ->
  (forall e w, I w -> P (Raise e, w)) ->
  (forall a w, I w -> P (k a w)) ->
  forall w, I w -> P (bind m k w).
Proof.
  intros Hm He Hk w Hw. destruct (Hm w Hw) as [Hw' _]. unfold bind.
  destruct (m w) as [[a|e] w']; cbn [snd] in Hw'; auto.
Qed.

Lemma created_last_failed {A} env (record : A -> InputRecord) e w :
  log_inv (fun _ => True) no_create_input w ->
  created_last env record (Raise e, w).
Proof. intros [_ Hc]. left. split; [done|]. intros x [=]. Qed.

Lemma no_create_input_other c :
  (forall rules t, c ≠ CreateInputSecurityGroup rules t) ->
  (forall r, c ≠ CreateInput r) -> no_create_input c.
Proof. intros _ H. exact H. Qed.

Local Ltac side := first [done | apply no_create_input_other].

Lemma full_run_created_last env args w :
  Forall no_create_input (calls w) ->
  created_last env fst (rtmp_new_input.create_rtmp_input env args None w).
Proof.
  intros Hw.
  assert (Hinv : log_inv (fun _ => True) no_create_input w).
  { split; [by apply Forall_true | done]. }
  assert (Hsg : forall rules,
            no_create_input (CreateInputSecurityGroup rules {[ "AutoCreated" := "True" ]})).
  { intros rules r. discriminate. }
  clear Hw. revert w Hinv. unfold rtmp_new_input.create_rtmp_input.
  apply keeps_then; [| apply created_last_failed |].
  { apply (keeps_validate_name_left env (fun _ => True) no_create_input); side. }
  intros n. apply keeps_then; [| apply created_last_failed |].
  { apply (keeps_get_available_resources env (fun _ => True) no_create_input).
    apply no_create_input_other. }
  intros [subs groups]. apply keeps_then; [| apply created_last_failed |].
  { repeat case_bool_decide.
    - apply (keeps_aws_branch env (fun _ => True) no_create_input); side.
    - apply (keeps_vpc_branch env (fun _ => True) no_create_input); side.
    - apply (keeps_on_premises_branch env (fun _ => True) no_create_input); side.
    - by apply keeps_ret. }
  intros [req0 info]. apply keeps_then; [| apply created_last_failed |].
  { unfold add_tags. destruct (tags_of args) as [[d|]|e];
      [by apply keeps_ret.. | apply keeps_raise]. }
  intros req w [_ Hc]. right. exists (calls w), req.
  unfold try_except, bind, call, ret.
  destruct (api_create_input env (calls w) req) as [resp|[]] eqn:E;
    cbn [fst snd calls with_call with_console on_ClientError print raise];
    (split; [done|]); (split; [done|]); intros x [=]. by subst.
Qed.

Lemma quick_run_created_last env args w :
  Py.truthy (config args) = false ->
  Forall no_create_input (calls w) ->
  created_last env id (rtmp_quick.create_rtmp_input env args w).
Proof.
  intros Hcfg Hw.
  assert (Hinv : log_inv (fun _ => True) no_create_input w).
  { split; [by apply Forall_true | done]. }
  assert (Hsg : forall rules,
            no_create_input (CreateInputSecurityGroup rules {[ "AutoCreated" := "True" ]})).
  { intros rules r. discriminate. }
  unfold rtmp_quick.create_rtmp_input. rewrite Hcfg.
  match goal with
  | |- created_last _ _ (try_except ?m0 _ _) => set (m := m0)
  end.
  assert (Hinner : created_last env id (m w)).
  { subst m. clear Hw. revert w Hinv.
    apply keeps_then; [| apply created_last_failed |].
    { apply (keeps_generate_name env (fun _ => True) no_create_input). }
    intros n. apply keeps_then; [| apply created_last_failed |].
    { unfold add_tags. destruct (tags_of args) as [[d|]|e];
        [by apply keeps_ret.. | apply keeps_raise]. }
    intros req0. apply keeps_then; [| apply created_last_failed |].
    { repeat case_bool_decide.
      - apply (keeps_quick_aws_branch env (fun _ => True) no_create_input); side.
      - unfold rtmp_quick.vpc_branch.
        destruct (subnets args) as [[|s1 [|s2 more]]|];
          first [by apply keeps_ret | apply keeps_raise].
      - apply (keeps_quick_on_premises_branch env (fun _ => True) no_create_input); side.
      - by apply keeps_ret. }
    intros req w [_ Hc]. right. exists (calls w), req. unfold call.
    cbn [fst snd calls with_call]. split; [done|]. split; [done|].
    by intros x ->. }
  unfold try_except.
  destruct (m w) as [[resp|e] w1]; [done|].
  destruct Hinner as [[Hc _]|(pre & req & Hc & Hpre & _)]; cbn [fst snd] in *.
  - left. destruct e; cbn [on_ClientError raise fst snd]; (split; [done|]); by intros x.
  - right. exists pre, req. destruct e; cbn [on_ClientError raise fst snd];
      (split; [done|]); (split; [done|]); by intros x.
Qed.

(** In a run built from the arguments, of either builder, the request to
    [create_input] is made at most once and nothing follows it: a run that
    failed earlier has not asked for the input, and a run that returns hands
    back what that one call answered.  What was created on the way, a
    security group or a network, stays when the run fails. *)
Theorem input_is_created_last env args w :
  Forall no_create_input (calls w) ->
  created_last env fst (rtmp_new_input.create_rtmp_input env args None w)
  ∧ (Py.truthy (config args) = false ->
     created_last env id (rtmp_quick.create_rtmp_input env args w)).
Proof.
  intros Hw. split; [by apply full_run_created_last|].
  intros Hcfg. by apply quick_run_created_last.
Qed.

Lemma input_is_created_last_witness :
  let env := account (Ok []) [] [] (fun n => n) in
  let args := run_args "AWS" (Some "0.0.0.0/0") None None None in
  created_last env fst (rtmp_new_input.create_rtmp_input env args None (fresh []))
  ∧ created_last env id (rtmp_quick.create_rtmp_input env args (fresh [])).
Proof.
  cbv zeta.
  pose proof (input_is_created_last (account (Ok []) [] [] (fun n => n))
                (run_args "AWS" (Some "0.0.0.0/0") None None None) (fresh [])) as H.
  split; [apply H; constructor | apply H; [constructor | reflexivity]].
Defined.

(** A group is created and stays behind when the request for the input is
    refused afterwards. *)
Example group_stays_after_failure :
  let env :=
    {| api_list_inputs := fun _ => Ok [];
       api_describe_subnets := fun _ => Ok [];
       api_describe_security_groups := fun _ => Ok [];
       api_list_input_security_groups := fun _ => Ok (Some []);
       api_list_networks := fun _ => Ok (Some []);
       api_create_input_security_group := fun _ _ _ => Ok "1234567";
       api_create_network := fun _ _ => Raise (ClientError "denied");
       api_create_input := fun _ _ => Raise (ClientError "denied");
       api_create_input_from_config := fun _ _ => Raise (ClientError "denied");
       random_draw := fun n => n;
       uuid4_text := fun _ => "00000000-0000-4000-8000-000000000000";
       ip_network_ok := fun s => bool_decide (s = "0.0.0.0/0");
       read_json := fun _ => inr "No such file or directory";
       create_input_repr := "MediaLive.create_input()";
       recursion_room := 990;
       int_max_str_digits := 4300;
       int_error := fun s => s;
       repr_rules := fun _ => "[]";
       repr_strings := fun _ => "[]" |} in
  let out := rtmp_quick.create_rtmp_input env (run_args "AWS" None None None None)
               (fresh []) in
  fst out = Raise (SystemExit "Error: denied")
  ∧ exists req,
      calls (snd out)
      = [CreateInputSecurityGroup [{| entry_Cidr := "0.0.0.0/0" |}]
                                  {[ "AutoCreated" := "True" ]};
         CreateInput req].
Proof. cbv zeta. split; [reflexivity|]. eexists. reflexivity. Qed.

(** ** A number typed at a listing *)

Lemma index_numbered {A} (l : list A) (n : Z) : Py.index l (n - 1) = numbered l n.
Proof.
  unfold Py.index, numbered. set (len := Z.of_nat (length l)).
  destruct (Z.leb_spec 0 (n - 1)), (Z.ltb_spec (n - 1) len),
    (Z.leb_spec (- len) (n - 1)), (Z.ltb_spec (n - 1) 0);
    cbn [andb]; case_decide; try lia; try done.
  - by rewrite Z.mod_small by lia.
  - do 2 f_equal. apply Z.mod_unique with (q := -1); lia.
Qed.

Lemma numbered_in_list {A} (l : list A) (n : Z) (a : A) :
  numbered l n = Some a -> a ∈ l.
Proof.
  unfold numbered. case_decide; [|done]. apply list_elem_of_lookup_2.
Qed.

Lemma print_all_run lines w :
  rtmp_new_input.print_all lines w
  = (Ok tt, foldl (fun w l => with_console (Printed l) w) w lines).
Proof.
  revert w. induction lines as [|l lines IH]; intros w; [done|].
  cbn [rtmp_new_input.print_all foldl]. unfold bind, print. by rewrite IH.
Qed.

Lemma printed_lines_world lines w :
  stdin (foldl (fun w l => with_console (Printed l) w) w lines) = stdin w
  ∧ calls (foldl (fun w l => with_console (Printed l) w) w lines) = calls w.
Proof.
  revert w. induction lines as [|l lines IH]; intros w; [done|].
  cbn [foldl]. by destruct (IH (with_console (Printed l) w)) as [-> ->].
Qed.

(** The choice of an input security group by its number. *)
Lemma choose_or_create_by_number env listing groups req info w choice rest n :
  groups ≠ [] ->
  stdin w = choice :: rest ->
  Py.lower choice ≠ "new" ->
  Py.int (int_max_str_digits env) choice = Some n ->
  fst (rtmp_new_input.choose_or_create env listing groups req info w)
  = match numbered groups n with
    | Some g =>
        Ok (set_InputSecurityGroups [isg_Id g] req,
            rtmp_new_input.report_sg (rtmp_new_input.chosen_report (isg_Id g)) info)
    | None => Raise (IndexError "list index out of range")
    end
  ∧ calls (snd (rtmp_new_input.choose_or_create env listing groups req info w)) = calls w
  ∧ stdin (snd (rtmp_new_input.choose_or_create env listing groups req info w)) = rest.
Proof.
  intros Hne Hin Hnew Hint.
  assert (exists w2,
    rtmp_new_input.choose_or_create env listing groups req info w
    = (match numbered groups n with
       | Some g =>
           Ok (set_InputSecurityGroups [isg_Id g] req,
               rtmp_new_input.report_sg (rtmp_new_input.chosen_report (isg_Id g)) info)
       | None => Raise (IndexError "list index out of range")
       end, w2)
    ∧ calls w2 = calls w ∧ stdin w2 = rest) as (w2 & -> & ? & ?); [|done].
  unfold rtmp_new_input.choose_or_create.
  destruct groups as [|g0 groups]; [done|].
  set (l := g0 :: groups). unfold bind at 1, print.
  unfold bind at 1. rewrite print_all_run.
  set (w1 := foldl _ _ _).
  assert (stdin w1 = choice :: rest ∧ calls w1 = calls w) as [Hs Hc].
  { subst w1. destruct (printed_lines_world (imap listing l)
      (with_console (Printed (nl +:+ "Available MediaLive security groups:")) w))
      as [-> ->]. done. }
  clearbody w1. unfold bind at 1, input. rewrite Hs.
  rewrite bool_decide_eq_false_2 by done.
  unfold bind at 1. unfold bind at 1, py_int, of_option. rewrite Hint. unfold ret at 1.
  rewrite index_numbered. destruct (numbered l n) as [g|]; eexists; by split.
Qed.

(** The choice of a network by its number. *)
Lemma choose_network_by_number env networks w choice rest n :
  networks ≠ [] ->
  stdin w = choice :: rest ->
  Py.lower choice ≠ "new" ->
  Py.int (int_max_str_digits env) choice = Some n ->
  fst (rtmp_new_input.choose_network env networks w)
  = match numbered networks n with
    | Some network => Ok (Some (net_Id network))
    | None => Raise (IndexError "list index out of range")
    end
  ∧ calls (snd (rtmp_new_input.choose_network env networks w)) = calls w
  ∧ stdin (snd (rtmp_new_input.choose_network env networks w)) = rest.
Proof.
  intros Hne Hin Hnew Hint.
  assert (exists w2,
    rtmp_new_input.choose_network env networks w
    = (match numbered networks n with
       | Some network => Ok (Some (net_Id network))
       | None => Raise (IndexError "list index out of range")
       end, w2)
    ∧ calls w2 = calls w ∧ stdin w2 = rest) as (w2 & -> & ? & ?); [|done].
  unfold rtmp_new_input.choose_network.
  destruct networks as [|g0 networks]; [done|].
  set (l := g0 :: networks). unfold bind at 1, print.
  unfold bind at 1. rewrite print_all_run.
  set (w1 := foldl _ _ _).
  assert (stdin w1 = choice :: rest ∧ calls w1 = calls w) as [Hs Hc].
  { subst w1.
    destruct (printed_lines_world
      (imap (fun i network =>
               Py.str_of_nat (S i) +:+ ". " +:+ net_Id network +:+ " - "
               +:+ default "N/A" (net_Name network)) l)
      (with_console (Printed (nl +:+ "Available MediaLive networks:")) w))
      as [-> ->]. done. }
  clearbody w1. unfold bind at 1, input. rewrite Hs.
  rewrite bool_decide_eq_false_2 by done.
  unfold bind at 1, py_int, of_option. rewrite Hint. unfold ret at 1.
  rewrite index_numbered. destruct (numbered l n) as [g|]; eexists; by split.
Qed.

(** At the numbered listings of input security groups and of networks, the
    number typed is used as a Python index after subtracting one, without a
    bounds check of the script's own: [1 .. len] pick by position, [0] picks
    the last entry, a negative number down to [1 - len] counts from the end,
    and any other number fails with an [IndexError].  No call is made and
    exactly the line typed is read. *)
Theorem numbered_choice_wraps env w choice rest n :
  stdin w = choice :: rest ->
  Py.lower choice ≠ "new" ->
  Py.int (int_max_str_digits env) choice = Some n ->
  (forall listing groups req info,
     groups ≠ [] ->
     let out := rtmp_new_input.choose_or_create env listing groups req info w in
     fst out
     = match numbered groups n with
       | Some g =>
           Ok (set_InputSecurityGroups [isg_Id g] req,
               rtmp_new_input.report_sg (rtmp_new_input.chosen_report (isg_Id g)) info)
       | None => Raise (IndexError "list index out of range")
       end
     ∧ calls (snd out) = calls w ∧ stdin (snd out) = rest)
  ∧ (forall networks,
       networks ≠ [] ->
       let out := rtmp_new_input.choose_network env networks w in
       fst out
       = match numbered networks n with
         | Some network => Ok (Some (net_Id network))
         | None => Raise (IndexError "list index out of range")
         end
       ∧ calls (snd out) = calls w ∧ stdin (snd out) = rest)
  ∧ (forall A (l : list A), l ≠ [] -> n = 0 -> numbered l n = last l)
  ∧ (forall A (l : list A), 1 ≤ n ≤ Z.of_nat (length l) ->
                            numbered l n = l !! Z.to_nat (n - 1)).
Proof.
  intros Hin Hnew Hint. split_and!.
  - intros listing groups req info Hne.
    by apply (choose_or_create_by_number env listing groups req info w choice rest n).
  - intros networks Hne.
    by apply (choose_network_by_number env networks w choice rest n).
  - intros A l Hne ->. unfold numbered.
    assert (length l ≠ O) by by destruct l.
    rewrite decide_True by lia. rewrite last_lookup. f_equal.
    replace ((0 - 1) `mod` Z.of_nat (length l)) with (Z.of_nat (length l) - 1).
    + lia.
    + apply Z.mod_unique with (q := -1); lia.
  - intros A l Hn. unfold numbered. rewrite decide_True by lia.
    by rewrite Z.mod_small by lia.
Qed.

Lemma numbered_choice_wraps_witness :
  let env := account (Ok []) [] [] (fun n => n) in
  let networks := [{| net_Id := "net-a"; net_Name := None |};
                   {| net_Id := "net-b"; net_Name := None |};
                   {| net_Id := "net-c"; net_Name := None |}] in
  fst (rtmp_new_input.choose_network env networks (fresh ["0"; "left"]))
  = Ok (Some "net-c")
  ∧ calls (snd (rtmp_new_input.choose_network env networks (fresh ["0"; "left"]))) = []
  ∧ stdin (snd (rtmp_new_input.choose_network env networks (fresh ["0"; "left"])))
    = ["left"].
Proof.
  cbv zeta.
  refine (proj1 (proj2 (numbered_choice_wraps (account (Ok []) [] [] (fun n => n))
            (fresh ["0"; "left"]) "0" ["left"] 0 _ _ _))
            [{| net_Id := "net-a"; net_Name := None |};
             {| net_Id := "net-b"; net_Name := None |};
             {| net_Id := "net-c"; net_Name := None |}] _);
    first [reflexivity | discriminate].
Defined.

(** The same number is refused by [select_resources], which checks its
    bounds. *)
Example select_resources_refuses_zero :
  rtmp_new_input.select_attempt (account (Ok []) [] [] (fun n => n))
    five_candidates 1 "0"
  = rtmp_new_input.Invalid (ValueError "Invalid selection: 0").
Proof. vm_compute. reflexivity. Qed.

(** ** The network that the dialogue asks for *)

Lemma read_ip_pools_valid env pools lines w :
  Forall (fun p => ip_network_ok env (entry_Cidr p) = true) pools ->
  calls (snd (rtmp_new_input.read_ip_pools env pools lines w)) = calls w
  ∧ forall r, fst (rtmp_new_input.read_ip_pools env pools lines w) = Ok r ->
              Forall (fun p => ip_network_ok env (entry_Cidr p) = true) r
              ∧ (pools ≠ [] -> r ≠ []).
Proof.
  revert pools w. induction lines as [|l lines IH]; intros pools w Hp;
    cbn [rtmp_new_input.read_ip_pools]; [done|].
  destruct l as [|c s].
  - split; [done|]. by intros r [= <-].
  - unfold rtmp_new_input.validate_cidr.
    destruct (ip_network_ok env (String c s)) eqn:Hok.
    + destruct (IH (pools ++ [{| entry_Cidr := String c s |}])
                  (with_stdin lines
                     (with_console
                        (Prompted "Enter IP pool CIDR (or leave empty to finish adding pools): ")
                        w))) as [Hc Hr].
      { apply Forall_app. split; [done|]. by constructor. }
      split; [done|]. intros r Hrun. destruct (Hr r Hrun) as [? Hne]. split; [done|].
      intros _. apply Hne. by destruct pools.
    + destruct (IH pools
                  (with_console (Printed "Invalid CIDR format. Please try again.")
                     (with_stdin lines
                        (with_console
                           (Prompted
                              "Enter IP pool CIDR (or leave empty to finish adding pools): ")
                           w)))) as [Hc Hr]; [done|].
      by split.
Qed.

Lemma read_routes_valid env routes lines w :
  Forall (fun r => ip_network_ok env (Cidr r) = true ∧ is_Some (Gateway r)) routes ->
  calls (snd (rtmp_new_input.read_routes env routes lines w)) = calls w
  ∧ forall r, fst (rtmp_new_input.read_routes env routes lines w) = Ok r ->
              Forall (fun r => ip_network_ok env (Cidr r) = true ∧ is_Some (Gateway r)) r.
Proof.
  revert routes w. induction lines as [lines IH] using (induction_ltof1 _ length).
  unfold ltof in IH. intros routes w Hp.
  destruct lines as [|l lines]; cbn [rtmp_new_input.read_routes]; [done|].
  destruct l as [|c s].
  - split; [done|]. by intros r [= <-].
  - unfold rtmp_new_input.validate_cidr.
    destruct (ip_network_ok env (String c s)) eqn:Hok.
    + destruct lines as [|g lines']; [done|].
      match goal with
      | |- context [rtmp_new_input.read_routes env ?rs lines' ?w0] =>
          destruct (IH lines' ltac:(cbn; lia) rs w0) as [Hc Hr]
      end.
      { apply Forall_app. split; [done|]. constructor; [|done]. by split. }
      by split.
    + match goal with
      | |- context [rtmp_new_input.read_routes env routes lines ?w0] =>
          destruct (IH lines ltac:(cbn; lia) routes w0) as [Hc Hr]; [done|]
      end.
      by split.
Qed.

Lemma create_medialive_network_end env nm pools routes w :
  pools ≠ [] ->
  Forall (fun p => ip_network_ok env (entry_Cidr p) = true) pools ->
  Forall (fun r => ip_network_ok env (Cidr r) = true ∧ is_Some (Gateway r))
         (default [] routes) ->
  network_dialogue_end env (calls w)
    (rtmp_new_input.create_medialive_network env nm pools routes w).
Proof.
  intros Hne Hpools Hroutes. right.
  unfold rtmp_new_input.create_medialive_network.
  set (req := {| nr_Name := nm; nr_IpPools := pools; nr_Routes := _ |}).
  exists req. split_and!.
  - unfold try_except, bind, call.
    destruct (api_create_network env (calls w) req) as [resp|[]]; try done.
    by destruct (response_Id resp).
  - split; [done|]. split; [done|]. subst req. cbn [nr_Routes].
    destruct routes as [[|r rs]|]; done.
  - intros network_id. unfold try_except, bind, call.
    destruct (api_create_network env (calls w) req) as [resp|[]]; try done.
    destruct (response_Id resp) as [i|] eqn:Hid; [|done].
    intros [= <-]. by exists resp.
Qed.

Lemma create_new_network_depth_end env depth w :
  network_dialogue_end env (calls w) (rtmp_new_input.create_new_network_depth env depth w).
Proof.
  revert w. induction depth as [|depth IH]; intros w.
  all: cbn [rtmp_new_input.create_new_network_depth].
  all: unfold bind at 1, input.
  all: destruct (stdin w) as [|nm rest] eqn:Hin; [by left|].
  all: unfold bind at 1; cbn [stdin with_stdin with_console].
  all: match goal with
       | |- context [rtmp_new_input.read_ip_pools ?ev [] ?ls ?w0] =>
           destruct (read_ip_pools_valid ev [] ls w0 ltac:(constructor)) as [Hc Hr];
           destruct (rtmp_new_input.read_ip_pools ev [] ls w0) as [[pools|e] w1];
           cbn [fst snd calls with_stdin with_console] in Hc, Hr
       end.
  all: try (left; split; [done|]; by intros ?).
  all: destruct (Hr pools eq_refl) as [Hvalid _].
  all: destruct pools as [|p pools].
  1: { left. split; [done|]. by intros ?. }
  2: { unfold bind at 1, print.
       match goal with
       | |- context [rtmp_new_input.create_new_network_depth ?ev ?d ?w0] =>
           pose proof (IH w0) as H
       end.
       cbn [calls with_console] in H. by rewrite Hc in H. }
  all: unfold bind at 1, input.
  all: destruct (stdin w1) as [|answer rest1] eqn:Hin1; [left; split; [done|]; by intros ?|].
  all: unfold bind at 1.
  all: destruct (bool_decide (Py.lower answer = "y")).
  all: try match goal with
       | |- context [rtmp_new_input.read_routes ?ev [] ?ls ?w0] =>
           destruct (read_routes_valid ev [] ls w0 ltac:(constructor)) as [Hc2 Hr2];
           destruct (rtmp_new_input.read_routes ev [] ls w0) as [[routes|e] w2];
           cbn [fst snd calls stdin with_stdin with_console] in Hc2, Hr2;
           [|left; split; [cbn [snd]; by rewrite Hc2 | by intros ?]];
           specialize (Hr2 routes eq_refl)
       end.
  all: try unfold ret at 1.
  all: match goal with
       | |- network_dialogue_end _ _
              (rtmp_new_input.create_medialive_network ?ev ?n ?ps ?rs ?w0) =>
           pose proof (create_medialive_network_end ev n ps rs w0) as H
       end.
  all: cbn [calls with_stdin with_console] in H; rewrite ?Hc2, Hc in H; apply H;
         [done | done |].
  all: try done.
  all: by destruct routes.
Qed.

(** The dialogue that creates a network asks the cloud at most once, and
    only for a well-formed network: at least one pool, every pool and every
    route an address block that [ipaddress.ip_network] accepts, every route
    with a gateway.  It returns an identifier only when that call answered
    with it; the name and the gateways are sent as typed. *)
Theorem network_dialogue_request env w :
  network_dialogue_end env (calls w) (rtmp_new_input.create_new_network env w).
Proof. apply create_new_network_depth_end. Qed.

(** A dialogue: a name, a refused pool, a pool, one route. *)
Example network_dialogue_example :
  calls (snd (rtmp_new_input.create_new_network
                {| api_list_inputs := fun _ => Ok [];
                   api_describe_subnets := fun _ => Ok [];
                   api_describe_security_groups := fun _ => Ok [];
                   api_list_input_security_groups := fun _ => Ok (Some []);
                   api_list_networks := fun _ => Ok (Some []);
                   api_create_input_security_group := fun _ _ _ => Ok "1234567";
                   api_create_network := fun _ _ =>
                     Ok {| response_Id := Some "network-1"; response_text := "" |};
                   api_create_input := fun _ _ => Raise (ClientError "denied");
                   api_create_input_from_config := fun _ _ => Raise (ClientError "denied");
                   random_draw := fun n => n;
                   uuid4_text := fun _ => "00000000-0000-4000-8000-000000000000";
                   ip_network_ok := fun s =>
                     bool_decide (s = "10.0.0.0/24") || bool_decide (s = "0.0.0.0/0");
                   read_json := fun _ => inr "No such file or directory";
                   create_input_repr := "MediaLive.create_input()";
                   recursion_room := 990;
                   int_max_str_digits := 4300;
                   int_error := fun s => s;
                   repr_rules := fun _ => "[]";
                   repr_strings := fun _ => "[]" |}
                (fresh ["studio"; "10.0.0.300/24"; "10.0.0.0/24"; ""; "Y";
                        "0.0.0.0/0"; "10.0.0.1"; ""])))
  = [CreateNetwork
       {| nr_Name := "studio";
          nr_IpPools := [{| entry_Cidr := "10.0.0.0/24" |}];
          nr_Routes := Some [{| Cidr := "0.0.0.0/0"; Gateway := Some "10.0.0.1" |}] |}].
Proof. vm_compute. reflexivity. Qed.

(** With room for one nested call, the second round without a pool ends
    in a [RecursionError]: no network is asked for, and the lines that
    remain are left unread. *)
Example network_dialogue_recursion_limit :
  let env := with_recursion_room 1 (account (Ok []) [] [] (fun n => n)) in
  let out := rtmp_new_input.create_new_network env
               (fresh ["a"; ""; "b"; ""; "c"; "0.0.0.0/0"; ""; "n"]) in
  fst out = Raise (RecursionError "maximum recursion depth exceeded")
  ∧ calls (snd out) = []
  ∧ stdin (snd out) = ["c"; "0.0.0.0/0"; ""; "n"].
Proof. cbv zeta. split_and!; reflexivity. Qed.

(** ** When the inventory cannot be fetched *)






(** ** The security group of an AWS input, when it is given *)

(** In the full builder with source type AWS, a security-group argument
    that is an address block makes the builder create a group for that
    block and attach the identifier the cloud returns; an argument that is
    not an address block, starts with [sg-] and names one of the listed
    input security groups is attached as it is.  In both cases the operator
    is asked nothing and nothing is printed. *)
Theorem aws_branch_given_group env args req info w sg listed :
  security_group args = Some sg ->
  sg ≠ "" ->
  api_list_input_security_groups env (calls w) = Ok listed ->
  let out := rtmp_new_input.aws_branch env args req info w in
  let create :=
    CreateInputSecurityGroup [{| entry_Cidr := sg |}] {[ "AutoCreated" := "True" ]} in
  (forall sg_id,
     rtmp_new_input.validate_cidr env sg = true ->
     api_create_input_security_group env (calls w ++ [ListInputSecurityGroups])
       [{| entry_Cidr := sg |}] {[ "AutoCreated" := "True" ]} = Ok sg_id ->
     fst out = Ok (set_InputSecurityGroups [sg_id] req,
                   rtmp_new_input.report_sg (rtmp_new_input.created_report sg_id sg) info)
     ∧ calls (snd out) = calls w ++ [ListInputSecurityGroups; create]
     ∧ stdin (snd out) = stdin w ∧ console (snd out) = console w)
  ∧ (rtmp_new_input.validate_cidr env sg = false ->
     Py.startswith "sg-" sg = true ->
     sg ∈ map isg_Id (default [] listed) ->
     fst out = Ok (set_InputSecurityGroups [sg] req,
                   rtmp_new_input.report_sg (rtmp_new_input.chosen_report sg) info)
     ∧ calls (snd out) = calls w ++ [ListInputSecurityGroups]
     ∧ stdin (snd out) = stdin w ∧ console (snd out) = console w).
Proof.
  intros Hsg Hne Hlist out create. subst out create.
  assert (Hgroups : rtmp_new_input.get_available_security_groups env w
            = (Ok (default [] listed), with_call ListInputSecurityGroups w)).
  { unfold rtmp_new_input.get_available_security_groups, try_except, bind, call.
    by rewrite Hlist. }
  unfold rtmp_new_input.aws_branch. rewrite (bind_ok _ _ _ _ _ Hgroups).
  rewrite Hsg. destruct sg as [|c r]; [done|]. split.
  - intros sg_id -> Hcreate.
    unfold bind, rtmp_new_input.create_input_security_group, call.
    cbn [calls with_call]. rewrite Hcreate. cbn. by rewrite <- app_assoc.
  - intros -> -> Hin.
    assert (existsb (fun g => bool_decide (isg_Id g = String c r)) (default [] listed)
            = true) as ->; [|done].
    apply existsb_exists. apply list_elem_of_fmap in Hin as (g & Hg & Hing).
    exists g. split; [by apply list_elem_of_In|]. by apply bool_decide_eq_true.
Qed.

Lemma aws_branch_given_group_witness :
  let env := account (Ok []) [] [] (fun n => n) in
  let args := run_args "AWS" (Some "0.0.0.0/0") None None None in
  let req := {| Name := "n"; Type_ := "RTMP_PUSH"; InputNetworkLocation := "AWS";
                Destinations := None; InputSecurityGroups := None; Vpc := None;
                RoleArn := None; Tags := None |} in
  let info := {| rtmp_new_input.info_subnets := [];
                 rtmp_new_input.info_security_groups := [];
                 rtmp_new_input.info_availability_zones := ∅;
                 rtmp_new_input.info_networks := [] |} in
  let out := rtmp_new_input.aws_branch env args req info (fresh ["typed"]) in
  fst out = Ok (set_InputSecurityGroups ["1234567"] req,
                rtmp_new_input.report_sg
                  (rtmp_new_input.created_report "1234567" "0.0.0.0/0") info)
  ∧ calls (snd out)
    = [ListInputSecurityGroups;
       CreateInputSecurityGroup [{| entry_Cidr := "0.0.0.0/0" |}]
                                {[ "AutoCreated" := "True" ]}]
  ∧ stdin (snd out) = ["typed"] ∧ console (snd out) = [].
Proof.
  intros env args req info out.
  refine (proj1 (aws_branch_given_group env args req info (fresh ["typed"])
                   "0.0.0.0/0" (Some []) _ _ _) "1234567" _ _);
    first [reflexivity | discriminate].
Defined.

(** ** The exit status of the scripts *)

Section refusal_rules.
Context (env : Env) {A B : Type}.

Lemma refusal_ends_quiet (m : M A) :
  (forall w, calls (snd (m w)) = calls w) -> refusal_ends env m.
Proof.
  intros Hm w. exists []. rewrite app_nil_r. split; [done|].
  intros pre c after Hl. by destruct pre.
Qed.

Lemma refusal_ends_call c (answer : list ApiCall -> Result A) :
  (forall h, refused env h c -> exists msg, answer h = Raise (ClientError msg)) ->
  refusal_ends env (call c answer).
Proof.
  intros Hc w. exists [c]. split; [done|]. intros pre c' after Hl Href.
  destruct pre as [|c0 pre]; [|by destruct pre].
  injection Hl as <- <-. rewrite app_nil_r in Href.
  destruct (Hc _ Href) as [msg Hmsg]. split; [done|]. exists msg. left.
  unfold call. by rewrite Hmsg.
Qed.

Lemma refusal_ends_bind (m : M A) (k : A -> M B) :
  refusal_ends env m -> (forall a, refusal_ends env (k a)) -> refusal_ends env (bind m k).
Proof.
  intros Hm Hk w. destruct (Hm w) as (l1 & Hl1 & H1). unfold bind.
  destruct (m w) as [[a|e] w1]; cbn [fst snd] in *;
    [|exists l1; split; [exact Hl1|];
      intros pre c after Hl Href;
      destruct (H1 _ _ _ Hl Href) as (-> & msg & [[= ->]|[= ->]]);
      (split; [done|]); exists msg; [by left | by right]].
  destruct (Hk a w1) as (l2 & Hl2 & H2).
  exists (l1 ++ l2). split; [by rewrite Hl2, Hl1, app_assoc|].
  intros pre c after Hl Href.
  apply app_eq_app in Hl as [l [[-> Hl]|[-> ->]]].
  - destruct l as [|c0 l].
    + cbn [app] in Hl. subst l2. rewrite app_nil_r in Hl1.
      apply (H2 [] c after); [done|]. by rewrite app_nil_r, Hl1.
    + injection Hl as <- ->.
      destruct (H1 pre c l eq_refl Href) as (_ & msg & [?|?]); done.
  - apply (H2 l c after); [done|]. by rewrite Hl1, <- app_assoc.
Qed.

(** [except ClientError as e: sys.exit(...)] *)
Lemma refusal_ends_exit (m : M A) (f : string -> string) :
  refusal_ends env m ->
  refusal_ends env (try_except m (on_ClientError (fun e => raise (SystemExit (f e))))).
Proof.
  intros Hm w. destruct (Hm w) as (l & Hl & H). exists l. unfold try_except.
  destruct (m w) as [[a|e] w1]; cbn [fst snd] in *; [by split|].
  destruct e; cbn [on_ClientError raise fst snd]; split; try done.
  intros pre c after Heq Href. destruct (H pre c after Heq Href) as (-> & _).
  split; [done|]. eexists. by right.
Qed.

End refusal_rules.

(** In the quick builder a call that the cloud refuses is the last one. *)
Lemma quick_run_refusal_ends env args :
  refusal_ends env (rtmp_quick.create_rtmp_input env args).
Proof.
  unfold rtmp_quick.create_rtmp_input. apply refusal_ends_exit.
  destruct (Py.truthy (config args)).
  - apply refusal_ends_bind.
    + apply refusal_ends_quiet. intros w. unfold rtmp_quick.load_config.
      by destruct (read_json env _).
    + intros cfg. unfold create_input_from.
      destruct cfg; try (by apply refusal_ends_quiet).
      apply refusal_ends_call. by intros h [msg Hmsg]; exists msg.
  - apply refusal_ends_bind.
    { apply refusal_ends_quiet. intros w.
      by destruct (generate_name_quiet env (name args) w) as (n & w1 & -> & ? & _). }
    intros n. apply refusal_ends_bind.
    { apply refusal_ends_quiet. intros w. unfold add_tags.
      by destruct (tags_of args) as [[d|]|e]. }
    intros req. apply refusal_ends_bind.
    2: { intros req'. apply refusal_ends_call. by intros h [msg Hmsg]; exists msg. }
    repeat case_bool_decide.
    + unfold rtmp_quick.aws_branch. destruct (_ && _); [by apply refusal_ends_quiet|].
      apply refusal_ends_bind; [|intros; by apply refusal_ends_quiet].
      apply refusal_ends_exit. apply refusal_ends_call.
      by intros h [msg Hmsg]; exists msg.
    + apply refusal_ends_quiet. intros w. unfold rtmp_quick.vpc_branch.
      by destruct (subnets args) as [[|s1 [|s2 more]]|].
    + unfold rtmp_quick.on_premises_branch.
      apply refusal_ends_bind; [|intros; by apply refusal_ends_quiet].
      destruct (Py.truthy (network args)); [by apply refusal_ends_quiet|].
      apply refusal_ends_bind; [by apply refusal_ends_quiet|]. intros u.
      apply refusal_ends_exit. apply refusal_ends_bind.
      * apply refusal_ends_call. by intros h [msg Hmsg]; exists msg.
      * intros resp. apply refusal_ends_quiet. intros w.
        by destruct (response_Id resp).
    + by apply refusal_ends_quiet.
Qed.

(** The quick script ends in one of three ways.  With status 0, after
    printing the report of the input created, as its only output.  With
    status 1, after printing one JSON object with the text of the exception
    that the builder or the report raised; this exception is never a
    [ClientError] of the builder.  Or by [SystemExit] with nothing printed:
    so end the runs without the required arguments, which make no call, and
    every run in which the cloud refused a request, which is then the last
    request of the run. *)
Theorem quick_main_outcomes env dumps_report args w :
  let out := rtmp_quick.main env dumps_report args w in
  let run := rtmp_quick.create_rtmp_input env args w in
  ((fst out = Ok 0
    ∧ exists resp text,
        fst run = Ok resp ∧ dumps_report resp = Ok text
        ∧ console (snd out) = console w ++ [Printed text])
   ∨ (fst out = Ok 1
      ∧ exists e,
          ((fst run = Raise e ∧ forall m, e ≠ ClientError m)
           ∨ exists resp, fst run = Ok resp ∧ dumps_report resp = Raise e)
          ∧ console (snd out) = console w ++ [Printed (json_dumps_error (exn_str e))])
   ∨ (exists msg, fst out = Raise (SystemExit msg)) ∧ console (snd out) = console w)
  ∧ (Py.truthy (config args) = false ->
     Py.truthy (source_type args) = false ∨ Py.truthy (app_name args) = false
     ∨ Py.truthy (app_instance args) = false ->
     fst out
     = Raise (SystemExit
                "Error: --config or --source-type, --app-name, and --app-instance are required")
     ∧ calls (snd out) = calls w)
  ∧ (forall pre c after,
       calls (snd run) = calls w ++ pre ++ c :: after ->
       refused env (calls w ++ pre) c ->
       after = []
       ∧ (exists msg, fst out = Raise (SystemExit msg))
       ∧ console (snd out) = console w).
Proof.
  intros out run. split_and!.
  - assert (Hout : out = rtmp_quick.main env dumps_report args w) by done.
    assert (Hrun : run = rtmp_quick.create_rtmp_input env args w) by done.
    destruct (quick_run_is_unattended env args w) as (_ & Hcon & _).
    pose proof (quick_run_no_ClientError env args w) as Hno.
    rewrite <- Hrun in Hcon, Hno. clearbody out run.
    unfold rtmp_quick.main, try_except in Hout.
    destruct (negb (Py.truthy (config args)) && _).
    { subst out. right. right. split; [by eexists | done]. }
    unfold bind at 1 in Hout. rewrite <- Hrun in Hout.
    destruct run as [[resp|e] w1]; cbn [fst snd] in *.
    + unfold bind at 1 in Hout. destruct (dumps_report resp) as [text|e] eqn:Hd.
      * subst out. left. cbn. split; [done|]. exists resp, text. by rewrite <- Hcon.
      * destruct e; cbn in Hout; subst out; cbn [fst snd console with_console];
          try (right; left; split; [done|]; eexists; split;
               [right; by exists resp | by rewrite <- Hcon]).
        right. right. split; [by eexists | done].
    + destruct e; cbn in Hout; subst out; cbn [fst snd console with_console];
        try (right; left; split; [done|]; eexists; split;
             [left; split; [done | by intros m] | by rewrite <- Hcon]).
      * right. right. split; [by eexists | done].
      * by destruct (Hno msg).
  - intros Hcfg Hmiss. subst out. unfold rtmp_quick.main, try_except.
    rewrite Hcfg. cbn [negb andb].
    assert (negb (Py.truthy (source_type args)) || negb (Py.truthy (app_name args))
            || negb (Py.truthy (app_instance args)) = true) as ->; [|done].
    destruct Hmiss as [-> | [-> | ->]]; cbn; by rewrite ?orb_true_r.
  - intros pre c after Hcalls Href.
    destruct (quick_run_refusal_ends env args w) as (l & Hl & Hends).
    fold run in Hl, Hends. rewrite Hl in Hcalls. apply app_inv_head in Hcalls.
    destruct (Hends pre c after Hcalls Href) as (-> & msg & Hres).
    split; [done|].
    destruct Hres as [Hres|Hres];
      [by destruct (quick_run_no_ClientError env args w msg)|].
    destruct (quick_run_is_unattended env args w) as (_ & Hcon & _).
    fold run in Hcon.
    assert (Hout : out = rtmp_quick.main env dumps_report args w) by done.
    clearbody out. unfold rtmp_quick.main, try_except in Hout.
    destruct (negb (Py.truthy (config args)) && _).
    { subst out. split; [by eexists | done]. }
    unfold bind at 1 in Hout. fold run in Hout.
    destruct run as [[resp|e] w1]; cbn [fst snd] in *; [done|].
    injection Hres as ->. cbn in Hout. subst out. split; [by eexists | done].
Qed.

Lemma quick_main_outcomes_witness :
  let report := fun r : InputRecord => Ok (record_text r) in
  let no_app :=
    {| config := None; name := None; region := Some "us-east-2";
       source_type := Some "AWS"; app_name := None; app_instance := None;
       secondary_app_name := None; secondary_app_instance := None;
       security_group := None; subnets := None; role_arn := None;
       network := None; static_ip := None; network_routes := None;
       tags := None |} in
  let args := run_args "ON_PREMISES" None None None None in
  (fst (rtmp_quick.main refusing_account report no_app (fresh []))
   = Raise (SystemExit
              "Error: --config or --source-type, --app-name, and --app-instance are required")
   ∧ calls (snd (rtmp_quick.main refusing_account report no_app (fresh []))) = [])
  ∧ (([] : list ApiCall) = []
     ∧ (exists msg, fst (rtmp_quick.main refusing_account report args (fresh []))
                    = Raise (SystemExit msg))
     ∧ console (snd (rtmp_quick.main refusing_account report args (fresh []))) = []).
Proof.
  intros report no_app args. split.
  - refine (proj1 (proj2 (quick_main_outcomes refusing_account report no_app (fresh [])))
              _ _).
    + reflexivity.
    + right. left. reflexivity.
  - refine (proj2 (proj2 (quick_main_outcomes refusing_account report args (fresh [])))
              [] (CreateNetwork (default_network refusing_account 1)) [] _ _).
    + reflexivity.
    + exists "denied". reflexivity.
Defined.

(** A refused request ends the quick script by an exit and leaves nothing
    on the standard output; a tag without ['='] ends it with status 1 and a
    JSON object. *)
Example quick_main_examples :
  let dumps_report := fun r : InputRecord => Ok (record_text r) in
  fst (rtmp_quick.main refusing_account dumps_report (run_args "AWS" None None None None)
         (fresh []))
  = Raise (SystemExit "Error creating security group: denied")
  ∧ console (snd (rtmp_quick.main refusing_account dumps_report
                    (run_args "AWS" None None None None) (fresh [])))
    = []
  ∧ fst (rtmp_quick.main refusing_account dumps_report
           (run_args "AWS" None None None (Some ["NoEquals"])) (fresh []))
    = Ok 1
  ∧ console (snd (rtmp_quick.main refusing_account dumps_report
                    (run_args "AWS" None None None (Some ["NoEquals"])) (fresh [])))
    = [Printed (json_dumps_error "not enough values to unpack (expected 2, got 1)")].
Proof. cbv zeta. split_and!; reflexivity. Qed.

(** ** The exit status of the full script *)

Lemma create_and_report_end env args direct_config w :
  let out := rtmp_new_input.create_and_report env args direct_config w in
  let run := rtmp_new_input.create_rtmp_input env args direct_config w in
  calls (snd out) = calls (snd run)
  ∧ stdin (snd out) = stdin (snd run)
  ∧ match fst run with
    | Ok (resp, _) =>
        fst out = Ok 0
        ∧ console (snd out)
          = console (snd run)
            ++ [Printed (record_text resp);
                Printed (nl +:+ "RTMP Input created successfully!")]
    | Raise e => out = (Raise e, snd run)
    end.
Proof.
  cbv zeta. unfold rtmp_new_input.create_and_report, bind.
  destruct (rtmp_new_input.create_rtmp_input env args direct_config w)
    as [[[resp info]|e] w1]; [|done].
  cbn. by rewrite <- app_assoc.
Qed.

(** *** What is shown stays shown *)

Section appends_rules.
Context {A B : Type}.

Lemma appends_ret (a : A) : appends (ret a).
Proof. by intros w. Qed.

Lemma appends_raise e : appends (@raise A e).
Proof. by intros w. Qed.

Lemma appends_call c (answer : list ApiCall -> Result A) : appends (call c answer).
Proof. by intros w. Qed.

Lemma appends_of_option e (o : option A) : appends (of_option e o).
Proof. destruct o; [apply appends_ret | apply appends_raise]. Qed.

Lemma appends_bind (m : M A) (k : A -> M B) :
  appends m -> (forall a, appends (k a)) -> appends (bind m k).
Proof.
  intros Hm Hk w. specialize (Hm w). unfold bind.
  destruct (m w) as [[a|e] w1]; cbn [snd] in *; [|done].
  etrans; [exact Hm | apply Hk].
Qed.

Lemma appends_try_except (m : M A) handler :
  appends m -> (forall e h, handler e = Some h -> appends h) ->
  appends (try_except m handler).
Proof.
  intros Hm Hh w. specialize (Hm w). unfold try_except.
  destruct (m w) as [[a|e] w1]; cbn [snd] in *; [done|].
  destruct (handler e) as [h|] eqn:E; [|done].
  etrans; [exact Hm | by apply (Hh e)].
Qed.

Lemma appends_on_ClientError (h : string -> M A) :
  (forall msg, appends (h msg)) ->
  forall e h', on_ClientError h e = Some h' -> appends h'.
Proof. intros Hh e h'. destruct e; try done. intros [= <-]. apply Hh. Qed.

End appends_rules.

Lemma appends_print l : appends (print l).
Proof. intros w. by apply prefix_app_r. Qed.

Lemma appends_input p : appends (input p).
Proof. intros w. unfold input. destruct (stdin w); by apply prefix_app_r. Qed.

Lemma appends_uuid4 env : appends (uuid4 env).
Proof. by intros w. Qed.

Lemma appends_random_join env n : appends (random_join env n).
Proof. intros w. by rewrite random_join_draws. Qed.

Lemma appends_py_int env s : appends (py_int env s).
Proof. apply appends_of_option. Qed.

Lemma appends_print_all lines : appends (rtmp_new_input.print_all lines).
Proof.
  induction lines as [|l lines IH]; cbn [rtmp_new_input.print_all].
  - apply appends_ret.
  - apply appends_bind; [apply appends_print | by intros].
Qed.

Ltac appends_step :=
  first
    [ apply appends_raise
    | apply appends_ret
    | apply appends_print
    | apply appends_print_all
    | apply appends_input
    | apply appends_call
    | apply appends_uuid4
    | apply appends_random_join
    | apply appends_py_int
    | apply appends_of_option
    | apply appends_bind; [ | intros ? ]
    | apply appends_try_except; [ | apply appends_on_ClientError; intros ? ]
    | lazymatch goal with
      | |- appends (match ?x with _ => _ end) => destruct x
      | |- appends (if ?x then _ else _) => destruct x
      end ].

Section scripts_append.
Context (env : Env).

Lemma appends_validate_name_left left name :
  appends (rtmp_new_input.validate_name_left env left name).
Proof.
  revert name. induction left as [|left IH]; intros name;
    cbn [rtmp_new_input.validate_name_left]; repeat appends_step. apply IH.
Qed.

Lemma appends_select_loop items prompt min_count :
  appends (fun w => rtmp_new_input.select_loop env items prompt min_count (stdin w) w).
Proof.
  intros w. generalize (stdin w) as lines. intros lines. revert w.
  induction lines as [|l lines IH]; intros w; cbn [rtmp_new_input.select_loop].
  - by apply prefix_app_r.
  - destruct (rtmp_new_input.select_attempt env items min_count l).
    + by apply prefix_app_r.
    + etrans; [|apply IH]. cbn [console with_console with_stdin].
      rewrite <- app_assoc. by apply prefix_app_r.
    + etrans; [|apply IH]. cbn [console with_console with_stdin].
      rewrite <- app_assoc. by apply prefix_app_r.
Qed.

Lemma appends_select_resources items prompt multiple min_count :
  appends (rtmp_new_input.select_resources env items prompt multiple min_count).
Proof.
  unfold rtmp_new_input.select_resources.
  repeat first [ apply appends_select_loop | appends_step ].
Qed.

Lemma appends_read_ip_pools pools :
  appends (fun w => rtmp_new_input.read_ip_pools env pools (stdin w) w).
Proof.
  intros w. generalize (stdin w) as lines. intros lines. revert pools w.
  induction lines as [|l lines IH]; intros pools w; cbn [rtmp_new_input.read_ip_pools].
  - by apply prefix_app_r.
  - destruct l; [by apply prefix_app_r|].
    destruct (rtmp_new_input.validate_cidr env _); (etrans; [|apply IH]);
      cbn [console with_console with_stdin]; rewrite <- ?app_assoc; by apply prefix_app_r.
Qed.

Lemma appends_read_routes routes :
  appends (fun w => rtmp_new_input.read_routes env routes (stdin w) w).
Proof.
  intros w. generalize (stdin w) as lines. intros lines. revert routes w.
  induction lines as [lines IH] using (induction_ltof1 _ length).
  unfold ltof in IH. intros routes w.
  destruct lines as [|l lines]; cbn [rtmp_new_input.read_routes].
  - by apply prefix_app_r.
  - destruct l as [|c r]; [by apply prefix_app_r|].
    destruct (rtmp_new_input.validate_cidr env _).
    + destruct lines as [|g lines'].
      * cbn [snd console with_console with_stdin]. rewrite <- app_assoc.
        by apply prefix_app_r.
      * etrans; [|apply IH; cbn; lia]. cbn [console with_console with_stdin].
        rewrite <- app_assoc. by apply prefix_app_r.
    + etrans; [|apply IH; cbn; lia]. cbn [console with_console with_stdin].
      rewrite <- app_assoc. by apply prefix_app_r.
Qed.

Lemma appends_create_new_network_depth room :
  appends (rtmp_new_input.create_new_network_depth env room).
Proof.
  induction room as [|room IH]; cbn [rtmp_new_input.create_new_network_depth].
  all: unfold rtmp_new_input.create_medialive_network.
  all: repeat first
         [ apply IH | apply appends_read_ip_pools | apply appends_read_routes
         | appends_step ].
Qed.

(** The builder of the full script only adds to the console. *)
Lemma appends_full_run args direct_config :
  appends (rtmp_new_input.create_rtmp_input env args direct_config).
Proof.
  unfold rtmp_new_input.create_rtmp_input, rtmp_new_input.validate_name,
    rtmp_new_input.get_available_resources, rtmp_new_input.aws_branch,
    rtmp_new_input.vpc_branch, rtmp_new_input.on_premises_branch, add_tags,
    create_input_from, rtmp_new_input.get_available_security_groups,
    rtmp_new_input.get_available_networks, rtmp_new_input.choose_or_create,
    rtmp_new_input.choose_network, rtmp_new_input.vpc_subnets,
    rtmp_new_input.vpc_security_group, rtmp_new_input.create_input_security_group,
    rtmp_new_input.create_new_network.
  repeat first
    [ apply appends_validate_name_left
    | apply appends_select_resources
    | apply appends_create_new_network_depth
    | appends_step ].
Qed.

End scripts_append.

(** The full script, when the configuration file it is given cannot be
    read: it prints the error, announces the configuration all the same,
    and goes on to build the input from the other arguments, without the
    checks of the branch without a file (no source type, no application
    name is needed).  The two lines stay the first ones that the run shows;
    what follows them is the run of the builder from the arguments, and
    then the descriptor and the line of success with status 0, or a line
    [Error: ...] with status 1.  The region is given. *)
Theorem main_unreadable_config env config_truthy config_get_error args w path msg :
  config args = Some path ->
  path ≠ "" ->
  read_json env path = inr msg ->
  Py.truthy (region args) = true ->
  let w2 := with_console (Printed ("Using configuration from " +:+ path))
              (with_console (Printed ("Error loading config file: " +:+ msg)) w) in
  let run := rtmp_new_input.create_rtmp_input env args None w2 in
  let out := rtmp_new_input.main env config_truthy config_get_error args w in
  out = match fst run with
        | Ok (resp, _) =>
            (Ok 0,
             with_console (Printed (nl +:+ "RTMP Input created successfully!"))
               (with_console (Printed (record_text resp)) (snd run)))
        | Raise (SystemExit m) => (Raise (SystemExit m), snd run)
        | Raise e => (Ok 1, with_console (Printed ("Error: " +:+ exn_str e)) (snd run))
        end
  ∧ (exists shown,
       console (snd out)
       = console w
         ++ [Printed ("Error loading config file: " +:+ msg);
             Printed ("Using configuration from " +:+ path)]
         ++ shown)
  ∧ calls (snd out) = calls (snd run)
  ∧ stdin (snd out) = stdin (snd run)
  ∧ (forall x, fst run = Ok x -> fst out = Ok 0)
  ∧ (forall e, fst run = Raise e -> (forall m, e ≠ SystemExit m) -> fst out = Ok 1).
Proof.
  intros Hcfg Hne Hread Hregion w2 run out.
  assert (Hout : out
    = try_except (rtmp_new_input.create_and_report env args None)
        (on_Exception (fun e => print ("Error: " +:+ exn_str e) >> ret 1)) w2).
  { subst out. unfold rtmp_new_input.main, try_except. rewrite Hcfg.
    destruct path as [|c r]; [done|]. cbn [Py.truthy Py.fmt].
    change (default "" (Some (String c r))) with (String c r).
    unfold rtmp_new_input.load_config_file. rewrite Hread, Hregion. done. }
  assert (Hshape : out = match fst run with
        | Ok (resp, _) =>
            (Ok 0,
             with_console (Printed (nl +:+ "RTMP Input created successfully!"))
               (with_console (Printed (record_text resp)) (snd run)))
        | Raise (SystemExit m) => (Raise (SystemExit m), snd run)
        | Raise e => (Ok 1, with_console (Printed ("Error: " +:+ exn_str e)) (snd run))
        end).
  { rewrite Hout. unfold try_except, rtmp_new_input.create_and_report, bind. fold run.
    destruct run as [[[resp info]|e] w3]; [done|]. by destruct e. }
  destruct (appends_full_run env args None w2) as [shown Hshown]. fold run in Hshown.
  clear Hout. clearbody out run. split; [exact Hshape|].
  assert (Hcon : console (snd run)
            = console w ++ [Printed ("Error loading config file: " +:+ msg);
                            Printed ("Using configuration from " +:+ path)] ++ shown).
  { rewrite Hshown. subst w2. cbn [console with_console]. by rewrite <- !app_assoc. }
  destruct run as [[[resp info]|e] w3]; subst out; cbn [fst snd] in *.
  - split_and!; try done.
    exists (shown ++ [Printed (record_text resp);
                      Printed (nl +:+ "RTMP Input created successfully!")]).
    cbn [console with_console]. rewrite Hcon. by rewrite <- !app_assoc.
  - destruct e; cbn [fst snd console calls stdin with_console]; split_and!; try done;
      try (eexists (shown ++ [_]); rewrite Hcon; by rewrite <- !app_assoc);
      try (by exists shown).
    intros e0 [= <-] Hno. by destruct (Hno msg0).
Qed.

Lemma main_unreadable_config_witness :
  let env := account (Ok []) [] [] (fun n => n) in
  let args := config_args "missing.json" None None in
  let out := rtmp_new_input.main env json_truthy json_get_error args (fresh []) in
  out
  = (Ok 0,
     {| stdin := [];
        console :=
          [Printed "Error loading config file: No such file or directory";
           Printed "Using configuration from missing.json";
           Printed "{'Input': {}}";
           Printed (nl +:+ "RTMP Input created successfully!")];
        calls :=
          [DescribeSubnets; DescribeSecurityGroups;
           CreateInput {| Name := "rtmp-input-00000000-0000-4000-8000-000000000000";
                          Type_ := "RTMP_PUSH"; InputNetworkLocation := "AWS";
                          Destinations := None; InputSecurityGroups := None;
                          Vpc := None; RoleArn := None; Tags := None |}];
        rand_pos := 0;
        uuid_pos := 1 |}).
Proof.
  intros env args out.
  refine (eq_trans
            (proj1 (main_unreadable_config env json_truthy json_get_error args
                      (fresh []) "missing.json" "No such file or directory" _ _ _ _)) _).
  - reflexivity.
  - discriminate.
  - reflexivity.
  - reflexivity.
  - vm_compute. reflexivity.
Defined.

(** A configuration file that holds a JSON array: the full script
    announces the configuration, makes no call, and ends with status 1 after
    the line of the [TypeError]; an empty array is falsy, and the input is
    built from the arguments. *)
Example main_config_array :
  let env items := with_config_file "input.json" (JsonArray items)
                     (account (Ok []) [] [] (fun n => n)) in
  let args := config_args "input.json" None None in
  let out items := rtmp_new_input.main (env items) json_truthy json_get_error args
                     (fresh []) in
  out [JsonInt 1]
  = (Ok 1,
     {| stdin := [];
        console :=
          [Printed "Using configuration from input.json";
           Printed "Error: MediaLive.create_input() argument after ** must be a mapping, not list"];
        calls := [];
        rand_pos := 0;
        uuid_pos := 0 |})
  ∧ fst (out []) = Ok 0
  ∧ exists req,
      calls (snd (out [])) = [DescribeSubnets; DescribeSecurityGroups; CreateInput req].
Proof. cbv zeta. split_and!; [reflexivity | reflexivity | by eexists]. Qed.

(** What the body of [main] leaves when it returns: status 0 after the two
    lines of a success, or status 1 after an error line. *)
Lemma create_and_report_status env args direct_config w z :
  fst (rtmp_new_input.create_and_report env args direct_config w) = Ok z ->
  z = 0
  ∧ exists pre resp,
      console (snd (rtmp_new_input.create_and_report env args direct_config w))
      = pre ++ [Printed (record_text resp);
                Printed (nl +:+ "RTMP Input created successfully!")].
Proof.
  pose proof (create_and_report_end env args direct_config w) as H. cbv zeta in H.
  destruct H as (_ & _ & H).
  destruct (fst (rtmp_new_input.create_rtmp_input env args direct_config w))
    as [[resp info]|e].
  - destruct H as [-> ->]. intros [= <-]. split; [done|]. by eexists _, _.
  - rewrite H. by intros [=].
Qed.

(** The full script always ends with an exit status: 0 after it printed
    the descriptor of the input and the line of success, 1 after a line
    that starts with [Error: ]; no exception leaves [main], but a
    [SystemExit], which the script never raises itself.  Without a
    configuration file and without a source type or an application name and
    instance, the status is 1 and nothing is asked of the cloud or of the
    operator. *)
Theorem main_exit_status env config_truthy config_get_error args w :
  let out := rtmp_new_input.main env config_truthy config_get_error args w in
  ((fst out = Ok 0
    ∧ exists pre resp,
        console (snd out)
        = pre ++ [Printed (record_text resp);
                  Printed (nl +:+ "RTMP Input created successfully!")])
   ∨ (fst out = Ok 1
      ∧ exists pre line, console (snd out) = pre ++ [Printed ("Error: " +:+ line)])
   ∨ exists msg, fst out = Raise (SystemExit msg))
  ∧ (Py.truthy (config args) = false ->
     Py.truthy (source_type args) = false ∨ Py.truthy (app_name args) = false
     ∨ Py.truthy (app_instance args) = false ->
     fst out = Ok 1 ∧ calls (snd out) = calls w ∧ stdin (snd out) = stdin w).
Proof.
  intros out. split.
  - assert (Hhandled : forall (m : M Z) w0,
      (forall z, fst (m w0) = Ok z ->
         (z = 0 ∧ exists pre resp,
            console (snd (m w0))
            = pre ++ [Printed (record_text resp);
                      Printed (nl +:+ "RTMP Input created successfully!")])
         ∨ (z = 1 ∧ exists pre line,
              console (snd (m w0)) = pre ++ [Printed ("Error: " +:+ line)])) ->
      let o := try_except m
                 (on_Exception (fun e => print ("Error: " +:+ exn_str e) >> ret 1)) w0 in
      (fst o = Ok 0
       ∧ exists pre resp,
           console (snd o)
           = pre ++ [Printed (record_text resp);
                     Printed (nl +:+ "RTMP Input created successfully!")])
      ∨ (fst o = Ok 1
         ∧ exists pre line, console (snd o) = pre ++ [Printed ("Error: " +:+ line)])
      ∨ exists msg, fst o = Raise (SystemExit msg)).
    { intros m w0 Hm. cbv zeta. unfold try_except.
      destruct (m w0) as [[z|e] w1]; cbn [fst snd] in *.
      - destruct (Hm z eq_refl) as [[-> ?]|[-> ?]]; [by left | right; by left].
      - destruct e; cbn; try (right; left; split; [done|]; by eexists _, _).
        right. right. by eexists. }
    apply Hhandled. intros z.
    destruct (Py.truthy (config args)).
    + intros H. left.
      apply bind_Ok_inv in H as (dc & w1 & Hload & H).
      rewrite (bind_ok _ _ _ _ _ Hload).
      apply bind_Ok_inv in H as ([] & w2 & Hregion & H).
      rewrite (bind_ok _ _ _ _ _ Hregion).
      unfold bind at 1, print in H. unfold bind at 1, print.
      by apply create_and_report_status in H.
    + destruct (negb (Py.truthy (source_type args))).
      { intros [= <-]. right. split; [done|]. by eexists _, _. }
      destruct (negb (Py.truthy (app_name args)) || negb (Py.truthy (app_instance args))).
      { intros [= <-]. right. split; [done|]. by eexists _, _. }
      intros H. left. by apply create_and_report_status in H.
  - intros Hcfg Hmiss. subst out. unfold rtmp_new_input.main, try_except. rewrite Hcfg.
    destruct (Py.truthy (source_type args)); [|done]. cbn [negb].
    assert (negb (Py.truthy (app_name args)) || negb (Py.truthy (app_instance args)) = true)
      as ->; [|done].
    destruct Hmiss as [? | [-> | ->]]; [done|done|]. by rewrite orb_true_r.
Qed.

Lemma main_exit_status_witness :
  let env := account (Ok []) [] [] (fun n => n) in
  let args :=
    {| config := None; name := None; region := Some "us-east-2";
       source_type := Some "AWS"; app_name := None; app_instance := None;
       secondary_app_name := None; secondary_app_instance := None;
       security_group := None; subnets := None; role_arn := None;
       network := None; static_ip := None; network_routes := None;
       tags := None |} in
  let out := rtmp_new_input.main env (fun _ => true) (fun _ => None) args (fresh ["new"]) in
  fst out = Ok 1 ∧ calls (snd out) = [] ∧ stdin (snd out) = ["new"].
Proof.
  intros env args out.
  refine (proj2 (main_exit_status env (fun _ => true) (fun _ => None) args (fresh ["new"]))
            _ _).
  - reflexivity.
  - right. left. reflexivity.
Defined.

(** ** The network of an ON_PREMISES input *)

(** When the ON_PREMISES branch of the full builder returns, a network
    with a non-empty identifier is attached to every destination of the
    request and recorded: the one given in the arguments when one is given,
    without a question.  The networks are listed first in any case. *)
Theorem on_premises_network_attached env args req info w req' info' :
  fst (rtmp_new_input.on_premises_branch env args req info w) = Ok (req', info') ->
  exists network_id,
    network_id ≠ ""
    ∧ Destinations req' = (map (bind_network args network_id) <$> Destinations req)
    ∧ rtmp_new_input.info_networks info'
      = rtmp_new_input.info_networks info ++ [network_id]
    ∧ (forall d ds, Destinations req' = Some ds -> d ∈ ds -> Network d = Some network_id)
    ∧ (Py.truthy (network args) = true ->
       network args = Some network_id
       ∧ stdin (snd (rtmp_new_input.on_premises_branch env args req info w)) = stdin w
       ∧ calls (snd (rtmp_new_input.on_premises_branch env args req info w))
         = calls w ++ [ListNetworks]).
Proof.
  unfold rtmp_new_input.on_premises_branch. intros H.
  pose proof H as H0.
  apply bind_Ok_inv in H as (nets & w1 & Hnets & H).
  apply bind_Ok_inv in H as (nid & w2 & Hnid & H).
  destruct nid as [[|c r]|]; try done. injection H as <- <-.
  exists (String c r). split_and!; try done.
  - intros d ds Hds Hd. cbn in Hds. destruct (Destinations req) as [l|]; [|done].
    injection Hds as <-. by apply list_elem_of_fmap in Hd as (d0 & -> & _).
  - intros Ht. rewrite Ht in Hnid. injection Hnid as Hn <-.
    rewrite (bind_ok _ _ _ _ _ Hnets). rewrite Ht.
    unfold bind, ret. rewrite Hn. cbn [snd].
    revert Hnets. unfold rtmp_new_input.get_available_networks, try_except, bind, call.
    destruct (api_list_networks env (calls w)) as [resp|[]];
      first [by intros [=] | intros [= _ <-]; done].
Qed.

Lemma on_premises_network_attached_witness :
  let env := account (Ok []) [] [] (fun n => n) in
  let args :=
    {| config := None; name := None; region := Some "us-east-2";
       source_type := Some "ON_PREMISES";
       app_name := Some "live"; app_instance := Some "main";
       secondary_app_name := None; secondary_app_instance := None;
       security_group := None; subnets := None; role_arn := None;
       network := Some "net-7"; static_ip := Some "10.0.0.9";
       network_routes := Some ["10.1.0.0/16:10.0.0.1"]; tags := None |} in
  let req := {| Name := "n"; Type_ := "RTMP_PUSH"; InputNetworkLocation := "ON_PREMISES";
                Destinations := Some (destinations args); InputSecurityGroups := None;
                Vpc := None; RoleArn := None; Tags := None |} in
  let info := {| rtmp_new_input.info_subnets := [];
                 rtmp_new_input.info_security_groups := [];
                 rtmp_new_input.info_availability_zones := ∅;
                 rtmp_new_input.info_networks := [] |} in
  let req' := set_Destinations
                (Some (map (bind_network args "net-7") (destinations args))) req in
  let info' := rtmp_new_input.report_network "net-7" info in
  exists network_id,
    network_id ≠ ""
    ∧ Destinations req' = (map (bind_network args network_id) <$> Destinations req)
    ∧ rtmp_new_input.info_networks info'
      = rtmp_new_input.info_networks info ++ [network_id]
    ∧ (forall d ds, Destinations req' = Some ds -> d ∈ ds -> Network d = Some network_id)
    ∧ (Py.truthy (network args) = true ->
       network args = Some network_id
       ∧ stdin (snd (rtmp_new_input.on_premises_branch env args req info (fresh ["typed"])))
         = stdin (fresh ["typed"])
       ∧ calls (snd (rtmp_new_input.on_premises_branch env args req info (fresh ["typed"])))
         = calls (fresh ["typed"]) ++ [ListNetworks]).
Proof.
  intros env args req info req' info'.
  refine (on_premises_network_attached env args req info (fresh ["typed"]) req' info' _).
  reflexivity.
Defined.

(** ** The availability zone of a subnet *)

Lemma availability_zones_snoc subs s :
  availability_zones (subs ++ [s])
  = <[SubnetId s := default "Unknown" (AvailabilityZone s)]> (availability_zones subs).
Proof. unfold availability_zones. by rewrite foldl_app. Qed.

Lemma get_az_for_subnet_app sid subs s :
  rtmp_new_input.get_az_for_subnet sid (subs ++ [s])
  = if bool_decide (sid ∈ map SubnetId subs) then rtmp_new_input.get_az_for_subnet sid subs
    else if bool_decide (SubnetId s = sid) then default "Unknown" (AvailabilityZone s)
    else "Unknown".
Proof.
  induction subs as [|s0 subs IH]; cbn [rtmp_new_input.get_az_for_subnet app map].
  - rewrite (bool_decide_eq_false_2 (sid ∈ _)) by apply not_elem_of_nil. done.
  - destruct (decide (SubnetId s0 = sid)) as [Heq|Hne].
    + rewrite (bool_decide_eq_true_2 _ Heq).
      rewrite bool_decide_eq_true_2; [done|]. rewrite Heq. apply list_elem_of_here.
    + rewrite (bool_decide_eq_false_2 _ Hne), IH.
      destruct (decide (sid ∈ map SubnetId subs)) as [Hin|Hnin].
      * rewrite (bool_decide_eq_true_2 _ Hin).
        rewrite bool_decide_eq_true_2; [done|]. by apply list_elem_of_further.
      * rewrite (bool_decide_eq_false_2 _ Hnin).
        rewrite (bool_decide_eq_false_2 (sid ∈ _ :: _)); [done|].
        intros [?|?]%elem_of_cons; congruence.
Qed.

(** [get_az_for_subnet] and the zone report of a run agree on every
    identifier when the subnets listed have distinct identifiers: a subnet
    that is not listed has no entry and the zone [Unknown], a listed one has
    its zone, or [Unknown] when the listing gives none.  With an identifier
    listed twice the function takes the first subnet and the report the
    last. *)
Theorem availability_zone_lookup subs sid :
  NoDup (map SubnetId subs) ->
  availability_zones subs !! sid
  = (if bool_decide (sid ∈ map SubnetId subs)
     then Some (rtmp_new_input.get_az_for_subnet sid subs) else None)
  ∧ (sid ∉ map SubnetId subs -> rtmp_new_input.get_az_for_subnet sid subs = "Unknown")
  ∧ (forall s, s ∈ subs -> SubnetId s = sid ->
               rtmp_new_input.get_az_for_subnet sid subs
               = default "Unknown" (AvailabilityZone s)).
Proof.
  intros Hnd.
  assert (Hout : forall l, sid ∉ map SubnetId l ->
                           rtmp_new_input.get_az_for_subnet sid l = "Unknown").
  { induction l as [|s0 l IH]; [done|]. cbn. intros Hn.
    rewrite bool_decide_eq_false_2; [apply IH|]; intros ?; apply Hn;
      [by apply list_elem_of_further | subst; apply list_elem_of_here]. }
  split_and!.
  - induction subs as [|s subs IH] using rev_ind.
    + rewrite bool_decide_eq_false_2 by apply not_elem_of_nil. done.
    + rewrite map_app in Hnd. apply NoDup_app in Hnd as (Hnd & Hdis & _).
      rewrite availability_zones_snoc, get_az_for_subnet_app, map_app.
      specialize (IH Hnd). destruct (decide (SubnetId s = sid)) as [Heq|Hne].
      * assert (sid ∉ map SubnetId subs) as Hnot.
        { intros Hin. apply (Hdis _ Hin). rewrite <- Heq. apply list_elem_of_here. }
        rewrite <- Heq at 1. rewrite lookup_insert_eq.
        rewrite (bool_decide_eq_false_2 _ Hnot), (bool_decide_eq_true_2 _ Heq).
        rewrite bool_decide_eq_true_2; [done|].
        apply elem_of_app. right. rewrite <- Heq. apply list_elem_of_here.
      * rewrite lookup_insert_ne by done. rewrite IH.
        destruct (decide (sid ∈ map SubnetId subs)) as [Hin|Hnin].
        -- rewrite !(bool_decide_eq_true_2 _ Hin).
           rewrite bool_decide_eq_true_2; [done|]. apply elem_of_app. by left.
        -- rewrite !(bool_decide_eq_false_2 _ Hnin).
           rewrite bool_decide_eq_false_2; [done|].
           intros [?|Hs]%elem_of_app; [done|].
           cbn in Hs. apply elem_of_cons in Hs as [?|Hs]; [done|].
           by apply not_elem_of_nil in Hs.
  - apply Hout.
  - intros s Hs Hid. clear Hout.
    induction subs as [|s0 subs IH]; [by apply not_elem_of_nil in Hs|].
    cbn [map] in Hnd. apply NoDup_cons in Hnd as [Hnot Hnd].
    cbn [rtmp_new_input.get_az_for_subnet].
    apply elem_of_cons in Hs as [<-|Hs].
    + by rewrite bool_decide_eq_true_2.
    + rewrite bool_decide_eq_false_2; [by apply IH|].
      intros Heq. apply Hnot. rewrite Heq, <- Hid. apply list_elem_of_fmap. by exists s.
Qed.

Lemma availability_zone_lookup_witness :
  let subs := [subnet_in "subnet-a" "us-east-2a"; subnet_in "subnet-b" "us-east-2b"] in
  availability_zones subs !! "subnet-b" = Some "us-east-2b"
  ∧ ("subnet-b" ∉ map SubnetId subs ->
     rtmp_new_input.get_az_for_subnet "subnet-b" subs = "Unknown")
  ∧ (forall s, s ∈ subs -> SubnetId s = "subnet-b" ->
               rtmp_new_input.get_az_for_subnet "subnet-b" subs
               = default "Unknown" (AvailabilityZone s)).
Proof.
  intros subs.
  refine (availability_zone_lookup subs "subnet-b" _).
  apply (bool_decide_unpack _). vm_compute. reflexivity.
Defined.

(** With an identifier listed twice the two disagree. *)
Example availability_zone_twice :
  let subs := [subnet_in "subnet-a" "us-east-2a"; subnet_in "subnet-a" "us-east-2b"] in
  rtmp_new_input.get_az_for_subnet "subnet-a" subs = "us-east-2a"
  ∧ availability_zones subs !! "subnet-a" = Some "us-east-2b".
Proof. cbv zeta. split; [reflexivity|]. vm_compute. reflexivity. Qed.

(** The report in the record that a run of the full builder returns. *)
Example availability_zones_of_a_run :
  (fun out => rtmp_new_input.info_availability_zones <$>
                match fst out with Ok (_, info) => Some info | Raise _ => None end)
    (rtmp_new_input.create_rtmp_input vpc_account
       (run_args "AWS_VPC" None (Some ["subnet-a"; "subnet-b"])
                 (Some "arn:aws:iam::1:role/medialive") None)
       None (fresh []))
  = Some (availability_zones
            [subnet_in "subnet-a" "us-east-2a"; subnet_in "subnet-b" "us-east-2b";
             subnet_in "subnet-c" "us-east-2c"]).
Proof. vm_compute. reflexivity. Qed.
